(** * Robottelo configuration layer: [robottelo/config/settings.py]

    A shallow embedding of the settings reader (INIReader), the feature
    setting groups (ServerSettings, DockerSettings, ...) and the Settings
    aggregate with its [configure] sequence, followed by the properties
    the specification states about them.

    Python objects are records of dynamically typed values ([pyval]);
    exceptions are an explicit result type; methods that assign attributes
    one after the other run in a small state-and-exception monad in which
    the assignments made before an exception stay visible afterwards, as
    they do on a Python instance. *)

From stdpp Require Import base option list strings gmap pretty.
From Stdlib Require Import ZArith Lia Ascii.

Open Scope string_scope.

(** ** Python values *)

(** The values that reach the settings objects: [None], booleans,
    integers, strings, and the containers built by the casters. *)
#[local] Set Warnings "-register-all".
Inductive pyval : Type :=
| VNone
| VBool (b : bool)
| VInt (z : Z)
| VStr (s : string)
| VList (l : list pyval)
| VTuple (l : list pyval)
| VDict (d : list (pyval * pyval)).

(** Python truth value: what [if x], [not x], [any] and [all] test. *)
Definition truthy (v : pyval) : bool :=
  match v with
  | VNone => false
  | VBool b => b
  | VInt z => negb (z =? 0)%Z
  | VStr s => negb (bool_decide (s = ""))
  | VList l => negb (bool_decide (length l = 0))
  | VTuple l => negb (bool_decide (length l = 0))
  | VDict d => negb (bool_decide (length d = 0))
  end.

(** [x is None] *)
Definition is_None (v : pyval) : bool :=
  match v with VNone => true | _ => false end.

(** [x == 'literal'] for a string literal on the right. *)
Definition eq_str (v : pyval) (s : string) : bool :=
  match v with VStr t => bool_decide (t = s) | _ => false end.

(** [x in (s1, s2, ...)] for a tuple of string literals. *)
Definition in_strs (v : pyval) (l : list string) : bool :=
  existsb (eq_str v) l.

(** [any(values)] and [all(values)] *)
Definition py_any (l : list pyval) : bool := existsb truthy l.
Definition py_all (l : list pyval) : bool := forallb truthy l.

(** ** Exceptions *)

Inductive exn : Type :=
| NoSectionError (section : string)
| NoOptionError (opt section : string)
| ValueError (msg : string)
| TypeError (msg : string)
| IOError (msg : string)
| ParsingError (msg : string)
| InterpolationError (msg : string)
| KeyError (key : string)
| ImproperlyConfigured (msg : string)
| Unmodelled (what : string).

Inductive result (A : Type) : Type :=
| Ok (a : A)
| Raise (e : exn).
Arguments Ok {A} a.
Arguments Raise {A} e.

(** The two exception classes named by [except (NoSectionError,
    NoOptionError)] in [INIReader.get]. *)
Definition is_lookup_error (e : exn) : bool :=
  match e with
  | NoSectionError _ | NoOptionError _ _ => true
  | _ => false
  end.

(** ** State and exceptions

    A computation over a mutable object of type [St]: it returns a value
    or raises, and in both cases hands back the object as it then is. *)
Definition M (St A : Type) : Type := St -> result A * St.

Definition ret {St A} (a : A) : M St A := fun st => (Ok a, st).

Definition raise {St A} (e : exn) : M St A := fun st => (Raise e, st).

Definition bind {St A B} (c : M St A) (k : A -> M St B) : M St B :=
  fun st =>
    match c st with
    | (Ok a, st') => k a st'
    | (Raise e, st') => (Raise e, st')
    end.

Definition lift {St A} (r : result A) : M St A := fun st => (r, st).

Definition gets {St A} (f : St -> A) : M St A := fun st => (Ok (f st), st).

Definition modify {St} (f : St -> St) : M St unit := fun st => (Ok tt, f st).

(** Run a computation on a component of the state (a sub-object held in
    an attribute), writing the component back whatever the outcome. *)
Definition zoom {St Sub A} (proj : St -> Sub) (upd : Sub -> St -> St)
    (c : M Sub A) : M St A :=
  fun st =>
    match c (proj st) with
    | (r, sub') => (r, upd sub' st)
    end.

Notation "x <- c ;; k" := (bind c (fun x => k))
  (at level 100, c at next level, right associativity).
Notation "c ;;; k" := (bind c (fun _ => k))
  (at level 100, right associativity).

(** ** Strings

    A string is a sequence of characters with codes below 256. *)

Definition nl : string := String (Ascii.ascii_of_nat 10) "".

(** [sep.join(l)] *)
Fixpoint join (sep : string) (l : list string) : string :=
  match l with
  | [] => ""
  | [x] => x
  | x :: rest => x ++ sep ++ join sep rest
  end.

(** [str(v)] as used by [str.format]; containers are outside the model. *)
Definition py_str (v : pyval) : result string :=
  match v with
  | VNone => Ok "None"
  | VBool true => Ok "True"
  | VBool false => Ok "False"
  | VInt z => Ok (pretty z)
  | VStr s => Ok s
  | _ => Raise (Unmodelled "str() of a container")
  end.

(** [os.path.join(a, b)] for a directory [a] without trailing slash and a
    relative [b]. *)
Definition path_join (a b : string) : string := a ++ "/" ++ b.

(** ** Casters

    [robottelo.config.casts] provides the callables that [INIReader]
    holds as class attributes.  They are an interface here: each takes
    the raw option string and returns a value or raises.

    The builtin [int], which [ServerSettings.read] and
    [PerformanceSettings.read] pass as a cast, belongs to the interface
    as well: which literals it accepts depends on the interpreter (digit
    separators, the decimal digits of other scripts), and all that the
    code relies on is that what it returns is an integer. *)
Class Casters : Type := {
  cast_boolean : string -> result pyval;
  cast_dict : string -> result pyval;
  cast_list : string -> result pyval;
  cast_logging_level : string -> result pyval;
  cast_tuple : string -> result pyval;
  cast_webdriver_desired_capabilities : string -> result pyval;
  py_int : string -> result pyval;
  py_int_returns_int :
    forall s v, py_int s = Ok v -> exists z : Z, v = VInt z
}.

(** The [cast] argument of [INIReader.get]: one of the builtin types
    [bool], [dict], [list], [tuple], which [get] recognises by identity,
    or any other callable. *)
Inductive cast_arg : Type :=
| py_bool
| py_dict
| py_list
| py_tuple
| callable (f : string -> result pyval).

(** *** [str.strip] *)

(** The characters that [str.isspace] accepts. *)
Definition is_space (c : Ascii.ascii) : bool :=
  let n := Ascii.nat_of_ascii c in
  (n =? 32)%nat || ((9 <=? n)%nat && (n <=? 13)%nat) ||
  ((28 <=? n)%nat && (n <=? 31)%nat) || (n =? 133)%nat || (n =? 160)%nat.

Fixpoint lstrip (s : string) : string :=
  match s with
  | String c rest => if is_space c then lstrip rest else s
  | EmptyString => s
  end.

Fixpoint rstrip (s : string) : string :=
  match s with
  | String c rest =>
      match rstrip rest with
      | EmptyString => if is_space c then "" else String c ""
      | rest' => String c rest'
      end
  | EmptyString => s
  end.

Definition strip (s : string) : string := rstrip (lstrip s).

(** *** The builtin [int] on strings

    The [int] of the sample runs: decimal literals in ASCII digits, as
    Python 3 reads them. *)
Module builtins.

Definition digit_of (c : Ascii.ascii) : option Z :=
  let n := Ascii.nat_of_ascii c in
  if (48 <=? n)%nat && (n <=? 57)%nat then Some (Z.of_nat (n - 48)) else None.

(** Digits, with single underscores between them; [after_digit] tells
    whether the character before was a digit. *)
Fixpoint digits_value (acc : Z) (after_digit : bool) (s : string)
    : option Z :=
  match s with
  | EmptyString => if after_digit then Some acc else None
  | String c rest =>
      match digit_of c with
      | Some d => digits_value (10 * acc + d) true rest
      | None =>
          if Ascii.eqb c "_"%char && after_digit
          then digits_value acc false rest
          else None
      end
  end.

Definition parse_int (s : string) : option Z :=
  match s with
  | String c ds =>
      if Ascii.eqb c "-"%char then Z.opp <$> digits_value 0 false ds
      else if Ascii.eqb c "+"%char then digits_value 0 false ds
      else digits_value 0 false s
  | EmptyString => None
  end.

Definition hex_digit (n : nat) : Ascii.ascii :=
  Ascii.ascii_of_nat (if (n <? 10)%nat then 48 + n else 87 + n).

Definition is_printable (n : nat) : bool :=
  ((32 <=? n)%nat && (n <=? 126)%nat) ||
  ((161 <=? n)%nat && negb (n =? 173)%nat).

(** The characters of [repr(s)] between the quotes, for the quote
    character [quote]. *)
Fixpoint repr_body (quote : Ascii.ascii) (s : string) : string :=
  match s with
  | EmptyString => ""
  | String c rest =>
      let n := Ascii.nat_of_ascii c in
      (if Ascii.eqb c quote || (n =? 92)%nat
       then String (Ascii.ascii_of_nat 92) (String c "")
       else if (n =? 9)%nat then String (Ascii.ascii_of_nat 92) "t"
       else if (n =? 10)%nat then String (Ascii.ascii_of_nat 92) "n"
       else if (n =? 13)%nat then String (Ascii.ascii_of_nat 92) "r"
       else if is_printable n then String c ""
       else String (Ascii.ascii_of_nat 92)
              (String "x"%char
                 (String (hex_digit (n / 16))
                    (String (hex_digit (n mod 16)) ""))))
      ++ repr_body quote rest
  end.

Fixpoint contains (c : Ascii.ascii) (s : string) : bool :=
  match s with
  | EmptyString => false
  | String d rest => Ascii.eqb c d || contains c rest
  end.

(** [repr(s)]: double quotes when [s] has a single quote and no double
    quote, single quotes otherwise. *)
Definition repr (s : string) : string :=
  let single := Ascii.ascii_of_nat 39 in
  let double := Ascii.ascii_of_nat 34 in
  let quote :=
    if contains single s && negb (contains double s) then double
    else single in
  String quote (repr_body quote s ++ String quote "").

(** [int(s)]: surrounding whitespace is ignored, then an optional sign
    and decimal digits, single underscores allowed between digits;
    anything else is a [ValueError] quoting [s]. *)
Definition int (s : string) : result pyval :=
  match parse_int (strip s) with
  | Some z => Ok (VInt z)
  | None =>
      Raise (ValueError ("invalid literal for int() with base 10: " ++ repr s))
  end.

End builtins.

(** ** The parsed source and [ConfigParser]

    The parser after the settings file is loaded, by what it answers:
    for each section, and for each option name under which the parser
    serves something there (an option of the section itself or one
    inherited from the default section, under every spelling that the
    parser's [optionxform] maps to it), the outcome of
    [get(section, option)]: the value after interpolation, or the
    exception that interpolation raises.  The row of the default section,
    if there is one, holds what [get] serves under that name. *)
Definition RawConfigSource : Type := gmap string (gmap string (result string)).

(** [configparser.DEFAULTSECT] *)
Definition DEFAULTSECT : string := "DEFAULT".

(** [ConfigParser.get(section, option)]; the option name is [opt] here.
    A section that the parser does not have is a [NoSectionError], except
    for the default section, which always exists. *)
Definition ConfigParser_get (cp : RawConfigSource) (section opt : string)
    : result string :=
  match cp !! section with
  | None =>
      if bool_decide (section = DEFAULTSECT)
      then Raise (NoOptionError opt section)
      else Raise (NoSectionError section)
  | Some opts =>
      match opts !! opt with
      | None => Raise (NoOptionError opt section)
      | Some outcome => outcome
      end
  end.

(** [ConfigParser.has_section(section)]: the default section is not
    acknowledged. *)
Definition ConfigParser_has_section (cp : RawConfigSource) (section : string)
    : bool :=
  bool_decide (is_Some (cp !! section)) &&
  negb (bool_decide (section = DEFAULTSECT)).

(** The string that the parser returns for [opt] in [section], if it
    returns one. *)
Definition option_value (cp : RawConfigSource) (section opt : string)
    : option string :=
  match ConfigParser_get cp section opt with
  | Ok value => Some value
  | Raise _ => None
  end.

(** ** The process environment

    What [configure] reads from and writes to outside the [Settings]
    instance: the project root, the settings file (absent, unreadable or
    malformed, or parsed), whether [logging.conf] exists, how the
    [logging] module and NailGun answer each call made to them, and the
    process-wide effects performed so far, in order. *)
Inductive event : Type :=
| EvOpen (path : string)
| EvCaptureWarnings (capture : bool)
| EvSetLevel (logger : string) (level : pyval)
| EvFileConfig (path : string)
| EvBasicConfig (format : string)
| EvCreateMissing (value : bool)
| EvDefaultServerConfig (url : string) (auth : pyval * pyval) (verify : bool)
| EvPatchGPGKeyInit (content : string)
| EvPatchDockerComputeResourceInit (url : pyval).

Record World : Type := {
  project_root : string;
  settings_file : option (result RawConfigSource);
  logging_conf : bool;
  (** The exception, if any, with which a library call answers: for
      instance [fileConfig] on a malformed [logging.conf], or [setLevel]
      on a value that is not a level. *)
  library : event -> option exn;
  trace : list event
}.

(** Record an effect that has taken place. *)
Definition emit (e : event) : M World unit :=
  modify (fun w =>
    {| project_root := project_root w; settings_file := settings_file w;
       logging_conf := logging_conf w; library := library w;
       trace := trace w ++ [e] |}).

(** A call into the [logging] module or NailGun: it raises what the
    library answers with, and is recorded when it returns. *)
Definition call (e : event) : M World unit :=
  fun w =>
    match library w e with
    | Some x => (Raise x, w)
    | None => emit e w
    end.

(** The events of [_configure_logging], [_configure_third_party_logging]
    and [_configure_entities]; opening the settings file is not one. *)
Definition is_side_effect (e : event) : bool :=
  match e with EvOpen _ => false | _ => true end.

(** ** INIReader *)

Module INIReader.

Record t : Type := { config_parser : RawConfigSource }.

Section WithCasters.
Context `{Casters}.

(** The dispatch on [cast] inside [get]. *)
Definition apply_cast (cast : cast_arg) (value : string) : result pyval :=
  match cast with
  | py_bool => cast_boolean value
  | py_dict => cast_dict value
  | py_list => cast_list value
  | py_tuple => cast_tuple value
  | callable f => f value
  end.

(** The body of the [try] block of [get]. *)
Definition get_try (self : t) (section opt : string)
    (cast : option cast_arg) : result pyval :=
  match ConfigParser_get (config_parser self) section opt with
  | Raise e => Raise e
  | Ok value =>
      match cast with
      | None => Ok (VStr value)
      | Some c => apply_cast c value
      end
  end.

(** [INIReader.get(section, option, default=None, cast=None)] *)
Definition get (self : t) (section opt : string) (default : pyval)
    (cast : option cast_arg) : result pyval :=
  match get_try self section opt cast with
  | Raise (NoSectionError _) => Ok default
  | Raise (NoOptionError _ _) => Ok default
  | r => r
  end.

End WithCasters.

(** [INIReader(path)]: open and parse the file at [path]. *)
Definition __init__ (path : string) : M World t :=
  emit (EvOpen path) ;;;
  file <- gets settings_file ;;
  match file with
  | None => raise (IOError ("No such file or directory: '" ++ path ++ "'"))
  | Some (Raise e) => raise e
  | Some (Ok cp) => ret {| config_parser := cp |}
  end.

(** [INIReader.has_section(section)] *)
Definition has_section (self : t) (section : string) : bool :=
  ConfigParser_has_section (config_parser self) section.

End INIReader.

(** The reader that [INIReader(path)] builds when the file parses to
    [src]. *)
Definition reader_of (src : RawConfigSource) : INIReader.t :=
  {| INIReader.config_parser := src |}.

(** ** URL composition

    [urlunsplit] of the standard library, for the calls made here: the
    query and the fragment are empty, the scheme and the netloc come from
    attributes.  A falsy netloc counts as the empty string; a scheme or a
    truthy netloc that is not a string is outside the model. *)

(** [urllib.parse.uses_netloc] *)
Definition uses_netloc : list string :=
  [""; "ftp"; "http"; "gopher"; "nntp"; "telnet"; "imap"; "wais"; "file";
   "mms"; "https"; "shttp"; "snews"; "prospero"; "rtsp"; "rtspu"; "rsync";
   "svn"; "svn+ssh"; "sftp"; "nfs"; "git"; "git+ssh"; "ws"; "wss"].

Definition starts_with (p s : string) : bool :=
  bool_decide (String.substring 0 (String.length p) s = p).

Definition urlunsplit_str (scheme netloc url : string) : string :=
  let url :=
    if negb (bool_decide (netloc = "")) ||
       (negb (bool_decide (scheme = "")) && bool_decide (scheme ∈ uses_netloc)
        && negb (starts_with "//" url))
    then
      let url :=
        if negb (bool_decide (url = "")) && negb (starts_with "/" url)
        then "/" ++ url else url in
      "//" ++ netloc ++ url
    else url in
  if negb (bool_decide (scheme = "")) then scheme ++ ":" ++ url else url.

Definition urlunsplit (scheme netloc : pyval) (url : string) : result string :=
  match scheme with
  | VStr scheme =>
      match netloc with
      | VStr netloc => Ok (urlunsplit_str scheme netloc url)
      | _ =>
          if truthy netloc
          then Raise (Unmodelled "urlunsplit with a non-string netloc")
          else Ok (urlunsplit_str scheme "" url)
      end
  | _ => Raise (Unmodelled "urlunsplit with a non-string scheme")
  end.

(** ['{0}:{1}'.format(hostname, port)] *)
Definition format_host_port (hostname port : pyval) : result string :=
  match py_str hostname with
  | Ok h =>
      match py_str port with
      | Ok p => Ok (h ++ ":" ++ p)
      | Raise e => Raise e
      end
  | Raise e => Raise e
  end.

(** ** Feature setting groups

    Each group is a class with its attributes set to [None] by
    [__init__], a [read] that assigns them one by one from the reader, and
    a [validate] that returns the list of error strings. *)

(** [self.attr = value] where evaluating [value] may raise. *)
Definition assign {St} (setter : pyval -> St -> St) (value : result pyval)
    : M St unit :=
  v <- lift value ;; modify (setter v).

(** *** Satellite server settings *)

Module ServerSettings.

Record t : Type := mk {
  admin_password : pyval;
  admin_username : pyval;
  hostname : pyval;
  port : pyval;
  scheme : pyval;
  ssh_key : pyval;
  ssh_password : pyval;
  ssh_username : pyval
}.

Definition __init__ : t :=
  {|
    admin_password := VNone; admin_username := VNone; hostname := VNone;
    port := VNone; scheme := VNone; ssh_key := VNone;
    ssh_password := VNone; ssh_username := VNone
  |}.

Definition set_admin_password (v : pyval) (self : t) : t :=
  {|
    admin_password := v; admin_username := admin_username self;
    hostname := hostname self; port := port self; scheme := scheme self;
    ssh_key := ssh_key self; ssh_password := ssh_password self;
    ssh_username := ssh_username self
  |}.
Definition set_admin_username (v : pyval) (self : t) : t :=
  {|
    admin_password := admin_password self; admin_username := v;
    hostname := hostname self; port := port self; scheme := scheme self;
    ssh_key := ssh_key self; ssh_password := ssh_password self;
    ssh_username := ssh_username self
  |}.
Definition set_hostname (v : pyval) (self : t) : t :=
  {|
    admin_password := admin_password self;
    admin_username := admin_username self; hostname := v;
    port := port self; scheme := scheme self; ssh_key := ssh_key self;
    ssh_password := ssh_password self; ssh_username := ssh_username self
  |}.
Definition set_port (v : pyval) (self : t) : t :=
  {|
    admin_password := admin_password self;
    admin_username := admin_username self; hostname := hostname self;
    port := v; scheme := scheme self; ssh_key := ssh_key self;
    ssh_password := ssh_password self; ssh_username := ssh_username self
  |}.
Definition set_scheme (v : pyval) (self : t) : t :=
  {|
    admin_password := admin_password self;
    admin_username := admin_username self; hostname := hostname self;
    port := port self; scheme := v; ssh_key := ssh_key self;
    ssh_password := ssh_password self; ssh_username := ssh_username self
  |}.
Definition set_ssh_key (v : pyval) (self : t) : t :=
  {|
    admin_password := admin_password self;
    admin_username := admin_username self; hostname := hostname self;
    port := port self; scheme := scheme self; ssh_key := v;
    ssh_password := ssh_password self; ssh_username := ssh_username self
  |}.
Definition set_ssh_password (v : pyval) (self : t) : t :=
  {|
    admin_password := admin_password self;
    admin_username := admin_username self; hostname := hostname self;
    port := port self; scheme := scheme self; ssh_key := ssh_key self;
    ssh_password := v; ssh_username := ssh_username self
  |}.
Definition set_ssh_username (v : pyval) (self : t) : t :=
  {|
    admin_password := admin_password self;
    admin_username := admin_username self; hostname := hostname self;
    port := port self; scheme := scheme self; ssh_key := ssh_key self;
    ssh_password := ssh_password self; ssh_username := v
  |}.

Definition vars (self : t) : list (string * pyval) :=
  [("admin_password", admin_password self);
   ("admin_username", admin_username self);
   ("hostname", hostname self);
   ("port", port self);
   ("scheme", scheme self);
   ("ssh_key", ssh_key self);
   ("ssh_password", ssh_password self);
   ("ssh_username", ssh_username self)].

(** [ServerSettings.read(reader)] *)
Definition read `{Casters} (reader : INIReader.t) : M t unit :=
  assign set_admin_password
    (INIReader.get reader "server" "admin_password" (VStr "changeme") None) ;;;
  assign set_admin_username
    (INIReader.get reader "server" "admin_username" (VStr "admin") None) ;;;
  assign set_hostname
    (INIReader.get reader "server" "hostname" VNone None) ;;;
  assign set_port
    (INIReader.get reader "server" "port" VNone (Some (callable py_int))) ;;;
  assign set_scheme
    (INIReader.get reader "server" "scheme" (VStr "https") None) ;;;
  assign set_ssh_key
    (INIReader.get reader "server" "ssh_key" VNone None) ;;;
  assign set_ssh_password
    (INIReader.get reader "server" "ssh_password" VNone None) ;;;
  assign set_ssh_username
    (INIReader.get reader "server" "ssh_username" (VStr "root") None).

(** [validate()] *)
Definition validate (self : t) : list string :=
  (if is_None (hostname self)
   then ["[server] hostname must be provided."]
   else []) ++
  (if is_None (ssh_key self) && is_None (ssh_password self)
   then ["[server] ssh_key or ssh_password must be provided."]
   else []).

(** [get_credentials()] *)
Definition get_credentials (self : t) : pyval * pyval :=
  (admin_username self, admin_password self).

(** [get_url()] *)
Definition get_url (self : t) : result string :=
  let scheme := if negb (truthy (scheme self)) then VStr "https" else scheme self in
  if negb (truthy (port self))
  then urlunsplit scheme (hostname self) ""
  else
    match format_host_port (hostname self) (port self) with
    | Ok netloc => urlunsplit scheme (VStr netloc) ""
    | Raise e => Raise e
    end.

(** [get_pub_url()] *)
Definition get_pub_url (self : t) : result string :=
  urlunsplit (VStr "http") (hostname self) "pub/".

End ServerSettings.

(** *** Clients settings *)

Module ClientsSettings.

Record t : Type := mk {
  image_dir : pyval;
  provisioning_server : pyval
}.

Definition __init__ : t :=
  {|
    image_dir := VNone; provisioning_server := VNone
  |}.

Definition set_image_dir (v : pyval) (self : t) : t :=
  {|
    image_dir := v; provisioning_server := provisioning_server self
  |}.
Definition set_provisioning_server (v : pyval) (self : t) : t :=
  {|
    image_dir := image_dir self; provisioning_server := v
  |}.

Definition vars (self : t) : list (string * pyval) :=
  [("image_dir", image_dir self);
   ("provisioning_server", provisioning_server self)].

(** [ClientsSettings.read(reader)] *)
Definition read `{Casters} (reader : INIReader.t) : M t unit :=
  assign set_image_dir
    (INIReader.get reader "clients" "image_dir" (VStr "/opt/robottelo/images") None) ;;;
  assign set_provisioning_server
    (INIReader.get reader "clients" "provisioning_server" VNone None).

(** [validate()] *)
Definition validate (self : t) : list string :=
  (if is_None (provisioning_server self)
   then ["[clients] provisioning_server option must be provided."]
   else []).

End ClientsSettings.

(** *** Docker settings *)

Module DockerSettings.

Record t : Type := mk {
  unix_socket : pyval;
  external_url : pyval
}.

Definition __init__ : t :=
  {|
    unix_socket := VNone; external_url := VNone
  |}.

Definition set_unix_socket (v : pyval) (self : t) : t :=
  {|
    unix_socket := v; external_url := external_url self
  |}.
Definition set_external_url (v : pyval) (self : t) : t :=
  {|
    unix_socket := unix_socket self; external_url := v
  |}.

Definition vars (self : t) : list (string * pyval) :=
  [("unix_socket", unix_socket self);
   ("external_url", external_url self)].

(** [DockerSettings.read(reader)] *)
Definition read `{Casters} (reader : INIReader.t) : M t unit :=
  assign set_unix_socket
    (INIReader.get reader "docker" "unix_socket" (VBool false) (Some py_bool)) ;;;
  assign set_external_url
    (INIReader.get reader "docker" "external_url" VNone None).

(** [validate()]: [not any(vars(self).values())] *)
Definition validate (self : t) : list string :=
  if negb (py_any (map snd (vars self)))
  then ["Either [docker] unix_socket or external_url options must be provided or enabled."]
  else [].

(** [get_unix_socket_url()] *)
Definition get_unix_socket_url (self : t) : pyval :=
  if truthy (unix_socket self) then VStr "unix:///var/run/docker.sock" else VNone.

End DockerSettings.

(** *** Fake manifest settings *)

Module FakeManifestSettings.

Record t : Type := mk {
  cert_url : pyval;
  key_url : pyval;
  url : pyval
}.

Definition __init__ : t :=
  {|
    cert_url := VNone; key_url := VNone; url := VNone
  |}.

Definition set_cert_url (v : pyval) (self : t) : t :=
  {|
    cert_url := v; key_url := key_url self; url := url self
  |}.
Definition set_key_url (v : pyval) (self : t) : t :=
  {|
    cert_url := cert_url self; key_url := v; url := url self
  |}.
Definition set_url (v : pyval) (self : t) : t :=
  {|
    cert_url := cert_url self; key_url := key_url self; url := v
  |}.

Definition vars (self : t) : list (string * pyval) :=
  [("cert_url", cert_url self);
   ("key_url", key_url self);
   ("url", url self)].

(** [FakeManifestSettings.read(reader)] *)
Definition read `{Casters} (reader : INIReader.t) : M t unit :=
  assign set_cert_url
    (INIReader.get reader "fake_manifest" "cert_url" VNone None) ;;;
  assign set_key_url
    (INIReader.get reader "fake_manifest" "key_url" VNone None) ;;;
  assign set_url
    (INIReader.get reader "fake_manifest" "url" VNone None).

(** [validate()]: [not all(vars(self).values())] *)
Definition validate (self : t) : list string :=
  if negb (py_all (map snd (vars self)))
  then ["All [fake_manifest] cert_url, key_url, url options must be provided."]
  else [].

End FakeManifestSettings.

(** *** LDAP settings *)

Module LDAPSettings.

Record t : Type := mk {
  basedn : pyval;
  grpbasedn : pyval;
  hostname : pyval;
  password : pyval;
  username : pyval
}.

Definition __init__ : t :=
  {|
    basedn := VNone; grpbasedn := VNone; hostname := VNone;
    password := VNone; username := VNone
  |}.

Definition set_basedn (v : pyval) (self : t) : t :=
  {|
    basedn := v; grpbasedn := grpbasedn self; hostname := hostname self;
    password := password self; username := username self
  |}.
Definition set_grpbasedn (v : pyval) (self : t) : t :=
  {|
    basedn := basedn self; grpbasedn := v; hostname := hostname self;
    password := password self; username := username self
  |}.
Definition set_hostname (v : pyval) (self : t) : t :=
  {|
    basedn := basedn self; grpbasedn := grpbasedn self; hostname := v;
    password := password self; username := username self
  |}.
Definition set_password (v : pyval) (self : t) : t :=
  {|
    basedn := basedn self; grpbasedn := grpbasedn self;
    hostname := hostname self; password := v; username := username self
  |}.
Definition set_username (v : pyval) (self : t) : t :=
  {|
    basedn := basedn self; grpbasedn := grpbasedn self;
    hostname := hostname self; password := password self; username := v
  |}.

Definition vars (self : t) : list (string * pyval) :=
  [("basedn", basedn self);
   ("grpbasedn", grpbasedn self);
   ("hostname", hostname self);
   ("password", password self);
   ("username", username self)].

(** [LDAPSettings.read(reader)] *)
Definition read `{Casters} (reader : INIReader.t) : M t unit :=
  assign set_basedn
    (INIReader.get reader "ldap" "basedn" VNone None) ;;;
  assign set_grpbasedn
    (INIReader.get reader "ldap" "grpbasedn" VNone None) ;;;
  assign set_hostname
    (INIReader.get reader "ldap" "hostname" VNone None) ;;;
  assign set_password
    (INIReader.get reader "ldap" "password" VNone None) ;;;
  assign set_username
    (INIReader.get reader "ldap" "username" VNone None).

(** [validate()]: [not all(vars(self).values())] *)
Definition validate (self : t) : list string :=
  if negb (py_all (map snd (vars self)))
  then ["All [ldap] basedn, grpbasedn, hostname, password, username options must be provided."]
  else [].

End LDAPSettings.

(** *** Libvirt host settings *)

Module LibvirtHostSettings.

Record t : Type := mk {
  libvirt_image_dir : pyval;
  libvirt_hostname : pyval
}.

Definition __init__ : t :=
  {|
    libvirt_image_dir := VNone; libvirt_hostname := VNone
  |}.

Definition set_libvirt_image_dir (v : pyval) (self : t) : t :=
  {|
    libvirt_image_dir := v; libvirt_hostname := libvirt_hostname self
  |}.
Definition set_libvirt_hostname (v : pyval) (self : t) : t :=
  {|
    libvirt_image_dir := libvirt_image_dir self; libvirt_hostname := v
  |}.

Definition vars (self : t) : list (string * pyval) :=
  [("libvirt_image_dir", libvirt_image_dir self);
   ("libvirt_hostname", libvirt_hostname self)].

(** [LibvirtHostSettings.read(reader)] *)
Definition read `{Casters} (reader : INIReader.t) : M t unit :=
  assign set_libvirt_image_dir
    (INIReader.get reader "compute_resources" "libvirt_image_dir" (VStr "/var/lib/libvirt/images") None) ;;;
  assign set_libvirt_hostname
    (INIReader.get reader "compute_resources" "libvirt_hostname" VNone None).

(** [validate()] *)
Definition validate (self : t) : list string :=
  (if is_None (libvirt_hostname self)
   then ["[compute_resources] libvirt_hostname option must be provided."]
   else []).

End LibvirtHostSettings.

(** *** Discovery ISO name settings *)

Module DiscoveryISOSettings.

Record t : Type := mk {
  discovery_iso : pyval
}.

Definition __init__ : t :=
  {|
    discovery_iso := VNone
  |}.

Definition set_discovery_iso (v : pyval) (self : t) : t :=
  {|
    discovery_iso := v
  |}.

Definition vars (self : t) : list (string * pyval) :=
  [("discovery_iso", discovery_iso self)].

(** [DiscoveryISOSettings.read(reader)] *)
Definition read `{Casters} (reader : INIReader.t) : M t unit :=
  assign set_discovery_iso
    (INIReader.get reader "discovery" "discovery_iso" VNone None).

(** [validate()] *)
Definition validate (self : t) : list string :=
  (if is_None (discovery_iso self)
   then ["[discovery] discovery iso name must be provided."]
   else []).

End DiscoveryISOSettings.

(** *** Oscap settings *)

Module OscapSettings.

Record t : Type := mk {
  content_path : pyval
}.

Definition __init__ : t :=
  {|
    content_path := VNone
  |}.

Definition set_content_path (v : pyval) (self : t) : t :=
  {|
    content_path := v
  |}.

Definition vars (self : t) : list (string * pyval) :=
  [("content_path", content_path self)].

(** [OscapSettings.read(reader)] *)
Definition read `{Casters} (reader : INIReader.t) : M t unit :=
  assign set_content_path
    (INIReader.get reader "oscap" "content_path" VNone None).

(** [validate()] *)
Definition validate (self : t) : list string :=
  (if is_None (content_path self)
   then ["[oscap] content_path option must be provided."]
   else []).

End OscapSettings.

(** *** Performance settings *)

Module PerformanceSettings.

Record t : Type := mk {
  time_hammer : pyval;
  cdn_address : pyval;
  virtual_machines : pyval;
  fresh_install_savepoint : pyval;
  enabled_repos_savepoint : pyval;
  csv_buckets_count : pyval;
  sync_count : pyval;
  sync_type : pyval;
  repos : pyval
}.

Definition __init__ : t :=
  {|
    time_hammer := VNone; cdn_address := VNone; virtual_machines := VNone;
    fresh_install_savepoint := VNone; enabled_repos_savepoint := VNone;
    csv_buckets_count := VNone; sync_count := VNone; sync_type := VNone;
    repos := VNone
  |}.

Definition set_time_hammer (v : pyval) (self : t) : t :=
  {|
    time_hammer := v; cdn_address := cdn_address self;
    virtual_machines := virtual_machines self;
    fresh_install_savepoint := fresh_install_savepoint self;
    enabled_repos_savepoint := enabled_repos_savepoint self;
    csv_buckets_count := csv_buckets_count self;
    sync_count := sync_count self; sync_type := sync_type self;
    repos := repos self
  |}.
Definition set_cdn_address (v : pyval) (self : t) : t :=
  {|
    time_hammer := time_hammer self; cdn_address := v;
    virtual_machines := virtual_machines self;
    fresh_install_savepoint := fresh_install_savepoint self;
    enabled_repos_savepoint := enabled_repos_savepoint self;
    csv_buckets_count := csv_buckets_count self;
    sync_count := sync_count self; sync_type := sync_type self;
    repos := repos self
  |}.
Definition set_virtual_machines (v : pyval) (self : t) : t :=
  {|
    time_hammer := time_hammer self; cdn_address := cdn_address self;
    virtual_machines := v;
    fresh_install_savepoint := fresh_install_savepoint self;
    enabled_repos_savepoint := enabled_repos_savepoint self;
    csv_buckets_count := csv_buckets_count self;
    sync_count := sync_count self; sync_type := sync_type self;
    repos := repos self
  |}.
Definition set_fresh_install_savepoint (v : pyval) (self : t) : t :=
  {|
    time_hammer := time_hammer self; cdn_address := cdn_address self;
    virtual_machines := virtual_machines self;
    fresh_install_savepoint := v;
    enabled_repos_savepoint := enabled_repos_savepoint self;
    csv_buckets_count := csv_buckets_count self;
    sync_count := sync_count self; sync_type := sync_type self;
    repos := repos self
  |}.
Definition set_enabled_repos_savepoint (v : pyval) (self : t) : t :=
  {|
    time_hammer := time_hammer self; cdn_address := cdn_address self;
    virtual_machines := virtual_machines self;
    fresh_install_savepoint := fresh_install_savepoint self;
    enabled_repos_savepoint := v;
    csv_buckets_count := csv_buckets_count self;
    sync_count := sync_count self; sync_type := sync_type self;
    repos := repos self
  |}.
Definition set_csv_buckets_count (v : pyval) (self : t) : t :=
  {|
    time_hammer := time_hammer self; cdn_address := cdn_address self;
    virtual_machines := virtual_machines self;
    fresh_install_savepoint := fresh_install_savepoint self;
    enabled_repos_savepoint := enabled_repos_savepoint self;
    csv_buckets_count := v; sync_count := sync_count self;
    sync_type := sync_type self; repos := repos self
  |}.
Definition set_sync_count (v : pyval) (self : t) : t :=
  {|
    time_hammer := time_hammer self; cdn_address := cdn_address self;
    virtual_machines := virtual_machines self;
    fresh_install_savepoint := fresh_install_savepoint self;
    enabled_repos_savepoint := enabled_repos_savepoint self;
    csv_buckets_count := csv_buckets_count self; sync_count := v;
    sync_type := sync_type self; repos := repos self
  |}.
Definition set_sync_type (v : pyval) (self : t) : t :=
  {|
    time_hammer := time_hammer self; cdn_address := cdn_address self;
    virtual_machines := virtual_machines self;
    fresh_install_savepoint := fresh_install_savepoint self;
    enabled_repos_savepoint := enabled_repos_savepoint self;
    csv_buckets_count := csv_buckets_count self;
    sync_count := sync_count self; sync_type := v; repos := repos self
  |}.
Definition set_repos (v : pyval) (self : t) : t :=
  {|
    time_hammer := time_hammer self; cdn_address := cdn_address self;
    virtual_machines := virtual_machines self;
    fresh_install_savepoint := fresh_install_savepoint self;
    enabled_repos_savepoint := enabled_repos_savepoint self;
    csv_buckets_count := csv_buckets_count self;
    sync_count := sync_count self; sync_type := sync_type self; repos := v
  |}.

Definition vars (self : t) : list (string * pyval) :=
  [("time_hammer", time_hammer self);
   ("cdn_address", cdn_address self);
   ("virtual_machines", virtual_machines self);
   ("fresh_install_savepoint", fresh_install_savepoint self);
   ("enabled_repos_savepoint", enabled_repos_savepoint self);
   ("csv_buckets_count", csv_buckets_count self);
   ("sync_count", sync_count self);
   ("sync_type", sync_type self);
   ("repos", repos self)].

(** [PerformanceSettings.read(reader)] *)
Definition read `{Casters} (reader : INIReader.t) : M t unit :=
  assign set_time_hammer
    (INIReader.get reader "performance" "time_hammer" (VBool false) (Some py_bool)) ;;;
  assign set_cdn_address
    (INIReader.get reader "performance" "cdn_address" VNone None) ;;;
  assign set_virtual_machines
    (INIReader.get reader "performance" "virtual_machines" VNone (Some py_list)) ;;;
  assign set_fresh_install_savepoint
    (INIReader.get reader "performance" "fresh_install_savepoint" VNone None) ;;;
  assign set_enabled_repos_savepoint
    (INIReader.get reader "performance" "enabled_repos_savepoint" VNone None) ;;;
  assign set_csv_buckets_count
    (INIReader.get reader "performance" "csv_buckets_count" (VInt 10) (Some (callable py_int))) ;;;
  assign set_sync_count
    (INIReader.get reader "performance" "sync_count" (VInt 3) (Some (callable py_int))) ;;;
  assign set_sync_type
    (INIReader.get reader "performance" "sync_type" (VStr "sync") None) ;;;
  assign set_repos
    (INIReader.get reader "performance" "repos" VNone (Some py_list)).

(** [validate()] *)
Definition validate (self : t) : list string :=
  (if is_None (cdn_address self)
   then ["[performance] cdn_address must be provided."]
   else []) ++
  (if is_None (virtual_machines self)
   then ["[performance] virtual_machines must be provided."]
   else []) ++
  (if is_None (fresh_install_savepoint self)
   then ["[performance] fresh_install_savepoint must be provided."]
   else []) ++
  (if is_None (enabled_repos_savepoint self)
   then ["[performance] enabled_repos_savepoint must be provided."]
   else []).

End PerformanceSettings.

(** *** RHAI settings *)

Module RHAISettings.

Record t : Type := mk {
  insights_client_el6repo : pyval;
  insights_client_el7repo : pyval
}.

Definition __init__ : t :=
  {|
    insights_client_el6repo := VNone; insights_client_el7repo := VNone
  |}.

Definition set_insights_client_el6repo (v : pyval) (self : t) : t :=
  {|
    insights_client_el6repo := v;
    insights_client_el7repo := insights_client_el7repo self
  |}.
Definition set_insights_client_el7repo (v : pyval) (self : t) : t :=
  {|
    insights_client_el6repo := insights_client_el6repo self;
    insights_client_el7repo := v
  |}.

Definition vars (self : t) : list (string * pyval) :=
  [("insights_client_el6repo", insights_client_el6repo self);
   ("insights_client_el7repo", insights_client_el7repo self)].

(** [RHAISettings.read(reader)] *)
Definition read `{Casters} (reader : INIReader.t) : M t unit :=
  assign set_insights_client_el6repo
    (INIReader.get reader "rhai" "insights_client_el6repo" VNone None) ;;;
  assign set_insights_client_el7repo
    (INIReader.get reader "rhai" "insights_client_el7repo" VNone None).

(** [validate()] *)
Definition validate (self : t) : list string := [].

End RHAISettings.

(** *** Transition settings *)

Module TransitionSettings.

Record t : Type := mk {
  exported_data : pyval
}.

Definition __init__ : t :=
  {|
    exported_data := VNone
  |}.

Definition set_exported_data (v : pyval) (self : t) : t :=
  {|
    exported_data := v
  |}.

Definition vars (self : t) : list (string * pyval) :=
  [("exported_data", exported_data self)].

(** [TransitionSettings.read(reader)] *)
Definition read `{Casters} (reader : INIReader.t) : M t unit :=
  assign set_exported_data
    (INIReader.get reader "transition" "exported_data" VNone None).

(** [validate()] *)
Definition validate (self : t) : list string :=
  (if is_None (exported_data self)
   then ["[transition] exported_data must be provided."]
   else []).

End TransitionSettings.

(** *** Vlan Network settings *)

Module VlanNetworkSettings.

Record t : Type := mk {
  subnet : pyval;
  netmask : pyval;
  gateway : pyval;
  bridge : pyval
}.

Definition __init__ : t :=
  {|
    subnet := VNone; netmask := VNone; gateway := VNone; bridge := VNone
  |}.

Definition set_subnet (v : pyval) (self : t) : t :=
  {|
    subnet := v; netmask := netmask self; gateway := gateway self;
    bridge := bridge self
  |}.
Definition set_netmask (v : pyval) (self : t) : t :=
  {|
    subnet := subnet self; netmask := v; gateway := gateway self;
    bridge := bridge self
  |}.
Definition set_gateway (v : pyval) (self : t) : t :=
  {|
    subnet := subnet self; netmask := netmask self; gateway := v;
    bridge := bridge self
  |}.
Definition set_bridge (v : pyval) (self : t) : t :=
  {|
    subnet := subnet self; netmask := netmask self;
    gateway := gateway self; bridge := v
  |}.

Definition vars (self : t) : list (string * pyval) :=
  [("subnet", subnet self);
   ("netmask", netmask self);
   ("gateway", gateway self);
   ("bridge", bridge self)].

(** [VlanNetworkSettings.read(reader)] *)
Definition read `{Casters} (reader : INIReader.t) : M t unit :=
  assign set_subnet
    (INIReader.get reader "vlan_networking" "subnet" VNone None) ;;;
  assign set_netmask
    (INIReader.get reader "vlan_networking" "netmask" VNone None) ;;;
  assign set_gateway
    (INIReader.get reader "vlan_networking" "gateway" VNone None) ;;;
  assign set_bridge
    (INIReader.get reader "vlan_networking" "bridge" VNone None).

(** [validate()]: [not all(vars(self).values())] *)
Definition validate (self : t) : list string :=
  if negb (py_all (map snd (vars self)))
  then ["All [vlan_networking] subnet, netmask, gateway, bridge options must be provided."]
  else [].

End VlanNetworkSettings.

(** ** The Settings aggregate *)

Inductive feature : Type :=
| FServerSettings (g : ServerSettings.t)
| FClientsSettings (g : ClientsSettings.t)
| FLibvirtHostSettings (g : LibvirtHostSettings.t)
| FDiscoveryISOSettings (g : DiscoveryISOSettings.t)
| FDockerSettings (g : DockerSettings.t)
| FFakeManifestSettings (g : FakeManifestSettings.t)
| FLDAPSettings (g : LDAPSettings.t)
| FOscapSettings (g : OscapSettings.t)
| FPerformanceSettings (g : PerformanceSettings.t)
| FRHAISettings (g : RHAISettings.t)
| FTransitionSettings (g : TransitionSettings.t)
| FVlanNetworkSettings (g : VlanNetworkSettings.t).

(** What an attribute of a [Settings] instance can hold: a plain value,
    the reader, or an instance of a [FeatureSettings] subclass. *)
Inductive obj : Type :=
| Plain (v : pyval)
| Reader (r : INIReader.t)
| Feature (f : feature).

(** [isinstance(value, FeatureSettings)] *)
Definition isinstance_FeatureSettings (value : obj) : bool :=
  match value with Feature _ => true | _ => false end.

(** The interface of the base class: a call of [read] or [validate] on a
    feature settings object runs the method of its own class. *)
Module FeatureSettings.

Definition read `{Casters} (reader : INIReader.t) : M feature unit :=
  fun self =>
    match self with
    | FServerSettings g =>
        let '(r, g') := ServerSettings.read reader g in (r, FServerSettings g')
    | FClientsSettings g =>
        let '(r, g') := ClientsSettings.read reader g in (r, FClientsSettings g')
    | FLibvirtHostSettings g =>
        let '(r, g') := LibvirtHostSettings.read reader g in (r, FLibvirtHostSettings g')
    | FDiscoveryISOSettings g =>
        let '(r, g') := DiscoveryISOSettings.read reader g in (r, FDiscoveryISOSettings g')
    | FDockerSettings g =>
        let '(r, g') := DockerSettings.read reader g in (r, FDockerSettings g')
    | FFakeManifestSettings g =>
        let '(r, g') := FakeManifestSettings.read reader g in (r, FFakeManifestSettings g')
    | FLDAPSettings g =>
        let '(r, g') := LDAPSettings.read reader g in (r, FLDAPSettings g')
    | FOscapSettings g =>
        let '(r, g') := OscapSettings.read reader g in (r, FOscapSettings g')
    | FPerformanceSettings g =>
        let '(r, g') := PerformanceSettings.read reader g in (r, FPerformanceSettings g')
    | FRHAISettings g =>
        let '(r, g') := RHAISettings.read reader g in (r, FRHAISettings g')
    | FTransitionSettings g =>
        let '(r, g') := TransitionSettings.read reader g in (r, FTransitionSettings g')
    | FVlanNetworkSettings g =>
        let '(r, g') := VlanNetworkSettings.read reader g in (r, FVlanNetworkSettings g')
    end.

Definition validate (self : feature) : list string :=
  match self with
  | FServerSettings g => ServerSettings.validate g
  | FClientsSettings g => ClientsSettings.validate g
  | FLibvirtHostSettings g => LibvirtHostSettings.validate g
  | FDiscoveryISOSettings g => DiscoveryISOSettings.validate g
  | FDockerSettings g => DockerSettings.validate g
  | FFakeManifestSettings g => FakeManifestSettings.validate g
  | FLDAPSettings g => LDAPSettings.validate g
  | FOscapSettings g => OscapSettings.validate g
  | FPerformanceSettings g => PerformanceSettings.validate g
  | FRHAISettings g => RHAISettings.validate g
  | FTransitionSettings g => TransitionSettings.validate g
  | FVlanNetworkSettings g => VlanNetworkSettings.validate g
  end.

End FeatureSettings.

Module Settings.

Record t : Type := mk {
  _all_features : option (list string);
  _configured : bool;
  _validation_errors : list string;
  browser : pyval;
  locale : pyval;
  project : pyval;
  reader : option INIReader.t;
  rhel6_repo : pyval;
  rhel7_repo : pyval;
  screenshots_path : pyval;
  saucelabs_key : pyval;
  saucelabs_user : pyval;
  server : ServerSettings.t;
  run_one_datapoint : pyval;
  upstream : pyval;
  verbosity : pyval;
  webdriver : pyval;
  webdriver_binary : pyval;
  webdriver_desired_capabilities : pyval;
  clients : ClientsSettings.t;
  compute_resources : LibvirtHostSettings.t;
  discovery : DiscoveryISOSettings.t;
  docker : DockerSettings.t;
  fake_manifest : FakeManifestSettings.t;
  ldap : LDAPSettings.t;
  oscap : OscapSettings.t;
  performance : PerformanceSettings.t;
  rhai : RHAISettings.t;
  transition : TransitionSettings.t;
  vlan_networking : VlanNetworkSettings.t;
  window_manager_command : option pyval
}.

(** [Settings()]: the attributes as [__init__] leaves them.  The attribute
    [window_manager_command] does not exist until the global options are
    read, hence its option type. *)
Definition __init__ : t :=
  {|
    _all_features := None; _configured := false; _validation_errors := [];
    browser := VNone; locale := VNone; project := VNone; reader := None;
    rhel6_repo := VNone; rhel7_repo := VNone; screenshots_path := VNone;
    saucelabs_key := VNone; saucelabs_user := VNone;
    server := ServerSettings.__init__; run_one_datapoint := VNone;
    upstream := VNone; verbosity := VNone; webdriver := VNone;
    webdriver_binary := VNone; webdriver_desired_capabilities := VNone;
    clients := ClientsSettings.__init__;
    compute_resources := LibvirtHostSettings.__init__;
    discovery := DiscoveryISOSettings.__init__;
    docker := DockerSettings.__init__;
    fake_manifest := FakeManifestSettings.__init__;
    ldap := LDAPSettings.__init__; oscap := OscapSettings.__init__;
    performance := PerformanceSettings.__init__;
    rhai := RHAISettings.__init__;
    transition := TransitionSettings.__init__;
    vlan_networking := VlanNetworkSettings.__init__;
    window_manager_command := None
  |}.

Definition set__all_features (v : option (list string)) (self : t) : t :=
  {|
    _all_features := v; _configured := _configured self;
    _validation_errors := _validation_errors self; browser := browser self;
    locale := locale self; project := project self; reader := reader self;
    rhel6_repo := rhel6_repo self; rhel7_repo := rhel7_repo self;
    screenshots_path := screenshots_path self;
    saucelabs_key := saucelabs_key self;
    saucelabs_user := saucelabs_user self; server := server self;
    run_one_datapoint := run_one_datapoint self; upstream := upstream self;
    verbosity := verbosity self; webdriver := webdriver self;
    webdriver_binary := webdriver_binary self;
    webdriver_desired_capabilities := webdriver_desired_capabilities self;
    clients := clients self; compute_resources := compute_resources self;
    discovery := discovery self; docker := docker self;
    fake_manifest := fake_manifest self; ldap := ldap self;
    oscap := oscap self; performance := performance self;
    rhai := rhai self; transition := transition self;
    vlan_networking := vlan_networking self;
    window_manager_command := window_manager_command self
  |}.
Definition set__configured (v : bool) (self : t) : t :=
  {|
    _all_features := _all_features self; _configured := v;
    _validation_errors := _validation_errors self; browser := browser self;
    locale := locale self; project := project self; reader := reader self;
    rhel6_repo := rhel6_repo self; rhel7_repo := rhel7_repo self;
    screenshots_path := screenshots_path self;
    saucelabs_key := saucelabs_key self;
    saucelabs_user := saucelabs_user self; server := server self;
    run_one_datapoint := run_one_datapoint self; upstream := upstream self;
    verbosity := verbosity self; webdriver := webdriver self;
    webdriver_binary := webdriver_binary self;
    webdriver_desired_capabilities := webdriver_desired_capabilities self;
    clients := clients self; compute_resources := compute_resources self;
    discovery := discovery self; docker := docker self;
    fake_manifest := fake_manifest self; ldap := ldap self;
    oscap := oscap self; performance := performance self;
    rhai := rhai self; transition := transition self;
    vlan_networking := vlan_networking self;
    window_manager_command := window_manager_command self
  |}.
Definition set__validation_errors (v : list string) (self : t) : t :=
  {|
    _all_features := _all_features self; _configured := _configured self;
    _validation_errors := v; browser := browser self;
    locale := locale self; project := project self; reader := reader self;
    rhel6_repo := rhel6_repo self; rhel7_repo := rhel7_repo self;
    screenshots_path := screenshots_path self;
    saucelabs_key := saucelabs_key self;
    saucelabs_user := saucelabs_user self; server := server self;
    run_one_datapoint := run_one_datapoint self; upstream := upstream self;
    verbosity := verbosity self; webdriver := webdriver self;
    webdriver_binary := webdriver_binary self;
    webdriver_desired_capabilities := webdriver_desired_capabilities self;
    clients := clients self; compute_resources := compute_resources self;
    discovery := discovery self; docker := docker self;
    fake_manifest := fake_manifest self; ldap := ldap self;
    oscap := oscap self; performance := performance self;
    rhai := rhai self; transition := transition self;
    vlan_networking := vlan_networking self;
    window_manager_command := window_manager_command self
  |}.
Definition set_browser (v : pyval) (self : t) : t :=
  {|
    _all_features := _all_features self; _configured := _configured self;
    _validation_errors := _validation_errors self; browser := v;
    locale := locale self; project := project self; reader := reader self;
    rhel6_repo := rhel6_repo self; rhel7_repo := rhel7_repo self;
    screenshots_path := screenshots_path self;
    saucelabs_key := saucelabs_key self;
    saucelabs_user := saucelabs_user self; server := server self;
    run_one_datapoint := run_one_datapoint self; upstream := upstream self;
    verbosity := verbosity self; webdriver := webdriver self;
    webdriver_binary := webdriver_binary self;
    webdriver_desired_capabilities := webdriver_desired_capabilities self;
    clients := clients self; compute_resources := compute_resources self;
    discovery := discovery self; docker := docker self;
    fake_manifest := fake_manifest self; ldap := ldap self;
    oscap := oscap self; performance := performance self;
    rhai := rhai self; transition := transition self;
    vlan_networking := vlan_networking self;
    window_manager_command := window_manager_command self
  |}.
Definition set_locale (v : pyval) (self : t) : t :=
  {|
    _all_features := _all_features self; _configured := _configured self;
    _validation_errors := _validation_errors self; browser := browser self;
    locale := v; project := project self; reader := reader self;
    rhel6_repo := rhel6_repo self; rhel7_repo := rhel7_repo self;
    screenshots_path := screenshots_path self;
    saucelabs_key := saucelabs_key self;
    saucelabs_user := saucelabs_user self; server := server self;
    run_one_datapoint := run_one_datapoint self; upstream := upstream self;
    verbosity := verbosity self; webdriver := webdriver self;
    webdriver_binary := webdriver_binary self;
    webdriver_desired_capabilities := webdriver_desired_capabilities self;
    clients := clients self; compute_resources := compute_resources self;
    discovery := discovery self; docker := docker self;
    fake_manifest := fake_manifest self; ldap := ldap self;
    oscap := oscap self; performance := performance self;
    rhai := rhai self; transition := transition self;
    vlan_networking := vlan_networking self;
    window_manager_command := window_manager_command self
  |}.
Definition set_project (v : pyval) (self : t) : t :=
  {|
    _all_features := _all_features self; _configured := _configured self;
    _validation_errors := _validation_errors self; browser := browser self;
    locale := locale self; project := v; reader := reader self;
    rhel6_repo := rhel6_repo self; rhel7_repo := rhel7_repo self;
    screenshots_path := screenshots_path self;
    saucelabs_key := saucelabs_key self;
    saucelabs_user := saucelabs_user self; server := server self;
    run_one_datapoint := run_one_datapoint self; upstream := upstream self;
    verbosity := verbosity self; webdriver := webdriver self;
    webdriver_binary := webdriver_binary self;
    webdriver_desired_capabilities := webdriver_desired_capabilities self;
    clients := clients self; compute_resources := compute_resources self;
    discovery := discovery self; docker := docker self;
    fake_manifest := fake_manifest self; ldap := ldap self;
    oscap := oscap self; performance := performance self;
    rhai := rhai self; transition := transition self;
    vlan_networking := vlan_networking self;
    window_manager_command := window_manager_command self
  |}.
Definition set_reader (v : option INIReader.t) (self : t) : t :=
  {|
    _all_features := _all_features self; _configured := _configured self;
    _validation_errors := _validation_errors self; browser := browser self;
    locale := locale self; project := project self; reader := v;
    rhel6_repo := rhel6_repo self; rhel7_repo := rhel7_repo self;
    screenshots_path := screenshots_path self;
    saucelabs_key := saucelabs_key self;
    saucelabs_user := saucelabs_user self; server := server self;
    run_one_datapoint := run_one_datapoint self; upstream := upstream self;
    verbosity := verbosity self; webdriver := webdriver self;
    webdriver_binary := webdriver_binary self;
    webdriver_desired_capabilities := webdriver_desired_capabilities self;
    clients := clients self; compute_resources := compute_resources self;
    discovery := discovery self; docker := docker self;
    fake_manifest := fake_manifest self; ldap := ldap self;
    oscap := oscap self; performance := performance self;
    rhai := rhai self; transition := transition self;
    vlan_networking := vlan_networking self;
    window_manager_command := window_manager_command self
  |}.
Definition set_rhel6_repo (v : pyval) (self : t) : t :=
  {|
    _all_features := _all_features self; _configured := _configured self;
    _validation_errors := _validation_errors self; browser := browser self;
    locale := locale self; project := project self; reader := reader self;
    rhel6_repo := v; rhel7_repo := rhel7_repo self;
    screenshots_path := screenshots_path self;
    saucelabs_key := saucelabs_key self;
    saucelabs_user := saucelabs_user self; server := server self;
    run_one_datapoint := run_one_datapoint self; upstream := upstream self;
    verbosity := verbosity self; webdriver := webdriver self;
    webdriver_binary := webdriver_binary self;
    webdriver_desired_capabilities := webdriver_desired_capabilities self;
    clients := clients self; compute_resources := compute_resources self;
    discovery := discovery self; docker := docker self;
    fake_manifest := fake_manifest self; ldap := ldap self;
    oscap := oscap self; performance := performance self;
    rhai := rhai self; transition := transition self;
    vlan_networking := vlan_networking self;
    window_manager_command := window_manager_command self
  |}.
Definition set_rhel7_repo (v : pyval) (self : t) : t :=
  {|
    _all_features := _all_features self; _configured := _configured self;
    _validation_errors := _validation_errors self; browser := browser self;
    locale := locale self; project := project self; reader := reader self;
    rhel6_repo := rhel6_repo self; rhel7_repo := v;
    screenshots_path := screenshots_path self;
    saucelabs_key := saucelabs_key self;
    saucelabs_user := saucelabs_user self; server := server self;
    run_one_datapoint := run_one_datapoint self; upstream := upstream self;
    verbosity := verbosity self; webdriver := webdriver self;
    webdriver_binary := webdriver_binary self;
    webdriver_desired_capabilities := webdriver_desired_capabilities self;
    clients := clients self; compute_resources := compute_resources self;
    discovery := discovery self; docker := docker self;
    fake_manifest := fake_manifest self; ldap := ldap self;
    oscap := oscap self; performance := performance self;
    rhai := rhai self; transition := transition self;
    vlan_networking := vlan_networking self;
    window_manager_command := window_manager_command self
  |}.
Definition set_screenshots_path (v : pyval) (self : t) : t :=
  {|
    _all_features := _all_features self; _configured := _configured self;
    _validation_errors := _validation_errors self; browser := browser self;
    locale := locale self; project := project self; reader := reader self;
    rhel6_repo := rhel6_repo self; rhel7_repo := rhel7_repo self;
    screenshots_path := v; saucelabs_key := saucelabs_key self;
    saucelabs_user := saucelabs_user self; server := server self;
    run_one_datapoint := run_one_datapoint self; upstream := upstream self;
    verbosity := verbosity self; webdriver := webdriver self;
    webdriver_binary := webdriver_binary self;
    webdriver_desired_capabilities := webdriver_desired_capabilities self;
    clients := clients self; compute_resources := compute_resources self;
    discovery := discovery self; docker := docker self;
    fake_manifest := fake_manifest self; ldap := ldap self;
    oscap := oscap self; performance := performance self;
    rhai := rhai self; transition := transition self;
    vlan_networking := vlan_networking self;
    window_manager_command := window_manager_command self
  |}.
Definition set_saucelabs_key (v : pyval) (self : t) : t :=
  {|
    _all_features := _all_features self; _configured := _configured self;
    _validation_errors := _validation_errors self; browser := browser self;
    locale := locale self; project := project self; reader := reader self;
    rhel6_repo := rhel6_repo self; rhel7_repo := rhel7_repo self;
    screenshots_path := screenshots_path self; saucelabs_key := v;
    saucelabs_user := saucelabs_user self; server := server self;
    run_one_datapoint := run_one_datapoint self; upstream := upstream self;
    verbosity := verbosity self; webdriver := webdriver self;
    webdriver_binary := webdriver_binary self;
    webdriver_desired_capabilities := webdriver_desired_capabilities self;
    clients := clients self; compute_resources := compute_resources self;
    discovery := discovery self; docker := docker self;
    fake_manifest := fake_manifest self; ldap := ldap self;
    oscap := oscap self; performance := performance self;
    rhai := rhai self; transition := transition self;
    vlan_networking := vlan_networking self;
    window_manager_command := window_manager_command self
  |}.
Definition set_saucelabs_user (v : pyval) (self : t) : t :=
  {|
    _all_features := _all_features self; _configured := _configured self;
    _validation_errors := _validation_errors self; browser := browser self;
    locale := locale self; project := project self; reader := reader self;
    rhel6_repo := rhel6_repo self; rhel7_repo := rhel7_repo self;
    screenshots_path := screenshots_path self;
    saucelabs_key := saucelabs_key self; saucelabs_user := v;
    server := server self; run_one_datapoint := run_one_datapoint self;
    upstream := upstream self; verbosity := verbosity self;
    webdriver := webdriver self; webdriver_binary := webdriver_binary self;
    webdriver_desired_capabilities := webdriver_desired_capabilities self;
    clients := clients self; compute_resources := compute_resources self;
    discovery := discovery self; docker := docker self;
    fake_manifest := fake_manifest self; ldap := ldap self;
    oscap := oscap self; performance := performance self;
    rhai := rhai self; transition := transition self;
    vlan_networking := vlan_networking self;
    window_manager_command := window_manager_command self
  |}.
Definition set_server (v : ServerSettings.t) (self : t) : t :=
  {|
    _all_features := _all_features self; _configured := _configured self;
    _validation_errors := _validation_errors self; browser := browser self;
    locale := locale self; project := project self; reader := reader self;
    rhel6_repo := rhel6_repo self; rhel7_repo := rhel7_repo self;
    screenshots_path := screenshots_path self;
    saucelabs_key := saucelabs_key self;
    saucelabs_user := saucelabs_user self; server := v;
    run_one_datapoint := run_one_datapoint self; upstream := upstream self;
    verbosity := verbosity self; webdriver := webdriver self;
    webdriver_binary := webdriver_binary self;
    webdriver_desired_capabilities := webdriver_desired_capabilities self;
    clients := clients self; compute_resources := compute_resources self;
    discovery := discovery self; docker := docker self;
    fake_manifest := fake_manifest self; ldap := ldap self;
    oscap := oscap self; performance := performance self;
    rhai := rhai self; transition := transition self;
    vlan_networking := vlan_networking self;
    window_manager_command := window_manager_command self
  |}.
Definition set_run_one_datapoint (v : pyval) (self : t) : t :=
  {|
    _all_features := _all_features self; _configured := _configured self;
    _validation_errors := _validation_errors self; browser := browser self;
    locale := locale self; project := project self; reader := reader self;
    rhel6_repo := rhel6_repo self; rhel7_repo := rhel7_repo self;
    screenshots_path := screenshots_path self;
    saucelabs_key := saucelabs_key self;
    saucelabs_user := saucelabs_user self; server := server self;
    run_one_datapoint := v; upstream := upstream self;
    verbosity := verbosity self; webdriver := webdriver self;
    webdriver_binary := webdriver_binary self;
    webdriver_desired_capabilities := webdriver_desired_capabilities self;
    clients := clients self; compute_resources := compute_resources self;
    discovery := discovery self; docker := docker self;
    fake_manifest := fake_manifest self; ldap := ldap self;
    oscap := oscap self; performance := performance self;
    rhai := rhai self; transition := transition self;
    vlan_networking := vlan_networking self;
    window_manager_command := window_manager_command self
  |}.
Definition set_upstream (v : pyval) (self : t) : t :=
  {|
    _all_features := _all_features self; _configured := _configured self;
    _validation_errors := _validation_errors self; browser := browser self;
    locale := locale self; project := project self; reader := reader self;
    rhel6_repo := rhel6_repo self; rhel7_repo := rhel7_repo self;
    screenshots_path := screenshots_path self;
    saucelabs_key := saucelabs_key self;
    saucelabs_user := saucelabs_user self; server := server self;
    run_one_datapoint := run_one_datapoint self; upstream := v;
    verbosity := verbosity self; webdriver := webdriver self;
    webdriver_binary := webdriver_binary self;
    webdriver_desired_capabilities := webdriver_desired_capabilities self;
    clients := clients self; compute_resources := compute_resources self;
    discovery := discovery self; docker := docker self;
    fake_manifest := fake_manifest self; ldap := ldap self;
    oscap := oscap self; performance := performance self;
    rhai := rhai self; transition := transition self;
    vlan_networking := vlan_networking self;
    window_manager_command := window_manager_command self
  |}.
Definition set_verbosity (v : pyval) (self : t) : t :=
  {|
    _all_features := _all_features self; _configured := _configured self;
    _validation_errors := _validation_errors self; browser := browser self;
    locale := locale self; project := project self; reader := reader self;
    rhel6_repo := rhel6_repo self; rhel7_repo := rhel7_repo self;
    screenshots_path := screenshots_path self;
    saucelabs_key := saucelabs_key self;
    saucelabs_user := saucelabs_user self; server := server self;
    run_one_datapoint := run_one_datapoint self; upstream := upstream self;
    verbosity := v; webdriver := webdriver self;
    webdriver_binary := webdriver_binary self;
    webdriver_desired_capabilities := webdriver_desired_capabilities self;
    clients := clients self; compute_resources := compute_resources self;
    discovery := discovery self; docker := docker self;
    fake_manifest := fake_manifest self; ldap := ldap self;
    oscap := oscap self; performance := performance self;
    rhai := rhai self; transition := transition self;
    vlan_networking := vlan_networking self;
    window_manager_command := window_manager_command self
  |}.
Definition set_webdriver (v : pyval) (self : t) : t :=
  {|
    _all_features := _all_features self; _configured := _configured self;
    _validation_errors := _validation_errors self; browser := browser self;
    locale := locale self; project := project self; reader := reader self;
    rhel6_repo := rhel6_repo self; rhel7_repo := rhel7_repo self;
    screenshots_path := screenshots_path self;
    saucelabs_key := saucelabs_key self;
    saucelabs_user := saucelabs_user self; server := server self;
    run_one_datapoint := run_one_datapoint self; upstream := upstream self;
    verbosity := verbosity self; webdriver := v;
    webdriver_binary := webdriver_binary self;
    webdriver_desired_capabilities := webdriver_desired_capabilities self;
    clients := clients self; compute_resources := compute_resources self;
    discovery := discovery self; docker := docker self;
    fake_manifest := fake_manifest self; ldap := ldap self;
    oscap := oscap self; performance := performance self;
    rhai := rhai self; transition := transition self;
    vlan_networking := vlan_networking self;
    window_manager_command := window_manager_command self
  |}.
Definition set_webdriver_binary (v : pyval) (self : t) : t :=
  {|
    _all_features := _all_features self; _configured := _configured self;
    _validation_errors := _validation_errors self; browser := browser self;
    locale := locale self; project := project self; reader := reader self;
    rhel6_repo := rhel6_repo self; rhel7_repo := rhel7_repo self;
    screenshots_path := screenshots_path self;
    saucelabs_key := saucelabs_key self;
    saucelabs_user := saucelabs_user self; server := server self;
    run_one_datapoint := run_one_datapoint self; upstream := upstream self;
    verbosity := verbosity self; webdriver := webdriver self;
    webdriver_binary := v;
    webdriver_desired_capabilities := webdriver_desired_capabilities self;
    clients := clients self; compute_resources := compute_resources self;
    discovery := discovery self; docker := docker self;
    fake_manifest := fake_manifest self; ldap := ldap self;
    oscap := oscap self; performance := performance self;
    rhai := rhai self; transition := transition self;
    vlan_networking := vlan_networking self;
    window_manager_command := window_manager_command self
  |}.
Definition set_webdriver_desired_capabilities (v : pyval) (self : t) : t :=
  {|
    _all_features := _all_features self; _configured := _configured self;
    _validation_errors := _validation_errors self; browser := browser self;
    locale := locale self; project := project self; reader := reader self;
    rhel6_repo := rhel6_repo self; rhel7_repo := rhel7_repo self;
    screenshots_path := screenshots_path self;
    saucelabs_key := saucelabs_key self;
    saucelabs_user := saucelabs_user self; server := server self;
    run_one_datapoint := run_one_datapoint self; upstream := upstream self;
    verbosity := verbosity self; webdriver := webdriver self;
    webdriver_binary := webdriver_binary self;
    webdriver_desired_capabilities := v; clients := clients self;
    compute_resources := compute_resources self;
    discovery := discovery self; docker := docker self;
    fake_manifest := fake_manifest self; ldap := ldap self;
    oscap := oscap self; performance := performance self;
    rhai := rhai self; transition := transition self;
    vlan_networking := vlan_networking self;
    window_manager_command := window_manager_command self
  |}.
Definition set_clients (v : ClientsSettings.t) (self : t) : t :=
  {|
    _all_features := _all_features self; _configured := _configured self;
    _validation_errors := _validation_errors self; browser := browser self;
    locale := locale self; project := project self; reader := reader self;
    rhel6_repo := rhel6_repo self; rhel7_repo := rhel7_repo self;
    screenshots_path := screenshots_path self;
    saucelabs_key := saucelabs_key self;
    saucelabs_user := saucelabs_user self; server := server self;
    run_one_datapoint := run_one_datapoint self; upstream := upstream self;
    verbosity := verbosity self; webdriver := webdriver self;
    webdriver_binary := webdriver_binary self;
    webdriver_desired_capabilities := webdriver_desired_capabilities self;
    clients := v; compute_resources := compute_resources self;
    discovery := discovery self; docker := docker self;
    fake_manifest := fake_manifest self; ldap := ldap self;
    oscap := oscap self; performance := performance self;
    rhai := rhai self; transition := transition self;
    vlan_networking := vlan_networking self;
    window_manager_command := window_manager_command self
  |}.
Definition set_compute_resources (v : LibvirtHostSettings.t) (self : t) : t :=
  {|
    _all_features := _all_features self; _configured := _configured self;
    _validation_errors := _validation_errors self; browser := browser self;
    locale := locale self; project := project self; reader := reader self;
    rhel6_repo := rhel6_repo self; rhel7_repo := rhel7_repo self;
    screenshots_path := screenshots_path self;
    saucelabs_key := saucelabs_key self;
    saucelabs_user := saucelabs_user self; server := server self;
    run_one_datapoint := run_one_datapoint self; upstream := upstream self;
    verbosity := verbosity self; webdriver := webdriver self;
    webdriver_binary := webdriver_binary self;
    webdriver_desired_capabilities := webdriver_desired_capabilities self;
    clients := clients self; compute_resources := v;
    discovery := discovery self; docker := docker self;
    fake_manifest := fake_manifest self; ldap := ldap self;
    oscap := oscap self; performance := performance self;
    rhai := rhai self; transition := transition self;
    vlan_networking := vlan_networking self;
    window_manager_command := window_manager_command self
  |}.
Definition set_discovery (v : DiscoveryISOSettings.t) (self : t) : t :=
  {|
    _all_features := _all_features self; _configured := _configured self;
    _validation_errors := _validation_errors self; browser := browser self;
    locale := locale self; project := project self; reader := reader self;
    rhel6_repo := rhel6_repo self; rhel7_repo := rhel7_repo self;
    screenshots_path := screenshots_path self;
    saucelabs_key := saucelabs_key self;
    saucelabs_user := saucelabs_user self; server := server self;
    run_one_datapoint := run_one_datapoint self; upstream := upstream self;
    verbosity := verbosity self; webdriver := webdriver self;
    webdriver_binary := webdriver_binary self;
    webdriver_desired_capabilities := webdriver_desired_capabilities self;
    clients := clients self; compute_resources := compute_resources self;
    discovery := v; docker := docker self;
    fake_manifest := fake_manifest self; ldap := ldap self;
    oscap := oscap self; performance := performance self;
    rhai := rhai self; transition := transition self;
    vlan_networking := vlan_networking self;
    window_manager_command := window_manager_command self
  |}.
Definition set_docker (v : DockerSettings.t) (self : t) : t :=
  {|
    _all_features := _all_features self; _configured := _configured self;
    _validation_errors := _validation_errors self; browser := browser self;
    locale := locale self; project := project self; reader := reader self;
    rhel6_repo := rhel6_repo self; rhel7_repo := rhel7_repo self;
    screenshots_path := screenshots_path self;
    saucelabs_key := saucelabs_key self;
    saucelabs_user := saucelabs_user self; server := server self;
    run_one_datapoint := run_one_datapoint self; upstream := upstream self;
    verbosity := verbosity self; webdriver := webdriver self;
    webdriver_binary := webdriver_binary self;
    webdriver_desired_capabilities := webdriver_desired_capabilities self;
    clients := clients self; compute_resources := compute_resources self;
    discovery := discovery self; docker := v;
    fake_manifest := fake_manifest self; ldap := ldap self;
    oscap := oscap self; performance := performance self;
    rhai := rhai self; transition := transition self;
    vlan_networking := vlan_networking self;
    window_manager_command := window_manager_command self
  |}.
Definition set_fake_manifest (v : FakeManifestSettings.t) (self : t) : t :=
  {|
    _all_features := _all_features self; _configured := _configured self;
    _validation_errors := _validation_errors self; browser := browser self;
    locale := locale self; project := project self; reader := reader self;
    rhel6_repo := rhel6_repo self; rhel7_repo := rhel7_repo self;
    screenshots_path := screenshots_path self;
    saucelabs_key := saucelabs_key self;
    saucelabs_user := saucelabs_user self; server := server self;
    run_one_datapoint := run_one_datapoint self; upstream := upstream self;
    verbosity := verbosity self; webdriver := webdriver self;
    webdriver_binary := webdriver_binary self;
    webdriver_desired_capabilities := webdriver_desired_capabilities self;
    clients := clients self; compute_resources := compute_resources self;
    discovery := discovery self; docker := docker self; fake_manifest := v;
    ldap := ldap self; oscap := oscap self;
    performance := performance self; rhai := rhai self;
    transition := transition self; vlan_networking := vlan_networking self;
    window_manager_command := window_manager_command self
  |}.
Definition set_ldap (v : LDAPSettings.t) (self : t) : t :=
  {|
    _all_features := _all_features self; _configured := _configured self;
    _validation_errors := _validation_errors self; browser := browser self;
    locale := locale self; project := project self; reader := reader self;
    rhel6_repo := rhel6_repo self; rhel7_repo := rhel7_repo self;
    screenshots_path := screenshots_path self;
    saucelabs_key := saucelabs_key self;
    saucelabs_user := saucelabs_user self; server := server self;
    run_one_datapoint := run_one_datapoint self; upstream := upstream self;
    verbosity := verbosity self; webdriver := webdriver self;
    webdriver_binary := webdriver_binary self;
    webdriver_desired_capabilities := webdriver_desired_capabilities self;
    clients := clients self; compute_resources := compute_resources self;
    discovery := discovery self; docker := docker self;
    fake_manifest := fake_manifest self; ldap := v; oscap := oscap self;
    performance := performance self; rhai := rhai self;
    transition := transition self; vlan_networking := vlan_networking self;
    window_manager_command := window_manager_command self
  |}.
Definition set_oscap (v : OscapSettings.t) (self : t) : t :=
  {|
    _all_features := _all_features self; _configured := _configured self;
    _validation_errors := _validation_errors self; browser := browser self;
    locale := locale self; project := project self; reader := reader self;
    rhel6_repo := rhel6_repo self; rhel7_repo := rhel7_repo self;
    screenshots_path := screenshots_path self;
    saucelabs_key := saucelabs_key self;
    saucelabs_user := saucelabs_user self; server := server self;
    run_one_datapoint := run_one_datapoint self; upstream := upstream self;
    verbosity := verbosity self; webdriver := webdriver self;
    webdriver_binary := webdriver_binary self;
    webdriver_desired_capabilities := webdriver_desired_capabilities self;
    clients := clients self; compute_resources := compute_resources self;
    discovery := discovery self; docker := docker self;
    fake_manifest := fake_manifest self; ldap := ldap self; oscap := v;
    performance := performance self; rhai := rhai self;
    transition := transition self; vlan_networking := vlan_networking self;
    window_manager_command := window_manager_command self
  |}.
Definition set_performance (v : PerformanceSettings.t) (self : t) : t :=
  {|
    _all_features := _all_features self; _configured := _configured self;
    _validation_errors := _validation_errors self; browser := browser self;
    locale := locale self; project := project self; reader := reader self;
    rhel6_repo := rhel6_repo self; rhel7_repo := rhel7_repo self;
    screenshots_path := screenshots_path self;
    saucelabs_key := saucelabs_key self;
    saucelabs_user := saucelabs_user self; server := server self;
    run_one_datapoint := run_one_datapoint self; upstream := upstream self;
    verbosity := verbosity self; webdriver := webdriver self;
    webdriver_binary := webdriver_binary self;
    webdriver_desired_capabilities := webdriver_desired_capabilities self;
    clients := clients self; compute_resources := compute_resources self;
    discovery := discovery self; docker := docker self;
    fake_manifest := fake_manifest self; ldap := ldap self;
    oscap := oscap self; performance := v; rhai := rhai self;
    transition := transition self; vlan_networking := vlan_networking self;
    window_manager_command := window_manager_command self
  |}.
Definition set_rhai (v : RHAISettings.t) (self : t) : t :=
  {|
    _all_features := _all_features self; _configured := _configured self;
    _validation_errors := _validation_errors self; browser := browser self;
    locale := locale self; project := project self; reader := reader self;
    rhel6_repo := rhel6_repo self; rhel7_repo := rhel7_repo self;
    screenshots_path := screenshots_path self;
    saucelabs_key := saucelabs_key self;
    saucelabs_user := saucelabs_user self; server := server self;
    run_one_datapoint := run_one_datapoint self; upstream := upstream self;
    verbosity := verbosity self; webdriver := webdriver self;
    webdriver_binary := webdriver_binary self;
    webdriver_desired_capabilities := webdriver_desired_capabilities self;
    clients := clients self; compute_resources := compute_resources self;
    discovery := discovery self; docker := docker self;
    fake_manifest := fake_manifest self; ldap := ldap self;
    oscap := oscap self; performance := performance self; rhai := v;
    transition := transition self; vlan_networking := vlan_networking self;
    window_manager_command := window_manager_command self
  |}.
Definition set_transition (v : TransitionSettings.t) (self : t) : t :=
  {|
    _all_features := _all_features self; _configured := _configured self;
    _validation_errors := _validation_errors self; browser := browser self;
    locale := locale self; project := project self; reader := reader self;
    rhel6_repo := rhel6_repo self; rhel7_repo := rhel7_repo self;
    screenshots_path := screenshots_path self;
    saucelabs_key := saucelabs_key self;
    saucelabs_user := saucelabs_user self; server := server self;
    run_one_datapoint := run_one_datapoint self; upstream := upstream self;
    verbosity := verbosity self; webdriver := webdriver self;
    webdriver_binary := webdriver_binary self;
    webdriver_desired_capabilities := webdriver_desired_capabilities self;
    clients := clients self; compute_resources := compute_resources self;
    discovery := discovery self; docker := docker self;
    fake_manifest := fake_manifest self; ldap := ldap self;
    oscap := oscap self; performance := performance self;
    rhai := rhai self; transition := v;
    vlan_networking := vlan_networking self;
    window_manager_command := window_manager_command self
  |}.
Definition set_vlan_networking (v : VlanNetworkSettings.t) (self : t) : t :=
  {|
    _all_features := _all_features self; _configured := _configured self;
    _validation_errors := _validation_errors self; browser := browser self;
    locale := locale self; project := project self; reader := reader self;
    rhel6_repo := rhel6_repo self; rhel7_repo := rhel7_repo self;
    screenshots_path := screenshots_path self;
    saucelabs_key := saucelabs_key self;
    saucelabs_user := saucelabs_user self; server := server self;
    run_one_datapoint := run_one_datapoint self; upstream := upstream self;
    verbosity := verbosity self; webdriver := webdriver self;
    webdriver_binary := webdriver_binary self;
    webdriver_desired_capabilities := webdriver_desired_capabilities self;
    clients := clients self; compute_resources := compute_resources self;
    discovery := discovery self; docker := docker self;
    fake_manifest := fake_manifest self; ldap := ldap self;
    oscap := oscap self; performance := performance self;
    rhai := rhai self; transition := transition self; vlan_networking := v;
    window_manager_command := window_manager_command self
  |}.
Definition set_window_manager_command (v : option pyval) (self : t) : t :=
  {|
    _all_features := _all_features self; _configured := _configured self;
    _validation_errors := _validation_errors self; browser := browser self;
    locale := locale self; project := project self; reader := reader self;
    rhel6_repo := rhel6_repo self; rhel7_repo := rhel7_repo self;
    screenshots_path := screenshots_path self;
    saucelabs_key := saucelabs_key self;
    saucelabs_user := saucelabs_user self; server := server self;
    run_one_datapoint := run_one_datapoint self; upstream := upstream self;
    verbosity := verbosity self; webdriver := webdriver self;
    webdriver_binary := webdriver_binary self;
    webdriver_desired_capabilities := webdriver_desired_capabilities self;
    clients := clients self; compute_resources := compute_resources self;
    discovery := discovery self; docker := docker self;
    fake_manifest := fake_manifest self; ldap := ldap self;
    oscap := oscap self; performance := performance self;
    rhai := rhai self; transition := transition self;
    vlan_networking := vlan_networking self; window_manager_command := v
  |}.

(** [vars(self)]: the instance dictionary, in the order in which the
    attributes were first assigned. *)
Definition vars (self : t) : list (string * obj) :=
  [("_all_features", Plain (from_option (fun l => VList (VStr <$> l)) VNone (_all_features self)));
   ("_configured", Plain (VBool (_configured self)));
   ("_validation_errors", Plain (VList (VStr <$> _validation_errors self)));
   ("browser", Plain (browser self));
   ("locale", Plain (locale self));
   ("project", Plain (project self));
   ("reader", from_option Reader (Plain VNone) (reader self));
   ("rhel6_repo", Plain (rhel6_repo self));
   ("rhel7_repo", Plain (rhel7_repo self));
   ("screenshots_path", Plain (screenshots_path self));
   ("saucelabs_key", Plain (saucelabs_key self));
   ("saucelabs_user", Plain (saucelabs_user self));
   ("server", Feature (FServerSettings (server self)));
   ("run_one_datapoint", Plain (run_one_datapoint self));
   ("upstream", Plain (upstream self));
   ("verbosity", Plain (verbosity self));
   ("webdriver", Plain (webdriver self));
   ("webdriver_binary", Plain (webdriver_binary self));
   ("webdriver_desired_capabilities", Plain (webdriver_desired_capabilities self));
   ("clients", Feature (FClientsSettings (clients self)));
   ("compute_resources", Feature (FLibvirtHostSettings (compute_resources self)));
   ("discovery", Feature (FDiscoveryISOSettings (discovery self)));
   ("docker", Feature (FDockerSettings (docker self)));
   ("fake_manifest", Feature (FFakeManifestSettings (fake_manifest self)));
   ("ldap", Feature (FLDAPSettings (ldap self)));
   ("oscap", Feature (FOscapSettings (oscap self)));
   ("performance", Feature (FPerformanceSettings (performance self)));
   ("rhai", Feature (FRHAISettings (rhai self)));
   ("transition", Feature (FTransitionSettings (transition self)));
   ("vlan_networking", Feature (FVlanNetworkSettings (vlan_networking self)))] ++
  from_option (fun v => [("window_manager_command", Plain v)]) []
    (window_manager_command self).

Definition SETTINGS_FILE_NAME : string := "robottelo.properties".

(** [self._validation_errors.extend(errors)] *)
Definition extend_validation_errors (errors : list string) (self : t) : t :=
  set__validation_errors (_validation_errors self ++ errors) self.

(** [_read_robottelo_settings()]; [reader] is [self.reader]. *)
Definition _read_robottelo_settings `{Casters} (reader : INIReader.t)
    : M t unit :=
  assign set_browser
    (INIReader.get reader "robottelo" "browser" (VStr "selenium") None) ;;;
  assign set_locale
    (INIReader.get reader "robottelo" "locale" (VStr "en_US.UTF-8") None) ;;;
  assign set_project
    (INIReader.get reader "robottelo" "project" (VStr "sat") None) ;;;
  assign set_rhel6_repo
    (INIReader.get reader "robottelo" "rhel6_repo" VNone None) ;;;
  assign set_rhel7_repo
    (INIReader.get reader "robottelo" "rhel7_repo" VNone None) ;;;
  assign set_screenshots_path
    (INIReader.get reader "robottelo" "screenshots_path"
       (VStr "/tmp/robottelo/screenshots") None) ;;;
  assign set_run_one_datapoint
    (INIReader.get reader "robottelo" "run_one_datapoint" (VBool false)
       (Some py_bool)) ;;;
  assign set_upstream
    (INIReader.get reader "robottelo" "upstream" (VBool true)
       (Some py_bool)) ;;;
  debug <- lift (cast_logging_level "debug") ;;
  assign set_verbosity
    (INIReader.get reader "robottelo" "verbosity" debug
       (Some (callable cast_logging_level))) ;;;
  assign set_webdriver
    (INIReader.get reader "robottelo" "webdriver" (VStr "firefox") None) ;;;
  assign set_saucelabs_user
    (INIReader.get reader "robottelo" "saucelabs_user" VNone None) ;;;
  assign set_saucelabs_key
    (INIReader.get reader "robottelo" "saucelabs_key" VNone None) ;;;
  assign set_webdriver_binary
    (INIReader.get reader "robottelo" "webdriver_binary" VNone None) ;;;
  assign set_webdriver_desired_capabilities
    (INIReader.get reader "robottelo" "webdriver_desired_capabilities" VNone
       (Some (callable cast_webdriver_desired_capabilities))) ;;;
  assign (fun v => set_window_manager_command (Some v))
    (INIReader.get reader "robottelo" "window_manager_command" VNone None).

Definition browsers : list string := ["selenium"; "docker"; "saucelabs"].
Definition webdrivers : list string :=
  ["chrome"; "firefox"; "ie"; "phantomjs"; "remote"].

Definition browser_error : string :=
  "[robottelo] browser should be one of " ++ join ", " browsers ++ ".".
Definition webdriver_error : string :=
  "[robottelo] webdriver should be one of " ++ join ", " webdrivers ++ ".".
Definition saucelabs_user_error : string :=
  "[robottelo] saucelabs_user must be provided when browser is saucelabs.".
Definition saucelabs_key_error : string :=
  "[robottelo] saucelabs_key must be provided when browser is saucelabs.".

(** [_validate_robottelo_settings()] *)
Definition _validate_robottelo_settings (self : t) : list string :=
  (if negb (in_strs (browser self) browsers) then [browser_error] else []) ++
  (if negb (in_strs (webdriver self) webdrivers) then [webdriver_error]
   else []) ++
  (if eq_str (browser self) "saucelabs"
   then
     (if is_None (saucelabs_user self) then [saucelabs_user_error] else []) ++
     (if is_None (saucelabs_key self) then [saucelabs_key_error] else [])
   else []).

(** [getattr(self, name)] *)
Definition getattr (self : t) (name : string) : option obj :=
  snd <$> find (fun item => bool_decide (item.1 = name)) (vars self).

(** The sections that [configure] reads only when the source has them;
    each is also the name of the attribute holding the group. *)
Definition optional_sections : list string :=
  ["clients"; "compute_resources"; "discovery"; "docker"; "fake_manifest";
   "ldap"; "oscap"; "performance"; "rhai"; "transition"; "vlan_networking"].

(** The validation errors of the group held in attribute [name]. *)
Definition validate_attr (self : t) (name : string) : list string :=
  match getattr self name with
  | Some (Feature f) => FeatureSettings.validate f
  | _ => []
  end.

(** The options that the [read] methods fetch through a cast, in the
    order in which [configure] reaches them. *)
Definition typed_options `{Casters} : list (string * string * cast_arg) :=
  [("robottelo", "run_one_datapoint", py_bool);
   ("robottelo", "upstream", py_bool);
   ("robottelo", "verbosity", callable cast_logging_level);
   ("robottelo", "webdriver_desired_capabilities",
    callable cast_webdriver_desired_capabilities);
   ("server", "port", callable py_int);
   ("docker", "unix_socket", py_bool);
   ("performance", "time_hammer", py_bool);
   ("performance", "virtual_machines", py_list);
   ("performance", "csv_buckets_count", callable py_int);
   ("performance", "sync_count", callable py_int);
   ("performance", "repos", py_list)].

(** [configured] *)
Definition configured (self : t) : bool := _configured self.

(** [all_features] *)
Definition all_features : M t (list string) :=
  cached <- gets _all_features ;;
  match cached with
  | None =>
      names <- gets (fun self =>
        fst <$> filter (fun item => isinstance_FeatureSettings item.2)
                  (vars self)) ;;
      modify (set__all_features (Some names)) ;;;
      ret names
  | Some names => ret names
  end.

(** [_configure_logging()] *)
Definition _configure_logging (self : t) : M World unit :=
  call (EvCaptureWarnings true) ;;;
  call (EvSetLevel "nailgun" (verbosity self)) ;;;
  call (EvSetLevel "robottelo" (verbosity self)) ;;;
  root <- gets project_root ;;
  let logging_conf_path := path_join root "logging.conf" in
  isfile <- gets logging_conf ;;
  if isfile
  then call (EvFileConfig logging_conf_path)
  else call (EvBasicConfig "%(levelname)s %(module)s:%(lineno)d: %(message)s").

(** [logging.WARNING] *)
Definition WARNING : pyval := VInt 30.

(** [_configure_third_party_logging()] *)
Definition _configure_third_party_logging (self : t) : M World unit :=
  call (EvSetLevel "bugzilla" WARNING) ;;;
  call (EvSetLevel "easyprocess" WARNING) ;;;
  call (EvSetLevel "paramiko" WARNING) ;;;
  call (EvSetLevel "requests.packages.urllib3.connectionpool" WARNING) ;;;
  call (EvSetLevel "selenium.webdriver.remote.remote_connection" WARNING).

(** [_configure_entities()] *)
Definition _configure_entities (self : t) : M World unit :=
  emit (EvCreateMissing true) ;;;
  url <- lift (ServerSettings.get_url (server self)) ;;
  call (EvDefaultServerConfig url
          (ServerSettings.get_credentials (server self)) false) ;;;
  root <- gets project_root ;;
  emit (EvPatchGPGKeyInit
          (path_join root "tests/foreman/data/valid_gpg_key.txt")) ;;;
  let docker_url := DockerSettings.get_unix_socket_url (docker self) in
  let docker_url :=
    if is_None docker_url then DockerSettings.external_url (docker self)
    else docker_url in
  if negb (is_None docker_url)
  then emit (EvPatchDockerComputeResourceInit docker_url)
  else ret tt.

(** State of a [configure] call: the instance and the process
    environment. *)
Definition on_self {A} (c : M t A) : M (t * World) A :=
  zoom fst (fun self st => (self, st.2)) c.
Definition on_world {A} (c : M World A) : M (t * World) A :=
  zoom snd (fun w st => (st.1, w)) c.

(** [self.group.read(self.reader)] followed by
    [self._validation_errors.extend(self.group.validate())]. *)
Definition read_and_validate {G} (group : t -> G) (set_group : G -> t -> t)
    (read : M G unit) (validate : G -> list string) : M t unit :=
  zoom group set_group read ;;;
  errors <- gets (fun self => validate (group self)) ;;
  modify (extend_validation_errors errors).

(** [if self.reader.has_section(section):] read and validate the group. *)
Definition if_has_section {G} (reader : INIReader.t) (section : string)
    (group : t -> G) (set_group : G -> t -> t)
    (read : M G unit) (validate : G -> list string) : M t unit :=
  if INIReader.has_section reader section
  then read_and_validate group set_group read validate
  else ret tt.

(** Lines 578 to 615 of [configure]: the global options, the server
    group, then each optional group whose section is in the source;
    [reader] is [self.reader]. *)
Definition read_sections `{Casters} (reader : INIReader.t) : M t unit :=
  _read_robottelo_settings reader ;;;
  errors <- gets _validate_robottelo_settings ;;
  modify (extend_validation_errors errors) ;;;
  read_and_validate server set_server
    (ServerSettings.read reader) ServerSettings.validate ;;;
  if_has_section reader "clients" clients set_clients
    (ClientsSettings.read reader) ClientsSettings.validate ;;;
  if_has_section reader "compute_resources"
    compute_resources set_compute_resources
    (LibvirtHostSettings.read reader) LibvirtHostSettings.validate ;;;
  if_has_section reader "discovery" discovery set_discovery
    (DiscoveryISOSettings.read reader) DiscoveryISOSettings.validate ;;;
  if_has_section reader "docker" docker set_docker
    (DockerSettings.read reader) DockerSettings.validate ;;;
  if_has_section reader "fake_manifest" fake_manifest set_fake_manifest
    (FakeManifestSettings.read reader) FakeManifestSettings.validate ;;;
  if_has_section reader "ldap" ldap set_ldap
    (LDAPSettings.read reader) LDAPSettings.validate ;;;
  if_has_section reader "oscap" oscap set_oscap
    (OscapSettings.read reader) OscapSettings.validate ;;;
  if_has_section reader "performance" performance set_performance
    (PerformanceSettings.read reader) PerformanceSettings.validate ;;;
  if_has_section reader "rhai" rhai set_rhai
    (RHAISettings.read reader) RHAISettings.validate ;;;
  if_has_section reader "transition" transition set_transition
    (TransitionSettings.read reader) TransitionSettings.validate ;;;
  if_has_section reader "vlan_networking" vlan_networking set_vlan_networking
    (VlanNetworkSettings.read reader) VlanNetworkSettings.validate.

Definition validation_failure (errors : list string) : exn :=
  ImproperlyConfigured
    ("Failed to validate the configuration, check the message(s):" ++ nl ++
     join nl errors).

(** [configure()] *)
Definition configure `{Casters} : M (t * World) unit :=
  already <- gets (fun st => configured st.1) ;;
  if already then ret tt
  else
    root <- gets (fun st => project_root st.2) ;;
    let settings_path := path_join root SETTINGS_FILE_NAME in
    isfile <- gets (fun st => bool_decide (is_Some (settings_file st.2))) ;;
    if negb isfile
    then raise (ImproperlyConfigured
                  ("Not able to find settings file at " ++ settings_path))
    else
      reader <- on_world (INIReader.__init__ settings_path) ;;
      on_self (modify (set_reader (Some reader))) ;;;
      on_self (read_sections reader) ;;;
      errors <- gets (fun st => _validation_errors st.1) ;;
      if negb (bool_decide (errors = []))
      then raise (validation_failure errors)
      else
        self <- gets fst ;;
        on_world (_configure_logging self) ;;;
        on_world (_configure_third_party_logging self) ;;;
        on_world (_configure_entities self) ;;;
        on_self (modify (set__configured true)).

End Settings.

(** ** The casters of [robottelo.config.casts] *)

Module casts.

Definition lower_char (c : ascii) : ascii :=
  let n := nat_of_ascii c in
  if (65 <=? n)%nat && (n <=? 90)%nat then ascii_of_nat (n + 32) else c.

Fixpoint lower (s : string) : string :=
  match s with
  | String c rest => String (lower_char c) (lower rest)
  | EmptyString => EmptyString
  end.

(** [s.split(sep)] for a one-character separator. *)
Fixpoint split (sep : ascii) (s : string) : list string :=
  match s with
  | EmptyString => [""]
  | String c rest =>
      if Ascii.eqb c sep then "" :: split sep rest
      else
        match split sep rest with
        | piece :: pieces => String c piece :: pieces
        | [] => [String c ""]
        end
  end.

(** [s.split(sep, 1)]: at the first separator only. *)
Fixpoint split_first (sep : ascii) (s : string) : option (string * string) :=
  match s with
  | EmptyString => None
  | String c rest =>
      if Ascii.eqb c sep then Some ("", rest)
      else
        match split_first sep rest with
        | Some (k, v) => Some (String c k, v)
        | None => None
        end
  end.

(** Modelled from the spec: [casts.Boolean] is missing from the sources.
    The strings "1" and "true" in any letter case give true, "0" and
    "false" give false, and anything else is an error naming the raw
    value. *)
Definition Boolean (value : string) : result pyval :=
  let v := lower value in
  if bool_decide (v = "1") || bool_decide (v = "true") then Ok (VBool true)
  else if bool_decide (v = "0") || bool_decide (v = "false")
  then Ok (VBool false)
  else Raise (ValueError (value ++ " is not a valid boolean value"))%string.

(** Modelled from the spec: [casts.List] is missing from the sources.
    The value is split at commas and each element is trimmed. *)
Definition List (value : string) : result pyval :=
  Ok (VList ((fun item => VStr (strip item)) <$> split "," value)).

(** Modelled from the spec: [casts.Tuple] is missing from the sources.
    As [List], giving a tuple; when the caller supplied an element count
    [size], any other number of elements is an error.  [INIReader]
    builds its tuple caster without a count. *)
Definition Tuple (size : option nat) (value : string) : result pyval :=
  let items := (fun item => VStr (strip item)) <$> split "," value in
  match size with
  | Some n =>
      if bool_decide (length items = n) then Ok (VTuple items)
      else Raise (ValueError (value ++ " is not a valid tuple value"))%string
  | None => Ok (VTuple items)
  end.

Fixpoint pairs (items : list string) : option (list (pyval * pyval)) :=
  match items with
  | [] => Some []
  | item :: rest =>
      match split_first ":" item, pairs rest with
      | Some (k, v), Some kvs => Some ((VStr (strip k), VStr (strip v)) :: kvs)
      | _, _ => None
      end
  end.

(** Modelled from the spec: [casts.Dict] is missing from the sources.
    The value is split at commas, then each pair at its first colon. *)
Definition Dict (value : string) : result pyval :=
  match pairs (split "," value) with
  | Some kvs => Ok (VDict kvs)
  | None => Raise (ValueError (value ++ " is not a valid dict value"))%string
  end.

(** Modelled from the spec: [casts.LoggingLevel] is missing from the
    sources.  The five level names, in any letter case, give their
    numeric level; another name is an [ImproperlyConfigured] error. *)
Definition LoggingLevel (value : string) : result pyval :=
  let v := lower value in
  if bool_decide (v = "debug") then Ok (VInt 10)
  else if bool_decide (v = "info") then Ok (VInt 20)
  else if bool_decide (v = "warning") then Ok (VInt 30)
  else if bool_decide (v = "error") then Ok (VInt 40)
  else if bool_decide (v = "critical") then Ok (VInt 50)
  else Raise (ImproperlyConfigured
                (value ++ " is not a valid logging level"))%string.

(** Modelled from the spec: [casts.WebdriverDesiredCapabilities] is
    missing from the sources; the spec only calls it a structured
    key-value map, so it is read as [Dict]. *)
Definition WebdriverDesiredCapabilities (value : string) : result pyval :=
  Dict value.

End casts.

(** What [builtins.int] returns is an integer. *)
Definition builtins_int_returns_int (s : string) (v : pyval) :
  builtins.int s = Ok v -> exists z : Z, v = VInt z.
Proof.
  unfold builtins.int. destruct (builtins.parse_int (strip s)) as [z|].
  - intros [= <-]. exists z. reflexivity.
  - discriminate.
Qed.

(** The casters as the specification describes them; the statements
    below hold for any casters, and these serve for the concrete runs. *)
Definition robottelo_casters : Casters := {|
  cast_boolean := casts.Boolean;
  cast_dict := casts.Dict;
  cast_list := casts.List;
  cast_logging_level := casts.LoggingLevel;
  cast_tuple := casts.Tuple None;
  cast_webdriver_desired_capabilities := casts.WebdriverDesiredCapabilities;
  py_int := builtins.int;
  py_int_returns_int := builtins_int_returns_int
|}.

(** ** Sample sources *)

Module Samples.

(** A parser that serves the given values as they are. *)
Definition plain (values : gmap string (gmap string string))
    : RawConfigSource :=
  (fun opts : gmap string string => (Ok <$> opts : gmap string (result string)))
    <$> values.

(** A process in which the settings file parses to [src], there is no
    [logging.conf] and the libraries accept every call. *)
Definition world_of (src : RawConfigSource) : World :=
  {| project_root := "/opt/robottelo"; settings_file := Some (Ok src);
     logging_conf := false; library := fun _ => None; trace := [] |}.

(** [[server] hostname=foo.example.com, ssh_password=x] *)
Definition minimal : RawConfigSource :=
  plain ({[ "server" := {[ "hostname" := "foo.example.com"; "ssh_password" := "x" ]} ]}).

(** [[robottelo] browser=saucelabs] and a valid server section. *)
Definition saucelabs : RawConfigSource :=
  plain ({[ "robottelo" := {[ "browser" := "saucelabs" ]};
     "server" := {[ "hostname" := "h"; "ssh_key" := "k" ]} ]}).

(** As [saucelabs], with a webdriver outside the closed set. *)
Definition saucelabs_safari : RawConfigSource :=
  plain ({[ "robottelo" := {[ "browser" := "saucelabs"; "webdriver" := "safari" ]};
     "server" := {[ "hostname" := "h"; "ssh_key" := "k" ]} ]}).

(** A server port that is not a number. *)
Definition bad_port : RawConfigSource :=
  plain ({[ "server" := {[ "hostname" := "h"; "ssh_key" := "k"; "port" := "http" ]} ]}).

(** No server hostname. *)
Definition no_hostname : RawConfigSource :=
  plain ({[ "server" := {[ "ssh_key" := "k" ]} ]}).

(** A server section with a port. *)
Definition with_port : RawConfigSource :=
  plain ({[ "server" := {[ "hostname" := "h"; "port" := "8080"; "ssh_key" := "k" ]} ]}).

(** [[docker] unix_socket=true] *)
Definition docker_socket : RawConfigSource :=
  plain ({[ "docker" := {[ "unix_socket" := "true" ]} ]}).

(** A valid server section and a docker section. *)
Definition server_and_docker : RawConfigSource :=
  plain ({[ "server" := {[ "hostname" := "h"; "ssh_key" := "k" ]};
     "docker" := {[ "unix_socket" := "true" ]} ]}).

(** A server port that is not a number, and a docker section that
    enables neither connection. *)
Definition bad_port_with_docker : RawConfigSource :=
  plain ({[ "server" := {[ "hostname" := "h"; "ssh_key" := "k"; "port" := "http" ]};
     "docker" := {[ "unix_socket" := "false" ]} ]}).

(** An [ldap] section with every option, the password empty. *)
Definition ldap_empty_password : RawConfigSource :=
  plain ({[ "ldap" := {[ "basedn" := "dc=example"; "grpbasedn" := "ou=groups";
                  "hostname" := "ldap.example.com"; "password" := "";
                  "username" := "admin" ]} ]}).

(** A [performance] section with two of the four required options. *)
Definition performance_partial : RawConfigSource :=
  plain ({[ "performance" := {[ "cdn_address" := "cdn.example.com";
                         "virtual_machines" := "vm1, vm2";
                         "sync_count" := "5" ]} ]}).

(** [[server] admin_password=ab%cd]: a value on which the parser's
    interpolation fails. *)
Definition bad_interpolation : RawConfigSource :=
  {[ "server" :=
       {[ "admin_password" :=
            Raise (InterpolationError
                     "'%' must be followed by '%' or '(', found: '%cd'");
          "hostname" := Ok "h"; "ssh_key" := Ok "k" ]} ]}.

End Samples.

(** ** Vocabulary of the statements *)

(** The scheme [get_url] uses and the port suffix it appends, for a
    scheme that is unset or a string and a port that is unset or an
    integer. *)
Definition url_scheme (scheme : option string) : string :=
  match scheme with
  | Some s => if bool_decide (s = "") then "https" else s
  | None => "https"
  end.

Definition url_port_suffix (port : option Z) : string :=
  match port with
  | Some z => if (z =? 0)%Z then "" else ":" ++ pretty z
  | None => ""
  end.

(** The process environment once [configure] has opened the settings
    file. *)
Definition opened (world : World) : World :=
  (emit (EvOpen (path_join (project_root world) Settings.SETTINGS_FILE_NAME))
     world).2.

(** Step 7 of [configure]: the three calls that follow a successful
    validation. *)
Definition side_effects (self : Settings.t) : M World unit :=
  Settings._configure_logging self ;;;
  Settings._configure_third_party_logging self ;;;
  Settings._configure_entities self.

(** The instance as [configure] hands it to the read phase. *)
Definition with_reader (src : RawConfigSource) (self : Settings.t)
    : Settings.t :=
  Settings.set_reader (Some (reader_of src)) self.

(** The section from which a feature settings object reads. *)
Definition section_of (self : feature) : string :=
  match self with
  | FServerSettings _ => "server"
  | FClientsSettings _ => "clients"
  | FLibvirtHostSettings _ => "compute_resources"
  | FDiscoveryISOSettings _ => "discovery"
  | FDockerSettings _ => "docker"
  | FFakeManifestSettings _ => "fake_manifest"
  | FLDAPSettings _ => "ldap"
  | FOscapSettings _ => "oscap"
  | FPerformanceSettings _ => "performance"
  | FRHAISettings _ => "rhai"
  | FTransitionSettings _ => "transition"
  | FVlanNetworkSettings _ => "vlan_networking"
  end.

(** The caster that [get] runs for a given [cast]: the reader's own
    boolean, dict, list or tuple caster when [cast] is one of the four
    builtin types, and the callable itself otherwise. *)
Definition caster_of `{Casters} (cast : cast_arg) : string -> result pyval :=
  match cast with
  | py_bool => cast_boolean
  | py_dict => cast_dict
  | py_list => cast_list
  | py_tuple => cast_tuple
  | callable f => f
  end.

(** [e] is an exception that a caster raised: on the literal "debug" that
    the global read passes to the logging-level caster, or on the value
    that the source holds for one of the typed options. *)
Definition raised_by_cast `{Casters} (reader : INIReader.t) (e : exn) : Prop :=
  cast_logging_level "debug" = Raise e \/
  exists section opt c raw,
    (section, opt, c) ∈ Settings.typed_options /\
    option_value (INIReader.config_parser reader) section opt = Some raw /\
    caster_of c raw = Raise e /\
    is_lookup_error e = false.

(** The validation errors that the read phase collects from the optional
    groups on instance [self]: those of each group whose section the
    reader has, in the order of [configure]. *)
Definition optional_errors (reader : INIReader.t) (self : Settings.t)
    : list string :=
  concat
    (map (fun name =>
            if INIReader.has_section reader name
            then Settings.validate_attr self name else [])
       Settings.optional_sections).

(** ** Vocabulary for computations *)

(** [respects R c]: whatever the outcome, the state after [c] is related
    by [R] to the state before. *)
Definition respects {St} (R : St -> St -> Prop) {A} (c : M St A) : Prop :=
  forall st, R st (c st).2.

(** [raises_only P c]: an exception leaving [c] satisfies [P]. *)
Definition raises_only {St} (P : exn -> Prop) {A} (c : M St A) : Prop :=
  forall st e st', c st = (Raise e, st') -> P e.

(** [always_raises c]: [c] never returns. *)
Definition always_raises {St A} (c : M St A) : Prop :=
  forall st, exists e st', c st = (Raise e, st').

(** Two states agree on [p]. *)
Definition same {St X} (p : St -> X) : St -> St -> Prop :=
  fun before after => p after = p before.

(** The later state has the validation errors of the earlier one,
    followed by more. *)
Definition extends_errors (before after : Settings.t) : Prop :=
  exists more : list string,
    Settings._validation_errors after =
    (Settings._validation_errors before ++ more)%list.

(** ** Vocabulary: the cast of [get] *)

(** The characters of a string, each as a string: what iterating over a
    [str] gives. *)
Fixpoint chars (s : string) : list pyval :=
  match s with
  | EmptyString => []
  | String c rest => VStr (String c "") :: chars rest
  end.

(** Following the specification's words, "applies [cast] to the raw
    string":
    what the callable named by [cast] returns when it is itself called
    on [raw], the builtins [bool], [dict], [list] and [tuple] being those
    of Python. *)
Definition called_directly (cast : cast_arg) (raw : string)
    : result pyval :=
  match cast with
  | py_bool => Ok (VBool (negb (bool_decide (raw = ""))))
  | py_dict =>
      if bool_decide (raw = "") then Ok (VDict [])
      else Raise (ValueError
        "dictionary update sequence element #0 has length 1; 2 is required")
  | py_list => Ok (VList (chars raw))
  | py_tuple => Ok (VTuple (chars raw))
  | callable f => f raw
  end.

(** ** Vocabulary: what the source holds *)

(** The parser answers a lookup of [opt] in [section] with one of the
    two errors that [get] catches: the section or the option is not in
    the source. *)
Definition missing (reader : INIReader.t) (section opt : string) : bool :=
  match ConfigParser_get (INIReader.config_parser reader) section opt with
  | Raise e => is_lookup_error e
  | Ok _ => false
  end.

(** The parser answers a lookup of [opt] in [section]: it returns a
    value or reports the option missing; interpolation does not fail. *)
Definition parses (reader : INIReader.t) (section opt : string) : bool :=
  match ConfigParser_get (INIReader.config_parser reader) section opt with
  | Ok _ => true
  | Raise e => is_lookup_error e
  end.

(** [e] is an exception, other than the two lookup errors, with which
    the parser answers a lookup in one of the sections that [configure]
    reads: a value that fails interpolation. *)
Definition raised_by_parser (reader : INIReader.t) (e : exn) : Prop :=
  exists section opt,
    section ∈ "robottelo" :: "server" :: Settings.optional_sections /\
    ConfigParser_get (INIReader.config_parser reader) section opt = Raise e /\
    is_lookup_error e = false.

(** [e] is an exception that can leave a [read]: one that a caster
    raised, or one with which the parser answered. *)
Definition raised_while_reading `{Casters} (reader : INIReader.t) (e : exn)
    : Prop :=
  raised_by_cast reader e \/ raised_by_parser reader e.

(** The parser returns a value, possibly empty, for [opt] in [section]:
    the source has the option and its interpolation goes through. *)
Definition present (reader : INIReader.t) (section opt : string) : bool :=
  bool_decide (is_Some (option_value (INIReader.config_parser reader)
                          section opt)).

(** The parser returns a non-empty value for [opt] in [section]. *)
Definition filled (reader : INIReader.t) (section opt : string) : bool :=
  match option_value (INIReader.config_parser reader) section opt with
  | Some raw => negb (bool_decide (raw = ""))
  | None => false
  end.

(** What an option read without a cast gives when the read returns: the
    string that the parser returns, or the default. *)
Definition raw_or (reader : INIReader.t) (section opt : string)
    (default : pyval) : pyval :=
  from_option VStr default
    (option_value (INIReader.config_parser reader) section opt).

(** ** Vocabulary: the process environment after a run *)

(** The [logging] module and NailGun accept every call made to them. *)
Definition accepting (world : World) : Prop :=
  forall ev, library world ev = None.

(** [world] with [events] added to its trace. *)
Definition logged (world : World) (events : list event) : World :=
  {| project_root := project_root world;
     settings_file := settings_file world;
     logging_conf := logging_conf world;
     library := library world;
     trace := trace world ++ events |}.

(** The process-wide effects of a [configure] that passes validation, in
    order, for the instance [self] left by the read phase and the server
    URL [url]. *)
Definition success_events (self : Settings.t) (world : World) (url : string)
    : list event :=
  [EvCaptureWarnings true;
   EvSetLevel "nailgun" (Settings.verbosity self);
   EvSetLevel "robottelo" (Settings.verbosity self);
   (if logging_conf world
    then EvFileConfig (path_join (project_root world) "logging.conf")
    else EvBasicConfig "%(levelname)s %(module)s:%(lineno)d: %(message)s");
   EvSetLevel "bugzilla" (VInt 30);
   EvSetLevel "easyprocess" (VInt 30);
   EvSetLevel "paramiko" (VInt 30);
   EvSetLevel "requests.packages.urllib3.connectionpool" (VInt 30);
   EvSetLevel "selenium.webdriver.remote.remote_connection" (VInt 30);
   EvCreateMissing true;
   EvDefaultServerConfig url
     (ServerSettings.admin_username (Settings.server self),
      ServerSettings.admin_password (Settings.server self)) false;
   EvPatchGPGKeyInit
     (path_join (project_root world) "tests/foreman/data/valid_gpg_key.txt")]
  ++
  (if truthy (DockerSettings.unix_socket (Settings.docker self))
   then [EvPatchDockerComputeResourceInit (VStr "unix:///var/run/docker.sock")]
   else if is_None (DockerSettings.external_url (Settings.docker self))
        then []
        else [EvPatchDockerComputeResourceInit
                (DockerSettings.external_url (Settings.docker self))]).

(** * Properties *)

(** ** Reasoning about computations *)

Section Computations.
Context {St : Type}.

Lemma bind_ok_inv {A B} (c : M St A) (k : A -> M St B) st b st' :
  bind c k st = (Ok b, st') ->
  exists a st1, c st = (Ok a, st1) /\ k a st1 = (Ok b, st').
Proof.
  unfold bind. destruct (c st) as [[a|e] st1]; intros Hk.
  - exists a, st1. split; [reflexivity | exact Hk].
  - discriminate Hk.
Qed.

Lemma bind_raise_inv {A B} (c : M St A) (k : A -> M St B) st e st' :
  bind c k st = (Raise e, st') ->
  c st = (Raise e, st') \/
  exists a st1, c st = (Ok a, st1) /\ k a st1 = (Raise e, st').
Proof.
  unfold bind. destruct (c st) as [[a|e0] st1]; intros Hk.
  - right. exists a, st1. split; [reflexivity | exact Hk].
  - left. injection Hk as -> ->. reflexivity.
Qed.

Lemma assign_ok (setter : pyval -> St -> St) v st :
  assign setter (Ok v) st = (Ok tt, setter v st).
Proof. reflexivity. Qed.

Lemma assign_raise (setter : pyval -> St -> St) e st :
  assign setter (Raise e) st = (Raise e, st).
Proof. reflexivity. Qed.


Section Respects.
Context (R : St -> St -> Prop) `{!Reflexive R} `{!Transitive R}.

Lemma respects_ret {A} (a : A) : respects R (ret a).
Proof. intros st. simpl. reflexivity. Qed.

Lemma respects_raise {A} e : respects R (raise (A:=A) e).
Proof. intros st. simpl. reflexivity. Qed.

Lemma respects_lift {A} (r : result A) : respects R (lift r).
Proof. intros st. simpl. reflexivity. Qed.

Lemma respects_gets {A} (f : St -> A) : respects R (gets f).
Proof. intros st. simpl. reflexivity. Qed.

Lemma respects_modify (f : St -> St) :
  (forall st, R st (f st)) -> respects R (modify f).
Proof. intros Hf st. simpl. apply Hf. Qed.

Lemma respects_bind {A B} (c : M St A) (k : A -> M St B) :
  respects R c -> (forall a, respects R (k a)) -> respects R (bind c k).
Proof.
  intros Hc Hk st. unfold bind. specialize (Hc st).
  destruct (c st) as [[a|e] st1]; simpl in *.
  - etransitivity; [exact Hc | apply Hk].
  - exact Hc.
Qed.

Lemma respects_assign (setter : pyval -> St -> St) value :
  (forall v st, R st (setter v st)) -> respects R (assign setter value).
Proof.
  intros Hs. unfold assign. apply respects_bind.
  - apply respects_lift.
  - intros v. apply respects_modify. apply Hs.
Qed.

Lemma respects_zoom {Sub A} (proj : St -> Sub) (upd : Sub -> St -> St)
    (c : M Sub A) :
  (forall sub st, R st (upd sub st)) -> respects R (zoom proj upd c).
Proof.
  intros Hu st. unfold zoom. destruct (c (proj st)) as [r sub']. simpl.
  apply Hu.
Qed.

End Respects.

Lemma raises_only_ret P {A} (a : A) : raises_only (St:=St) P (ret a).
Proof. intros st e st' Hr. discriminate Hr. Qed.

Lemma raises_only_gets P {A} (f : St -> A) : raises_only P (gets f).
Proof. intros st e st' Hr. discriminate Hr. Qed.

Lemma raises_only_modify P (f : St -> St) : raises_only P (modify f).
Proof. intros st e st' Hr. discriminate Hr. Qed.

Lemma raises_only_lift P {A} (r : result A) :
  (forall e, r = Raise e -> P e) -> raises_only (St:=St) P (lift r).
Proof. intros Hr st e st' Hl. apply Hr. unfold lift in Hl. congruence. Qed.

Lemma raises_only_bind P {A B} (c : M St A) (k : A -> M St B) :
  raises_only P c -> (forall a, raises_only P (k a)) ->
  raises_only P (bind c k).
Proof.
  intros Hc Hk st e st' Hb.
  destruct (bind_raise_inv _ _ _ _ _ Hb) as [Hr | (a & st1 & _ & Hr)].
  - exact (Hc _ _ _ Hr).
  - exact (Hk _ _ _ _ Hr).
Qed.

Lemma raises_only_assign P (setter : pyval -> St -> St) value :
  (forall e, value = Raise e -> P e) -> raises_only P (assign setter value).
Proof.
  intros Hv. unfold assign. apply raises_only_bind.
  - apply raises_only_lift, Hv.
  - intros v. apply raises_only_modify.
Qed.

Lemma always_raises_bind_l {A B} (c : M St A) (k : A -> M St B) :
  always_raises c -> always_raises (bind c k).
Proof.
  intros Hc st. destruct (Hc st) as (e & st' & Hr).
  exists e, st'. unfold bind. rewrite Hr. reflexivity.
Qed.

Lemma always_raises_bind_r {A B} (c : M St A) (k : A -> M St B) :
  (forall a, always_raises (k a)) -> always_raises (bind c k).
Proof.
  intros Hk st. unfold bind. destruct (c st) as [[a|e] st1].
  - apply Hk.
  - exists e, st1. reflexivity.
Qed.

Lemma always_raises_assign (setter : pyval -> St -> St) e :
  always_raises (assign setter (Raise e)).
Proof. intros st. exists e, st. reflexivity. Qed.

End Computations.

Lemma raises_only_zoom {St Sub A} P (proj : St -> Sub) (upd : Sub -> St -> St)
    (c : M Sub A) :
  raises_only P c -> raises_only P (zoom proj upd c).
Proof.
  intros Hc st e st'. unfold zoom.
  destruct (c (proj st)) as [r sub'] eqn:Hr. intros Hz.
  apply (Hc (proj st) e sub'). congruence.
Qed.

Lemma always_raises_zoom {St Sub A} (proj : St -> Sub)
    (upd : Sub -> St -> St) (c : M Sub A) :
  always_raises c -> always_raises (zoom proj upd c).
Proof.
  intros Hc st. destruct (Hc (proj st)) as (e & sub' & Hr).
  exists e, (upd sub' st). unfold zoom. rewrite Hr. reflexivity.
Qed.

(** ** The reader *)

Lemma ConfigParser_get_present (cp : RawConfigSource) section opt raw :
  option_value cp section opt = Some raw ->
  ConfigParser_get cp section opt = Ok raw.
Proof.
  unfold option_value.
  destruct (ConfigParser_get cp section opt) as [value|e];
    [intros [= ->]; reflexivity | discriminate].
Qed.

Lemma option_value_served (cp : RawConfigSource) section opt raw :
  ConfigParser_get cp section opt = Ok raw ->
  option_value cp section opt = Some raw.
Proof. unfold option_value. intros ->. reflexivity. Qed.

Lemma ConfigParser_get_missing (reader : INIReader.t) section opt :
  missing reader section opt = true ->
  exists e,
    ConfigParser_get (INIReader.config_parser reader) section opt = Raise e /\
    is_lookup_error e = true.
Proof.
  unfold missing.
  destruct (ConfigParser_get (INIReader.config_parser reader) section opt)
    as [value|e]; [discriminate|].
  intros Hl. exists e. split; [reflexivity | exact Hl].
Qed.

Lemma missing_option_value (reader : INIReader.t) section opt :
  missing reader section opt = true ->
  option_value (INIReader.config_parser reader) section opt = None.
Proof.
  intros Hm. destruct (ConfigParser_get_missing _ _ _ Hm) as (e & He & _).
  unfold option_value. rewrite He. reflexivity.
Qed.

(** Every option of a section that the parser does not have is missing. *)
Lemma missing_without_section (reader : INIReader.t) section opt :
  section <> DEFAULTSECT ->
  INIReader.has_section reader section = false ->
  missing reader section opt = true.
Proof.
  unfold INIReader.has_section, ConfigParser_has_section, missing,
    ConfigParser_get.
  intros Hd Hs.
  destruct (INIReader.config_parser reader !! section) as [opts|].
  - rewrite bool_decide_eq_true_2 in Hs by eauto.
    rewrite (bool_decide_eq_false_2 _ Hd) in Hs. discriminate Hs.
  - rewrite (bool_decide_eq_false_2 _ Hd). reflexivity.
Qed.

Lemma has_section_of_option_value (reader : INIReader.t) section opt raw :
  section <> DEFAULTSECT ->
  option_value (INIReader.config_parser reader) section opt = Some raw ->
  INIReader.has_section reader section = true.
Proof.
  intros Hd Hv.
  destruct (INIReader.has_section reader section) eqn:Hs; [reflexivity|].
  rewrite (missing_option_value _ _ _ (missing_without_section _ _ opt Hd Hs))
    in Hv.
  discriminate Hv.
Qed.

Section Reader.
Context `{Casters}.

Lemma get_absent reader section opt default cast :
  missing reader section opt = true ->
  INIReader.get reader section opt default cast = Ok default.
Proof.
  intros Habs. destruct (ConfigParser_get_missing _ _ _ Habs) as (e & He & Hl).
  unfold INIReader.get, INIReader.get_try. rewrite He.
  destruct e; try discriminate Hl; reflexivity.
Qed.

Lemma get_present_raw reader section opt default raw :
  option_value (INIReader.config_parser reader) section opt = Some raw ->
  INIReader.get reader section opt default None = Ok (VStr raw).
Proof.
  intros Hp. unfold INIReader.get, INIReader.get_try.
  rewrite (ConfigParser_get_present _ _ _ _ Hp). reflexivity.
Qed.

Lemma get_present_cast reader section opt default raw c :
  option_value (INIReader.config_parser reader) section opt = Some raw ->
  INIReader.get reader section opt default (Some c) =
    match INIReader.apply_cast c raw with
    | Raise e => if is_lookup_error e then Ok default else Raise e
    | r => r
    end.
Proof.
  intros Hp. unfold INIReader.get, INIReader.get_try.
  rewrite (ConfigParser_get_present _ _ _ _ Hp).
  destruct (INIReader.apply_cast c raw) as [v|e]; [reflexivity|].
  destruct e; reflexivity.
Qed.

(** What the parser raises, other than the two lookup errors, leaves
    [get] as it is, whatever the cast. *)
Lemma get_parser_failure reader section opt default cast e :
  ConfigParser_get (INIReader.config_parser reader) section opt = Raise e ->
  INIReader.get reader section opt default cast =
    if is_lookup_error e then Ok default else Raise e.
Proof.
  intros He. unfold INIReader.get, INIReader.get_try. rewrite He.
  destruct e; reflexivity.
Qed.

(** When the parser returns no value and [get] returns all the same, it
    returns the default. *)
Lemma get_unserved reader section opt default cast v :
  option_value (INIReader.config_parser reader) section opt = None ->
  INIReader.get reader section opt default cast = Ok v ->
  v = default.
Proof.
  unfold option_value. intros Hv.
  destruct (ConfigParser_get (INIReader.config_parser reader) section opt)
    as [value|e] eqn:He; [discriminate Hv|].
  rewrite (get_parser_failure _ _ _ _ _ _ He).
  destruct (is_lookup_error e); [|discriminate].
  intros [= <-]. reflexivity.
Qed.

(** An exception that leaves [get] is not one of the two lookup errors;
    it comes from the parser, or from the cast on a value that the parser
    returned. *)
Lemma get_raise_inv reader section opt default cast e :
  INIReader.get reader section opt default cast = Raise e ->
  is_lookup_error e = false /\
  (ConfigParser_get (INIReader.config_parser reader) section opt = Raise e \/
   exists c raw,
     cast = Some c /\
     option_value (INIReader.config_parser reader) section opt = Some raw /\
     INIReader.apply_cast c raw = Raise e).
Proof.
  destruct (ConfigParser_get (INIReader.config_parser reader) section opt)
    as [raw|e0] eqn:Hget.
  - pose proof (option_value_served _ _ _ _ Hget) as Hv.
    destruct cast as [c|].
    + rewrite (get_present_cast _ _ _ _ _ _ Hv).
      destruct (INIReader.apply_cast c raw) as [v|e1] eqn:Hc; [discriminate|].
      destruct (is_lookup_error e1) eqn:Hl; [discriminate|].
      intros [= <-]. split; [exact Hl|]. right. exists c, raw. auto.
    + rewrite (get_present_raw _ _ _ _ _ Hv). discriminate.
  - rewrite (get_parser_failure _ _ _ _ _ _ Hget).
    destruct (is_lookup_error e0) eqn:Hl; [discriminate|].
    intros [= <-]. split; [exact Hl|]. left. reflexivity.
Qed.

End Reader.

(** C5, as stated, fails: what [get] returns for a present option is not
    always the given cast applied to the raw string.  Passed [bool], it
    applies the reader's boolean caster instead: on the raw string
    "false", where [bool] itself gives [True], it returns [False]. *)
Lemma get_bool_is_not_bool_of_raw :
  let reader := reader_of Samples.bad_port_with_docker in
  ConfigParser_get (INIReader.config_parser reader) "docker" "unix_socket" =
    Ok "false" /\
  called_directly py_bool "false" = Ok (VBool true) /\
  INIReader.get (H:=robottelo_casters) reader "docker" "unix_socket"
    (VBool false) (Some py_bool) = Ok (VBool false) /\
  INIReader.get (H:=robottelo_casters) reader "docker" "unix_socket"
    (VBool false) (Some py_bool) <> called_directly py_bool "false".
Proof.
  cbv zeta. split; [reflexivity|]. split; [reflexivity|].
  split; [reflexivity|]. vm_compute. discriminate.
Qed.

(** C5, amended.  When the parser answers with one of the two lookup
    errors (the section or the option is not in the source),
    [INIReader.get] returns the default as it is, whatever the cast.
    When the parser returns a raw string, [get] returns that string if no
    cast is given; given [bool], [dict], [list] or [tuple] it returns
    what the reader's own boolean, dict, list or tuple caster returns on
    the raw string; given any other callable it returns what the callable
    returns on the raw string.  An exception of the parser other than
    the two lookup errors leaves [get] unchanged. *)
Theorem get_default_or_cast `{Casters} (reader : INIReader.t)
    (section opt : string) (default : pyval) :
  let answer :=
    ConfigParser_get (INIReader.config_parser reader) section opt in
  (forall e,
     answer = Raise e -> is_lookup_error e = true ->
     forall cast,
       INIReader.get reader section opt default cast = Ok default) /\
  (forall raw,
     answer = Ok raw ->
     INIReader.get reader section opt default None = Ok (VStr raw) /\
     (forall v, cast_boolean raw = Ok v ->
        INIReader.get reader section opt default (Some py_bool) = Ok v) /\
     (forall v, cast_dict raw = Ok v ->
        INIReader.get reader section opt default (Some py_dict) = Ok v) /\
     (forall v, cast_list raw = Ok v ->
        INIReader.get reader section opt default (Some py_list) = Ok v) /\
     (forall v, cast_tuple raw = Ok v ->
        INIReader.get reader section opt default (Some py_tuple) = Ok v) /\
     (forall f v, f raw = Ok v ->
        INIReader.get reader section opt default (Some (callable f)) =
          Ok v)) /\
  (forall e,
     answer = Raise e -> is_lookup_error e = false ->
     forall cast,
       INIReader.get reader section opt default cast = Raise e).
Proof.
  intros answer. subst answer. split; [|split].
  - intros e He Hl cast. rewrite (get_parser_failure _ _ _ _ _ _ He), Hl.
    reflexivity.
  - intros raw Hraw. unfold INIReader.get, INIReader.get_try.
    rewrite Hraw. cbn [INIReader.apply_cast].
    split; [reflexivity|].
    split; [intros v Hv; rewrite Hv; reflexivity|].
    split; [intros v Hv; rewrite Hv; reflexivity|].
    split; [intros v Hv; rewrite Hv; reflexivity|].
    split; [intros v Hv; rewrite Hv; reflexivity|].
    intros f v Hv. rewrite Hv. reflexivity.
  - intros e He Hl cast. rewrite (get_parser_failure _ _ _ _ _ _ He), Hl.
    reflexivity.
Qed.

Lemma get_default_or_cast_witness :
  INIReader.get (H:=robottelo_casters) (reader_of Samples.with_port)
    "server" "scheme" (VStr "https") (Some py_bool) = Ok (VStr "https") /\
  INIReader.get (H:=robottelo_casters) (reader_of Samples.with_port)
    "server" "hostname" VNone None = Ok (VStr "h") /\
  INIReader.get (H:=robottelo_casters) (reader_of Samples.with_port)
    "server" "port" VNone
    (Some (callable (py_int (Casters:=robottelo_casters)))) =
    Ok (VInt 8080) /\
  INIReader.get (H:=robottelo_casters) (reader_of Samples.bad_interpolation)
    "server" "admin_password" (VStr "changeme") None =
    Raise (InterpolationError
             "'%' must be followed by '%' or '(', found: '%cd'").
Proof.
  split; [|split; [|split]].
  - destruct (get_default_or_cast (H:=robottelo_casters)
                (reader_of Samples.with_port) "server" "scheme"
                (VStr "https")) as (Habsent & _).
    apply (Habsent (NoOptionError "scheme" "server")); reflexivity.
  - destruct (get_default_or_cast (H:=robottelo_casters)
                (reader_of Samples.with_port) "server" "hostname"
                VNone) as (_ & Hraw & _).
    destruct (Hraw "h") as (Hget & _); [reflexivity | exact Hget].
  - destruct (get_default_or_cast (H:=robottelo_casters)
                (reader_of Samples.with_port) "server" "port"
                VNone) as (_ & Hraw & _).
    destruct (Hraw "8080") as (_ & _ & _ & _ & _ & Hcast);
      [reflexivity|].
    apply Hcast. reflexivity.
  - destruct (get_default_or_cast (H:=robottelo_casters)
                (reader_of Samples.bad_interpolation) "server"
                "admin_password" (VStr "changeme")) as (_ & _ & Hfail).
    apply Hfail; reflexivity.
Defined.

(** ** Server URL *)

Lemma append_cons c (s t : string) : String c s ++ t = String c (s ++ t).
Proof. reflexivity. Qed.

Lemma append_empty_r (s : string) : s ++ "" = s.
Proof.
  induction s as [|c s IH]; [reflexivity|]. rewrite append_cons, IH.
  reflexivity.
Qed.

Lemma append_nonempty (s t : string) : t <> "" -> s ++ t <> "".
Proof.
  destruct s as [|c s]; [auto | rewrite append_cons; discriminate].
Qed.

Lemma urlunsplit_str_netloc scheme netloc :
  scheme <> "" -> netloc <> "" ->
  urlunsplit_str scheme netloc "" = scheme ++ "://" ++ netloc.
Proof.
  intros Hs Hn. unfold urlunsplit_str.
  rewrite (bool_decide_eq_false_2 _ Hn), (bool_decide_eq_false_2 _ Hs).
  cbn [negb orb andb]. rewrite (bool_decide_eq_true_2 ("" = "") eq_refl).
  cbn [negb andb]. rewrite append_empty_r. reflexivity.
Qed.

Lemma urlunsplit_str_scheme scheme netloc :
  scheme <> "" ->
  exists rest, urlunsplit_str scheme netloc "" = scheme ++ ":" ++ rest.
Proof.
  intros Hs. unfold urlunsplit_str.
  rewrite (bool_decide_eq_false_2 _ Hs). cbn [negb]. eauto.
Qed.

Lemma url_scheme_nonempty scheme : url_scheme scheme <> "".
Proof.
  destruct scheme as [s|]; simpl; [|discriminate].
  case_bool_decide; [discriminate | assumption].
Qed.

Lemma truthy_scheme scheme :
  (if negb (truthy (from_option VStr VNone scheme))
   then VStr "https" else from_option VStr VNone scheme) =
  VStr (url_scheme scheme).
Proof.
  destruct scheme as [s|]; simpl; [|reflexivity].
  case_bool_decide; reflexivity.
Qed.

Lemma get_url_unsplit (self : ServerSettings.t) h scheme port :
  ServerSettings.hostname self = VStr h ->
  ServerSettings.scheme self = from_option VStr VNone scheme ->
  ServerSettings.port self = from_option VInt VNone port ->
  ServerSettings.get_url self =
    Ok (urlunsplit_str (url_scheme scheme) (h ++ url_port_suffix port) "").
Proof.
  intros Hh Hs Hp. unfold ServerSettings.get_url.
  rewrite Hh, Hs, Hp, truthy_scheme.
  destruct port as [z|]; simpl.
  - destruct (z =? 0)%Z; simpl; [now rewrite append_empty_r | reflexivity].
  - now rewrite append_empty_r.
Qed.

(** C4. With the hostname set, [get_url] uses "https" when the scheme is
    unset or empty and the configured scheme otherwise; the netloc is the
    hostname followed by ":port" exactly when the port is set and not
    zero; and whatever the port, the URL starts with the same scheme. *)
Theorem get_url_scheme_and_port (self : ServerSettings.t) (h : string)
    (scheme : option string) (port : option Z) :
  ServerSettings.hostname self = VStr h ->
  ServerSettings.scheme self = from_option VStr VNone scheme ->
  ServerSettings.port self = from_option VInt VNone port ->
  ServerSettings.get_url self =
    Ok (urlunsplit_str (url_scheme scheme) (h ++ url_port_suffix port) "") /\
  (h <> "" ->
   ServerSettings.get_url self =
     Ok (url_scheme scheme ++ "://" ++ h ++ url_port_suffix port)) /\
  (forall port' : option Z,
     exists rest,
       ServerSettings.get_url
         (ServerSettings.set_port (from_option VInt VNone port') self) =
       Ok (url_scheme scheme ++ ":" ++ rest)).
Proof.
  intros Hh Hs Hp. split; [|split].
  - apply get_url_unsplit; assumption.
  - intros Hne. rewrite (get_url_unsplit self h scheme port Hh Hs Hp).
    rewrite urlunsplit_str_netloc; [reflexivity | apply url_scheme_nonempty |].
    destruct h as [|c h]; [congruence | rewrite append_cons; discriminate].
  - intros port'.
    rewrite (get_url_unsplit _ h scheme port'); [| exact Hh | exact Hs | reflexivity].
    destruct (urlunsplit_str_scheme (url_scheme scheme)
                (h ++ url_port_suffix port') (url_scheme_nonempty scheme))
      as (rest & ->).
    eauto.
Qed.

Lemma get_url_scheme_and_port_witness :
  ServerSettings.get_url
    (ServerSettings.set_port (VInt 8080)
       (ServerSettings.set_hostname (VStr "h") ServerSettings.__init__)) =
  Ok "https://h:8080".
Proof.
  apply (get_url_scheme_and_port
           (ServerSettings.set_port (VInt 8080)
              (ServerSettings.set_hostname (VStr "h") ServerSettings.__init__))
           "h" None (Some 8080%Z)); [reflexivity .. | discriminate].
Defined.

(** ** Docker settings *)

Lemma get_unix_socket_url_truthy (self : DockerSettings.t) :
  DockerSettings.get_unix_socket_url self =
  if truthy (DockerSettings.unix_socket self)
  then VStr "unix:///var/run/docker.sock" else VNone.
Proof. reflexivity. Qed.

Lemma docker_validate_iff (self : DockerSettings.t) :
  DockerSettings.validate self <> [] <->
  truthy (DockerSettings.unix_socket self) = false /\
  truthy (DockerSettings.external_url self) = false.
Proof.
  unfold DockerSettings.validate, py_any. simpl.
  destruct (truthy (DockerSettings.unix_socket self)),
    (truthy (DockerSettings.external_url self)); simpl;
    split; try (intros []; congruence); try congruence; auto.
Qed.

(** What [DockerSettings.read] leaves in the two attributes. *)
Lemma docker_read_ok `{Casters} reader (self self' : DockerSettings.t) :
  DockerSettings.read reader self = (Ok tt, self') ->
  INIReader.get reader "docker" "unix_socket" (VBool false) (Some py_bool) =
    Ok (DockerSettings.unix_socket self') /\
  INIReader.get reader "docker" "external_url" VNone None =
    Ok (DockerSettings.external_url self').
Proof.
  unfold DockerSettings.read. intros Hr.
  apply bind_ok_inv in Hr as ([] & s1 & H1 & H2).
  destruct (INIReader.get reader "docker" "unix_socket" (VBool false)
              (Some py_bool)) as [v1|e1]; [|discriminate H1].
  rewrite assign_ok in H1. injection H1 as <-.
  destruct (INIReader.get reader "docker" "external_url" VNone None)
    as [v2|e2]; [|discriminate H2].
  rewrite assign_ok in H2. injection H2 as <-.
  split; reflexivity.
Qed.

(** C7. After [read], with a boolean caster that returns booleans,
    [unix_socket] is a boolean; [get_unix_socket_url], a function of the
    instance alone, returns the fixed socket URL when it is true and
    [None] when it is false; and [validate] reports an error exactly when
    neither [unix_socket] nor [external_url] is truthy. *)
Theorem docker_socket_url_and_validate `{Casters} (reader : INIReader.t)
    (self self' : DockerSettings.t) :
  (forall raw v, cast_boolean raw = Ok v -> exists b, v = VBool b) ->
  DockerSettings.read reader self = (Ok tt, self') ->
  (exists b : bool,
     DockerSettings.unix_socket self' = VBool b /\
     DockerSettings.get_unix_socket_url self' =
       if b then VStr "unix:///var/run/docker.sock" else VNone) /\
  (DockerSettings.validate self' <> [] <->
   truthy (DockerSettings.unix_socket self') = false /\
   truthy (DockerSettings.external_url self') = false).
Proof.
  intros Hbool Hread. split; [|apply docker_validate_iff].
  destruct (docker_read_ok _ _ _ Hread) as (Hsock & _).
  assert (exists b, DockerSettings.unix_socket self' = VBool b) as (b & Hb).
  { destruct (option_value (INIReader.config_parser reader)
                "docker" "unix_socket") as [raw|] eqn:Hv.
    - rewrite (get_present_cast _ _ _ _ _ _ Hv) in Hsock. simpl in Hsock.
      destruct (cast_boolean raw) as [v|e] eqn:Hc.
      + injection Hsock as <-. exact (Hbool _ _ Hc).
      + destruct (is_lookup_error e); [|discriminate Hsock].
        injection Hsock as <-. exists false. reflexivity.
    - exists false. exact (get_unserved _ _ _ _ _ _ Hv Hsock). }
  exists b. split; [exact Hb|].
  rewrite get_unix_socket_url_truthy, Hb. reflexivity.
Qed.

Lemma Boolean_returns_bool raw v :
  casts.Boolean raw = Ok v -> exists b, v = VBool b.
Proof.
  unfold casts.Boolean.
  destruct (_ || _); [intros [= <-]; eauto|].
  destruct (_ || _); [intros [= <-]; eauto | discriminate].
Qed.

Lemma docker_socket_url_and_validate_witness :
  let self' :=
    (DockerSettings.read (H:=robottelo_casters)
       (reader_of Samples.docker_socket)
       DockerSettings.__init__).2 in
  (exists b : bool,
     DockerSettings.unix_socket self' = VBool b /\
     DockerSettings.get_unix_socket_url self' =
       if b then VStr "unix:///var/run/docker.sock" else VNone) /\
  (DockerSettings.validate self' <> [] <->
   truthy (DockerSettings.unix_socket self') = false /\
   truthy (DockerSettings.external_url self') = false).
Proof.
  apply (docker_socket_url_and_validate (H:=robottelo_casters)
           (reader_of Samples.docker_socket)
           DockerSettings.__init__).
  - exact Boolean_returns_bool.
  - reflexivity.
Defined.

(** ** The Settings aggregate *)

(** C9. On a fresh instance [all_features] returns the twelve names of
    the attributes holding feature settings, "server" and the eleven
    optional groups, and stores the list; once a list is stored, every
    access returns it without computing it again. *)
Theorem all_features_fresh_and_cached :
  let names := "server" :: Settings.optional_sections in
  Settings.all_features Settings.__init__ =
    (Ok names, Settings.set__all_features (Some names) Settings.__init__) /\
  length names = 12 /\
  NoDup names /\
  (forall (self : Settings.t) (cached : list string),
     Settings._all_features self = Some cached ->
     Settings.all_features self = (Ok cached, self)).
Proof.
  intros names. split; [reflexivity|]. split; [reflexivity|].
  split; [compute_done|].
  intros self cached Hc. unfold Settings.all_features, bind, gets.
  rewrite Hc. reflexivity.
Qed.

Lemma all_features_fresh_and_cached_witness :
  Settings.all_features
    (Settings.all_features Settings.__init__).2 =
  (Ok ("server" :: Settings.optional_sections),
   (Settings.all_features Settings.__init__).2).
Proof.
  apply all_features_fresh_and_cached. reflexivity.
Defined.

(** C2. On an instance that is already configured, [configure] returns
    at once: no exception, the instance and the process environment
    (which records every file read) are left as they were. *)
Theorem configure_configured_noop `{Casters} (self : Settings.t)
    (world : World) :
  Settings.configured self = true ->
  Settings.configure (self, world) = (Ok tt, (self, world)).
Proof.
  intros Hc. unfold Settings.configure, bind, gets. simpl.
  rewrite Hc. reflexivity.
Qed.

Lemma configure_configured_noop_witness :
  Settings.configure (H:=robottelo_casters)
    (Settings.set__configured true Settings.__init__,
     Samples.world_of Samples.minimal) =
  (Ok tt, (Settings.set__configured true Settings.__init__,
           Samples.world_of Samples.minimal)).
Proof.
  apply (configure_configured_noop (H:=robottelo_casters)). reflexivity.
Defined.

(** *** Relations between the states before and after *)


#[export] Instance same_refl {St X} (p : St -> X) : Reflexive (same p).
Proof. intros st. reflexivity. Qed.

#[export] Instance same_trans {St X} (p : St -> X) : Transitive (same p).
Proof. intros a b c Hab Hbc. unfold same in *. congruence. Qed.


#[export] Instance extends_errors_refl : Reflexive extends_errors.
Proof. intros st. exists []. now rewrite app_nil_r. Qed.

#[export] Instance extends_errors_trans : Transitive extends_errors.
Proof.
  intros a b c (m1 & H1) (m2 & H2). exists (m1 ++ m2)%list.
  rewrite H2, H1, app_assoc. reflexivity.
Qed.

Ltac respects_step fin :=
  lazymatch goal with
  | |- respects ?R (bind _ _) => apply (respects_bind R); [| intros ?]
  | |- respects ?R (assign _ _) => apply (respects_assign R); intros; fin
  | |- respects ?R (modify _) => apply (respects_modify R); intros; fin
  | |- respects ?R (gets _) => apply (respects_gets R)
  | |- respects ?R (lift _) => apply (respects_lift R)
  | |- respects ?R (ret _) => apply (respects_ret R)
  | |- respects ?R (raise _) => apply (respects_raise R)
  | |- respects ?R (zoom _ _ _) => apply (respects_zoom R); intros; fin
  | |- respects _ (if ?b then _ else _) => destruct b
  | |- respects _ (Settings.if_has_section _ _ _ _ _ _) =>
      unfold Settings.if_has_section
  | |- respects _ (Settings.read_and_validate _ _ _ _) =>
      unfold Settings.read_and_validate
  end.

Ltac respects_read_sections fin :=
  unfold Settings.read_sections, Settings._read_robottelo_settings;
  repeat respects_step fin.

(** *** The shape of a [configure] run *)

Section Configure.
Context `{Casters}.

(** On an unconfigured instance with a settings file that parses,
    [configure] opens the file, runs the read phase, and then either
    passes its exception on, or fails on the accumulated errors, or
    performs the side effects and sets the flag. *)
Lemma configure_unconfigured (self : Settings.t) (world : World) src :
  Settings.configured self = false ->
  settings_file world = Some (Ok src) ->
  Settings.configure (self, world) =
    match Settings.read_sections (reader_of src)
            (with_reader src self) with
    | (Raise e, self') => (Raise e, (self', opened world))
    | (Ok _, self') =>
        if bool_decide (Settings._validation_errors self' = [])
        then
          match side_effects self' (opened world) with
          | (Ok _, world') =>
              (Ok tt, (Settings.set__configured true self', world'))
          | (Raise e, world') => (Raise e, (self', world'))
          end
        else
          (Raise (Settings.validation_failure
                    (Settings._validation_errors self')),
           (self', opened world))
    end.
Proof.
  intros Hc Hf.
  unfold Settings.configure, Settings.on_self, Settings.on_world,
    INIReader.__init__, side_effects.
  unfold bind at 1, gets at 1. cbn [fst snd]. rewrite Hc.
  unfold bind at 1, gets at 1. cbn [fst snd].
  unfold bind at 1, gets at 1. cbn [fst snd]. rewrite Hf.
  rewrite bool_decide_eq_true_2 by eauto. cbn [negb].
  unfold opened, emit. unfold bind, zoom, gets, modify, ret, raise.
  cbn [fst snd settings_file]. rewrite Hf. cbn [fst snd].
  change {| INIReader.config_parser := src |} with (reader_of src).
  fold (with_reader src self).
  destruct (Settings.read_sections (reader_of src)
              (with_reader src self)) as [[[]|e] self']; [|reflexivity].
  cbn [fst snd]. case_bool_decide; cbn [negb fst snd]; [|reflexivity].
  destruct (Settings._configure_logging self' _) as [[[]|e1] w1];
    cbn [fst snd]; [|reflexivity].
  destruct (Settings._configure_third_party_logging self' _)
    as [[[]|e2] w2]; cbn [fst snd]; [|reflexivity].
  destruct (Settings._configure_entities self' _) as [[[]|e3] w3];
    reflexivity.
Qed.



(** *** What the read phase leaves alone *)

Lemma read_sections_configured reader :
  respects (same Settings._configured) (Settings.read_sections reader).
Proof. respects_read_sections ltac:(reflexivity). Qed.

Lemma read_sections_all_features reader :
  respects (same Settings._all_features) (Settings.read_sections reader).
Proof. respects_read_sections ltac:(reflexivity). Qed.

Lemma read_sections_reader reader :
  respects (same Settings.reader) (Settings.read_sections reader).
Proof. respects_read_sections ltac:(reflexivity). Qed.

Lemma read_sections_extends_errors reader :
  respects extends_errors (Settings.read_sections reader).
Proof.
  respects_read_sections
    ltac:(first [ exists []; now rewrite app_nil_r
                | eexists; reflexivity ]).
Qed.

End Configure.

Lemma opened_trace (world : World) :
  trace (opened world) =
    (trace world ++
     [EvOpen (path_join (project_root world) Settings.SETTINGS_FILE_NAME)])%list /\
  filter (fun e => is_side_effect e = true) (trace (opened world)) =
    filter (fun e => is_side_effect e = true) (trace world) /\
  settings_file (opened world) = settings_file world.
Proof.
  unfold opened, emit, modify. cbn [snd trace settings_file].
  split; [reflexivity|]. split; [|reflexivity].
  rewrite filter_app. cbn. now rewrite app_nil_r.
Qed.

Section ConfigureFailure.
Context `{Casters}.

Lemma read_phase_configured src (self self' : Settings.t) r :
  Settings.read_sections (reader_of src) (with_reader src self) =
    (r, self') ->
  Settings.configured self' = Settings.configured self.
Proof.
  intros Hr.
  pose proof (read_sections_configured (reader_of src)
                (with_reader src self)) as Hs.
  rewrite Hr in Hs. exact Hs.
Qed.

Lemma read_phase_extends src (self self' : Settings.t) r :
  Settings.read_sections (reader_of src) (with_reader src self) =
    (r, self') ->
  extends_errors self self'.
Proof.
  intros Hr.
  pose proof (read_sections_extends_errors (reader_of src)
                (with_reader src self)) as Hs.
  rewrite Hr in Hs. exact Hs.
Qed.

Lemma configure_fails_on_errors (self self' : Settings.t) (world : World) src :
  Settings.configured self = false ->
  settings_file world = Some (Ok src) ->
  Settings.read_sections (reader_of src) (with_reader src self) =
    (Ok tt, self') ->
  Settings._validation_errors self' <> [] ->
  Settings.configure (self, world) =
    (Raise (Settings.validation_failure (Settings._validation_errors self')),
     (self', opened world)).
Proof.
  intros Hc Hf Hr He. rewrite (configure_unconfigured _ _ _ Hc Hf), Hr.
  rewrite (bool_decide_eq_false_2 _ He). reflexivity.
Qed.

End ConfigureFailure.

(** C1. When the read phase has gone through the global options, the
    server section and every optional section of the source, and the
    accumulated list of validation errors is not empty, [configure]
    raises [ImproperlyConfigured]; its message is the heading line
    followed by the error strings, one per line; the flag is still false;
    and the process environment only records that the settings file was
    opened, none of the logging or entity side effects. *)
Theorem configure_validation_failure `{Casters} (self self' : Settings.t)
    (world : World) (src : RawConfigSource) :
  Settings.configured self = false ->
  settings_file world = Some (Ok src) ->
  Settings.read_sections (reader_of src) (with_reader src self) =
    (Ok tt, self') ->
  Settings._validation_errors self' <> [] ->
  Settings.configure (self, world) =
    (Raise (ImproperlyConfigured
              ("Failed to validate the configuration, check the message(s):"
               ++ nl ++ join nl (Settings._validation_errors self'))),
     (self', opened world)) /\
  Settings.configured self' = false /\
  filter (fun e => is_side_effect e = true) (trace (opened world)) =
    filter (fun e => is_side_effect e = true) (trace world).
Proof.
  intros Hc Hf Hr He. split; [|split].
  - exact (configure_fails_on_errors _ _ _ _ Hc Hf Hr He).
  - rewrite (read_phase_configured _ _ _ _ Hr). exact Hc.
  - apply opened_trace.
Qed.

Lemma configure_validation_failure_witness :
  let self' :=
    (Settings.read_sections (H:=robottelo_casters)
       (reader_of Samples.no_hostname)
       (with_reader Samples.no_hostname Settings.__init__)).2 in
  let world := Samples.world_of Samples.no_hostname in
  Settings.configure (H:=robottelo_casters) (Settings.__init__, world) =
    (Raise (ImproperlyConfigured
              ("Failed to validate the configuration, check the message(s):"
               ++ nl ++ join nl (Settings._validation_errors self'))),
     (self', opened world)) /\
  Settings.configured self' = false /\
  filter (fun e => is_side_effect e = true) (trace (opened world)) =
    filter (fun e => is_side_effect e = true) (trace world).
Proof.
  intros self' world.
  apply (configure_validation_failure (H:=robottelo_casters)
           Settings.__init__ self' world Samples.no_hostname).
  - reflexivity.
  - reflexivity.
  - vm_compute. reflexivity.
  - vm_compute. discriminate.
Defined.

(** C10, as stated, fails: not every later call raises
    [ImproperlyConfigured] with the old errors.  After a validation
    failure, a call on a source with a malformed port raises the caster's
    [ValueError]. *)
Lemma later_configure_cast_failure :
  let first := Settings.configure (H:=robottelo_casters)
                 (Settings.__init__, Samples.world_of Samples.no_hostname) in
  let later := Settings.configure (H:=robottelo_casters)
                 (first.2.1, Samples.world_of Samples.bad_port) in
  first.1 = Raise (Settings.validation_failure
                     ["[server] hostname must be provided."]) /\
  Settings._validation_errors first.2.1 =
    ["[server] hostname must be provided."] /\
  later.1 = Raise (ValueError "invalid literal for int() with base 10: 'http'") /\
  forall msg, later.1 <> Raise (ImproperlyConfigured msg).
Proof.
  cbv zeta. split; [vm_compute; reflexivity|].
  split; [vm_compute; reflexivity|].
  assert (Hlater :
    (Settings.configure (H:=robottelo_casters)
       ((Settings.configure (H:=robottelo_casters)
           (Settings.__init__, Samples.world_of Samples.no_hostname)).2.1,
        Samples.world_of Samples.bad_port)).1 =
    Raise (ValueError "invalid literal for int() with base 10: 'http'"))
    by (vm_compute; reflexivity).
  split; [exact Hlater|]. intros msg. rewrite Hlater. discriminate.
Qed.

(** C10, amended. After [configure] has failed on validation errors, the
    instance keeps the whole list and its flag is false.  A later
    [configure] on the same instance that reads its source through to the
    end, whatever that source now says, has the old errors at the head of
    its list and so raises [ImproperlyConfigured] again with them in its
    message. *)
Theorem validation_errors_are_retained `{Casters} (self self1 : Settings.t)
    (world : World) (src : RawConfigSource) :
  Settings.configured self = false ->
  settings_file world = Some (Ok src) ->
  Settings.read_sections (reader_of src) (with_reader src self) =
    (Ok tt, self1) ->
  Settings._validation_errors self1 <> [] ->
  Settings.configure (self, world) =
    (Raise (Settings.validation_failure (Settings._validation_errors self1)),
     (self1, opened world)) /\
  Settings.configured self1 = false /\
  forall (world2 : World) (src2 : RawConfigSource) (self2 : Settings.t),
    settings_file world2 = Some (Ok src2) ->
    Settings.read_sections (reader_of src2)
      (with_reader src2 self1) = (Ok tt, self2) ->
    exists more : list string,
      Settings._validation_errors self2 =
        (Settings._validation_errors self1 ++ more)%list /\
      Settings.configure (self1, world2) =
        (Raise (Settings.validation_failure
                  (Settings._validation_errors self1 ++ more)%list),
         (self2, opened world2)) /\
      Settings.configured self2 = false.
Proof.
  intros Hc Hf Hr He.
  assert (Hc1 : Settings.configured self1 = false).
  { rewrite (read_phase_configured _ _ _ _ Hr). exact Hc. }
  split; [|split].
  - exact (configure_fails_on_errors _ _ _ _ Hc Hf Hr He).
  - exact Hc1.
  - intros world2 src2 self2 Hf2 Hr2.
    destruct (read_phase_extends _ _ _ _ Hr2) as (more & Hm).
    exists more. split; [exact Hm|]. split.
    + rewrite <- Hm. apply (configure_fails_on_errors _ _ _ _ Hc1 Hf2 Hr2).
      rewrite Hm. intros Hnil. apply app_eq_nil in Hnil as [Hnil _].
      exact (He Hnil).
    + rewrite (read_phase_configured _ _ _ _ Hr2). exact Hc1.
Qed.

Lemma validation_errors_are_retained_witness :
  let self1 :=
    (Settings.read_sections (H:=robottelo_casters)
       (reader_of Samples.no_hostname)
       (with_reader Samples.no_hostname Settings.__init__)).2 in
  let self2 :=
    (Settings.read_sections (H:=robottelo_casters)
       (reader_of Samples.minimal)
       (with_reader Samples.minimal self1)).2 in
  exists more : list string,
    Settings._validation_errors self2 =
      (Settings._validation_errors self1 ++ more)%list /\
    Settings.configure (H:=robottelo_casters)
      (self1, Samples.world_of Samples.minimal) =
      (Raise (Settings.validation_failure
                (Settings._validation_errors self1 ++ more)%list),
       (self2, opened (Samples.world_of Samples.minimal))) /\
    Settings.configured self2 = false.
Proof.
  intros self1 self2.
  destruct (validation_errors_are_retained (H:=robottelo_casters)
              Settings.__init__ self1
              (Samples.world_of Samples.no_hostname) Samples.no_hostname)
    as (_ & _ & Hlater).
  - reflexivity.
  - reflexivity.
  - vm_compute. reflexivity.
  - vm_compute. discriminate.
  - apply (Hlater (Samples.world_of Samples.minimal) Samples.minimal self2).
    + reflexivity.
    + vm_compute. reflexivity.
Defined.

(** *** Inverting a run that returned *)

Lemma assign_ok_inv {St} (setter : pyval -> St -> St) value st a st' :
  assign setter value st = (Ok a, st') ->
  exists v, value = Ok v /\ st' = setter v st.
Proof.
  destruct value as [v|e]; [|discriminate].
  rewrite assign_ok. intros Ha. inversion Ha. eauto.
Qed.

Lemma lift_ok_inv {St A} (r : result A) (st : St) a st' :
  lift r st = (Ok a, st') -> r = Ok a /\ st' = st.
Proof. unfold lift. intros Hl. inversion Hl. auto. Qed.

Lemma gets_ok_inv {St A} (f : St -> A) (st : St) a st' :
  gets f st = (Ok a, st') -> a = f st /\ st' = st.
Proof. unfold gets. intros Hg. inversion Hg. auto. Qed.

Lemma modify_ok_inv {St} (f : St -> St) (st : St) a st' :
  modify f st = (Ok a, st') -> st' = f st.
Proof. unfold modify. intros Hm. inversion Hm. reflexivity. Qed.

(** Split [H : (c ;;; k) st = (Ok _, st')] into the facts of its steps. *)
Ltac invert_step H :=
  lazymatch type of H with
  | bind _ _ _ = (Ok _, _) =>
      let a := fresh "a" in
      let st := fresh "st" in
      let Hs := fresh "Hstep" in
      apply bind_ok_inv in H as (a & st & Hs & H);
      lazymatch type of Hs with
      | assign _ _ _ = _ =>
          let v := fresh "v" in
          let Hv := fresh "Hget" in
          apply assign_ok_inv in Hs as (v & Hv & ->)
      | lift _ _ = _ =>
          let Hv := fresh "Hlift" in
          apply lift_ok_inv in Hs as (Hv & ->)
      | gets _ _ = _ => apply gets_ok_inv in Hs as (-> & ->)
      | modify _ _ = _ => apply modify_ok_inv in Hs as ->
      | _ => idtac
      end
  end.

Section GlobalOptions.
Context `{Casters}.

(** The four attributes that global validation looks at, after a global
    read that returned. *)
Lemma read_robottelo_settings_ok reader (self self' : Settings.t) :
  Settings._read_robottelo_settings reader self = (Ok tt, self') ->
  INIReader.get reader "robottelo" "browser" (VStr "selenium") None =
    Ok (Settings.browser self') /\
  INIReader.get reader "robottelo" "webdriver" (VStr "firefox") None =
    Ok (Settings.webdriver self') /\
  INIReader.get reader "robottelo" "saucelabs_user" VNone None =
    Ok (Settings.saucelabs_user self') /\
  INIReader.get reader "robottelo" "saucelabs_key" VNone None =
    Ok (Settings.saucelabs_key self') /\
  Settings._validation_errors self' = Settings._validation_errors self.
Proof.
  unfold Settings._read_robottelo_settings. intros Hr.
  repeat invert_step Hr.
  apply assign_ok_inv in Hr as (v14 & Hget14 & ->).
  cbn. auto.
Qed.

Lemma read_sections_global reader (self self' : Settings.t) :
  Settings.read_sections reader self = (Ok tt, self') ->
  exists selfg (more : list string),
    Settings._read_robottelo_settings reader self = (Ok tt, selfg) /\
    Settings._validation_errors self' =
      (Settings._validation_errors self ++
       Settings._validate_robottelo_settings selfg ++ more)%list.
Proof.
  unfold Settings.read_sections. intros Hr.
  apply bind_ok_inv in Hr as ([] & selfg & Hg & Hr).
  invert_step Hr. invert_step Hr.
  lazymatch type of Hr with
  | ?c ?st = _ =>
      assert (Hrest : respects extends_errors c)
        by (repeat respects_step
              ltac:(first [ exists []; now rewrite app_nil_r
                          | eexists; reflexivity ]));
      specialize (Hrest st); rewrite Hr in Hrest
  end.
  destruct Hrest as (more & Hm). cbn in Hm.
  exists selfg, more. split; [exact Hg|].
  destruct (read_robottelo_settings_ok _ _ _ Hg) as (_ & _ & _ & _ & He).
  rewrite Hm, He, app_assoc. reflexivity.
Qed.

End GlobalOptions.

Lemma saucelabs_errors_distinct :
  Settings.saucelabs_user_error <> Settings.saucelabs_key_error.
Proof. discriminate. Qed.

(** C8, as stated, fails: with browser saucelabs, no saucelabs user and
    no saucelabs key, and a webdriver outside the closed set, global
    validation returns three error strings, not two. *)
Lemma saucelabs_invalid_webdriver_three_errors :
  let src := Samples.saucelabs_safari in
  let self :=
    (Settings._read_robottelo_settings (H:=robottelo_casters)
       (reader_of src) Settings.__init__).2 in
  option_value src "robottelo" "browser" = Some "saucelabs" /\
  option_value src "robottelo" "saucelabs_user" = None /\
  option_value src "robottelo" "saucelabs_key" = None /\
  Settings._validate_robottelo_settings self =
    [Settings.webdriver_error; Settings.saucelabs_user_error;
     Settings.saucelabs_key_error] /\
  length (Settings._validate_robottelo_settings self) <> 2.
Proof.
  cbv zeta. repeat split; try reflexivity.
  vm_compute. discriminate.
Qed.

(** C8, amended. With browser saucelabs and neither saucelabs user nor
    saucelabs key in the source, global validation returns the error for
    the missing user and the error for the missing key, two distinct
    strings in that order, preceded by the webdriver error exactly when
    the webdriver (default firefox) is outside the closed set; and a
    [configure] whose read phase goes through to the end raises the
    validation failure with both strings in its list of messages. *)
Theorem saucelabs_credentials_required `{Casters} (src : RawConfigSource) :
  option_value src "robottelo" "browser" = Some "saucelabs" ->
  option_value src "robottelo" "saucelabs_user" = None ->
  option_value src "robottelo" "saucelabs_key" = None ->
  (forall self selfg : Settings.t,
     Settings._read_robottelo_settings (reader_of src) self =
       (Ok tt, selfg) ->
     Settings.webdriver selfg =
       VStr (default "firefox" (option_value src "robottelo" "webdriver")) /\
     Settings._validate_robottelo_settings selfg =
       ((if in_strs (Settings.webdriver selfg) Settings.webdrivers
         then [] else [Settings.webdriver_error]) ++
        [Settings.saucelabs_user_error; Settings.saucelabs_key_error])%list) /\
  Settings.saucelabs_user_error <> Settings.saucelabs_key_error /\
  (forall (self self' : Settings.t) (world : World),
     Settings.configured self = false ->
     settings_file world = Some (Ok src) ->
     Settings.read_sections (reader_of src) (with_reader src self) =
       (Ok tt, self') ->
     Settings.configure (self, world) =
       (Raise (Settings.validation_failure
                 (Settings._validation_errors self')),
        (self', opened world)) /\
     Settings.saucelabs_user_error ∈ Settings._validation_errors self' /\
     Settings.saucelabs_key_error ∈ Settings._validation_errors self').
Proof.
  intros Hb Hu Hk.
  assert (Hglobal : forall self selfg : Settings.t,
     Settings._read_robottelo_settings (reader_of src) self =
       (Ok tt, selfg) ->
     Settings.webdriver selfg =
       VStr (default "firefox" (option_value src "robottelo" "webdriver")) /\
     Settings._validate_robottelo_settings selfg =
       ((if in_strs (Settings.webdriver selfg) Settings.webdrivers
         then [] else [Settings.webdriver_error]) ++
        [Settings.saucelabs_user_error; Settings.saucelabs_key_error])%list).
  { intros self selfg Hr.
    destruct (read_robottelo_settings_ok _ _ _ Hr) as (Hgb & Hgw & Hgu & Hgk & _).
    rewrite (get_present_raw (reader_of src) _ _ _ _ Hb) in Hgb.
    apply (get_unserved (reader_of src) _ _ _ _ _ Hu) in Hgu.
    apply (get_unserved (reader_of src) _ _ _ _ _ Hk) in Hgk.
    symmetry in Hgu, Hgk. injection Hgb as Hgb.
    split.
    - destruct (option_value src "robottelo" "webdriver") as [raw|] eqn:Hw.
      + rewrite (get_present_raw (reader_of src) _ _ _ _ Hw) in Hgw. now injection Hgw as <-.
      + now rewrite (get_unserved (reader_of src) _ _ _ _ _ Hw Hgw).
    - unfold Settings._validate_robottelo_settings.
      rewrite <- Hgb, <- Hgu, <- Hgk.
      destruct (in_strs (Settings.webdriver selfg) Settings.webdrivers);
        reflexivity. }
  split; [exact Hglobal|]. split; [exact saucelabs_errors_distinct|].
  intros self self' world Hc Hf Hr.
  destruct (read_sections_global _ _ _ Hr) as (selfg & more & Hg & He).
  pose proof (Hglobal _ _ Hg) as (_ & Hv). rewrite Hv in He.
  assert (Hin : Settings.saucelabs_user_error ∈
                  Settings._validation_errors self' /\
                Settings.saucelabs_key_error ∈
                  Settings._validation_errors self').
  { rewrite He, !elem_of_app, !elem_of_cons. split; auto 10. }
  split; [|exact Hin].
  apply (configure_fails_on_errors _ _ _ _ Hc Hf Hr).
  intros Hnil. rewrite Hnil in Hin. destruct Hin as [Hin _].
  now apply elem_of_nil in Hin.
Qed.

Lemma saucelabs_credentials_required_witness :
  let src := Samples.saucelabs in
  let self' :=
    (Settings.read_sections (H:=robottelo_casters) (reader_of src)
       (with_reader src Settings.__init__)).2 in
  Settings.configure (H:=robottelo_casters)
    (Settings.__init__, Samples.world_of src) =
    (Raise (Settings.validation_failure (Settings._validation_errors self')),
     (self', opened (Samples.world_of src))) /\
  Settings.saucelabs_user_error ∈ Settings._validation_errors self' /\
  Settings.saucelabs_key_error ∈ Settings._validation_errors self'.
Proof.
  intros src self'.
  destruct (saucelabs_credentials_required (H:=robottelo_casters) src)
    as (_ & _ & Hconfigure).
  - reflexivity.
  - reflexivity.
  - reflexivity.
  - apply (Hconfigure Settings.__init__ self' (Samples.world_of src)).
    + reflexivity.
    + reflexivity.
    + vm_compute. reflexivity.
Defined.

(** ** Cast failures *)

Ltac in_typed_options :=
  repeat first [ apply list_elem_of_here | apply list_elem_of_further ].

Ltac unfold_reads :=
  unfold Settings.read_sections, Settings._read_robottelo_settings,
    Settings.if_has_section, Settings.read_and_validate,
    ServerSettings.read, ClientsSettings.read, LibvirtHostSettings.read,
    DiscoveryISOSettings.read, DockerSettings.read,
    FakeManifestSettings.read, LDAPSettings.read, OscapSettings.read,
    PerformanceSettings.read, RHAISettings.read, TransitionSettings.read,
    VlanNetworkSettings.read.

Ltac raises_step :=
  lazymatch goal with
  | |- raises_only _ (bind _ _) => apply raises_only_bind; [| intros ?]
  | |- raises_only _ (assign _ (INIReader.get _ ?section ?opt _ None)) =>
      let e := fresh "e" in
      let He := fresh "He" in
      let Hc := fresh "Hc" in
      apply raises_only_assign; intros e He;
      apply get_raise_inv in He as (? & [? | (? & ? & Hc & _)]);
      [ right; exists section, opt;
        split; [compute_done | split; assumption]
      | discriminate Hc ]
  | |- raises_only _ (assign _ (INIReader.get _ ?section ?opt _ (Some ?c))) =>
      let e := fresh "e" in
      let He := fresh "He" in
      let raw := fresh "raw" in
      let Hc := fresh "Hc" in
      apply raises_only_assign; intros e He;
      apply get_raise_inv in He as (? & [? | (? & raw & Hc & ? & ?)]);
      [ right; exists section, opt;
        split; [compute_done | split; assumption]
      | injection Hc as <-; left; right; exists section, opt, c, raw;
        split; [in_typed_options | auto] ]
  | |- raises_only _ (lift (cast_logging_level _)) =>
      apply raises_only_lift; intros; left; left; assumption
  | |- raises_only _ (modify _) => apply raises_only_modify
  | |- raises_only _ (gets _) => apply raises_only_gets
  | |- raises_only _ (ret _) => apply raises_only_ret
  | |- raises_only _ (zoom _ _ _) => apply raises_only_zoom
  | |- raises_only _ (if ?b then _ else _) => destruct b
  end.

Section CastFailures.
Context `{Casters}.

(** The dispatch of [get] runs the caster that stands for the cast. *)
Lemma apply_cast_caster_of c raw :
  INIReader.apply_cast c raw = caster_of c raw.
Proof. destruct c; reflexivity. Qed.

Lemma get_cast_failure reader section opt raw c e :
  option_value (INIReader.config_parser reader) section opt = Some raw ->
  caster_of c raw = Raise e ->
  is_lookup_error e = false ->
  forall default,
    INIReader.get reader section opt default (Some c) = Raise e.
Proof.
  intros Hv Hc Hl default.
  rewrite (get_present_cast _ _ _ _ _ _ Hv), apply_cast_caster_of, Hc, Hl.
  reflexivity.
Qed.

Lemma typed_option_section section opt c :
  (section, opt, c) ∈ Settings.typed_options -> section <> DEFAULTSECT.
Proof.
  unfold Settings.typed_options. intros Hin.
  repeat (apply elem_of_cons in Hin as [Hin|Hin];
          [injection Hin as -> -> ->; discriminate|]).
  now apply elem_of_nil in Hin.
Qed.

Lemma read_sections_raises_only reader :
  raises_only (raised_while_reading reader) (Settings.read_sections reader).
Proof. unfold_reads. repeat raises_step. Qed.


Lemma feature_read_raises_only reader :
  raises_only (raised_while_reading reader) (FeatureSettings.read reader).
Proof.
  intros f e f' Hr.
  destruct f as [g|g|g|g|g|g|g|g|g|g|g|g];
    unfold FeatureSettings.read in Hr; cbv beta iota in Hr;
    lazymatch type of Hr with
    | context [?read reader g] =>
        let Hg := fresh "Hg" in
        let Hro := fresh "Hro" in
        destruct (read reader g) as [r g'] eqn:Hg;
        assert (Hro : raises_only (raised_while_reading reader) (read reader))
          by (unfold_reads; repeat raises_step);
        injection Hr as -> _; exact (Hro _ _ _ Hg)
    end.
Qed.

End CastFailures.

(** Find, in a chain of steps, the assignment whose [get] is known to
    raise ([Hget]), entering the conditional on its section ([Hhas]). *)
Ltac find_raise Hget Hhas :=
  lazymatch goal with
  | |- always_raises (bind _ _) =>
      first [ apply always_raises_bind_l; solve [find_raise Hget Hhas]
            | apply always_raises_bind_r; intros ?; find_raise Hget Hhas ]
  | |- always_raises (assign _ (INIReader.get _ _ _ _ _)) =>
      rewrite Hget; apply always_raises_assign
  | |- always_raises (zoom _ _ _) =>
      apply always_raises_zoom; unfold_reads; find_raise Hget Hhas
  | |- always_raises (if INIReader.has_section _ _ then _ else _) =>
      rewrite Hhas; find_raise Hget Hhas
  end.

Section CastFailuresReach.
Context `{Casters}.

Lemma read_sections_always_raises reader section opt raw c e :
  (section, opt, c) ∈ Settings.typed_options ->
  option_value (INIReader.config_parser reader) section opt = Some raw ->
  caster_of c raw = Raise e ->
  is_lookup_error e = false ->
  always_raises (Settings.read_sections reader).
Proof.
  intros Hin Hv Hc Hl.
  pose proof (get_cast_failure _ _ _ _ _ _ Hv Hc Hl) as Hget.
  pose proof (has_section_of_option_value _ _ _ _
                (typed_option_section _ _ _ Hin) Hv) as Hhas.
  clear Hv Hc Hl. unfold Settings.typed_options in Hin.
  repeat (apply elem_of_cons in Hin as [Hin|Hin];
          [injection Hin as -> -> ->; unfold_reads; find_raise Hget Hhas|]).
  now apply elem_of_nil in Hin.
Qed.

End CastFailuresReach.

Section CastFailuresGroups.
Context `{Casters}.

Lemma feature_read_always_raises reader (f : feature) opt raw c e :
  (section_of f, opt, c) ∈ Settings.typed_options ->
  option_value (INIReader.config_parser reader) (section_of f) opt =
    Some raw ->
  caster_of c raw = Raise e ->
  is_lookup_error e = false ->
  exists e' f', FeatureSettings.read reader f = (Raise e', f').
Proof.
  intros Hin Hv Hc Hl.
  pose proof (get_cast_failure _ _ _ _ _ _ Hv Hc Hl) as Hget.
  pose proof (has_section_of_option_value _ _ _ _
                (typed_option_section _ _ _ Hin) Hv) as Hhas.
  clear Hv Hc Hl. unfold Settings.typed_options in Hin.
  destruct f as [g|g|g|g|g|g|g|g|g|g|g|g]; cbn [section_of] in *;
    repeat (apply elem_of_cons in Hin as [Hin|Hin];
            [first [ discriminate Hin | injection Hin as -> -> ] |]);
    try (now apply elem_of_nil in Hin);
    unfold FeatureSettings.read;
    lazymatch goal with
    | |- context [?read reader g] =>
        let Har := fresh "Har" in
        assert (Har : always_raises (read reader))
          by (unfold_reads; find_raise Hget Hhas);
        destruct (Har g) as (e' & g' & ->); eauto
    end.
Qed.

End CastFailuresGroups.

(** C6, as stated, fails: not every failure of the cast on a present
    value leaves [get].  The cast runs inside the [try] block, so a cast
    that fails with one of the two lookup errors is caught like a missing
    option, and [get] returns the default. *)
Lemma cast_lookup_error_is_caught :
  let reader := reader_of Samples.with_port in
  let cast := callable (fun raw => Raise (NoOptionError raw "server")) in
  ConfigParser_get (INIReader.config_parser reader) "server" "port" =
    Ok "8080" /\
  caster_of (H:=robottelo_casters) cast "8080" =
    Raise (NoOptionError "8080" "server") /\
  INIReader.get (H:=robottelo_casters) reader "server" "port" (VInt 443)
    (Some cast) = Ok (VInt 443).
Proof. cbv zeta. repeat split. Qed.

(** C6, amended.  When the parser returns a value for an option and the
    caster that [get] runs on it (the reader's own for [bool], [dict],
    [list] and [tuple], the given callable otherwise) fails with an
    exception other than the two lookup errors that [get] catches, the
    exception leaves [get] unchanged, whatever the default.  If the
    option is one that the [read] methods fetch through a cast, the
    [read] of its group raises, the read phase raises, and [configure]
    raises: in each case with an exception that a caster or the parser
    raised; the run stops before the validation check, having done
    nothing but open the file, and the instance is left unconfigured. *)
Theorem cast_failure_propagates `{Casters} (reader : INIReader.t)
    (section opt raw : string) (c : cast_arg) (e : exn) :
  ConfigParser_get (INIReader.config_parser reader) section opt = Ok raw ->
  caster_of c raw = Raise e ->
  is_lookup_error e = false ->
  (forall default,
     INIReader.get reader section opt default (Some c) = Raise e) /\
  ((section, opt, c) ∈ Settings.typed_options ->
   (forall f : feature,
      section_of f = section ->
      exists e' f',
        FeatureSettings.read reader f = (Raise e', f') /\
        raised_while_reading reader e') /\
   (forall self : Settings.t,
      exists e' self',
        Settings.read_sections reader self = (Raise e', self') /\
        raised_while_reading reader e') /\
   (forall (self : Settings.t) (world : World),
      Settings.configured self = false ->
      settings_file world = Some (Ok (INIReader.config_parser reader)) ->
      exists e' self',
        Settings.configure (self, world) = (Raise e', (self', opened world)) /\
        raised_while_reading reader e' /\
        Settings.configured self' = false)).
Proof.
  intros Hget Hc Hl.
  pose proof (option_value_served _ _ _ _ Hget) as Hv. split.
  { exact (get_cast_failure _ _ _ _ _ _ Hv Hc Hl). }
  intros Hin.
  assert (Hphase : forall self : Settings.t,
            exists e' self',
              Settings.read_sections reader self = (Raise e', self') /\
              raised_while_reading reader e').
  { intros self.
    destruct (read_sections_always_raises _ _ _ _ _ _ Hin Hv Hc Hl self)
      as (e' & self' & Hr).
    exists e', self'. split; [exact Hr|].
    exact (read_sections_raises_only reader _ _ _ Hr). }
  split; [|split].
  - intros f <-.
    destruct (feature_read_always_raises _ _ _ _ _ _ Hin Hv Hc Hl)
      as (e' & f' & Hr).
    exists e', f'. split; [exact Hr|].
    exact (feature_read_raises_only reader _ _ _ Hr).
  - exact Hphase.
  - intros self world Hconf Hf.
    assert (Hreader : reader_of (INIReader.config_parser reader)
                      = reader) by (destruct reader; reflexivity).
    destruct (Hphase (with_reader (INIReader.config_parser reader) self))
      as (e' & self' & Hr & He').
    exists e', self'.
    rewrite (configure_unconfigured _ _ _ Hconf Hf), Hreader, Hr.
    split; [reflexivity|]. split; [exact He'|].
    rewrite <- Hreader in Hr.
    rewrite (read_phase_configured _ _ _ _ Hr). exact Hconf.
Qed.

Lemma cast_failure_propagates_witness :
  let reader := reader_of Samples.bad_port in
  exists e' self',
    Settings.configure (H:=robottelo_casters)
      (Settings.__init__, Samples.world_of Samples.bad_port) =
      (Raise e', (self', opened (Samples.world_of Samples.bad_port))) /\
    raised_while_reading (H:=robottelo_casters) reader e' /\
    Settings.configured self' = false.
Proof.
  intros reader.
  destruct (cast_failure_propagates (H:=robottelo_casters) reader
              "server" "port" "http"
              (callable (py_int (Casters:=robottelo_casters)))
              (ValueError "invalid literal for int() with base 10: 'http'"))
    as (_ & Hreach).
  - reflexivity.
  - reflexivity.
  - reflexivity.
  - destruct Hreach as (_ & _ & Hconfigure).
    + unfold Settings.typed_options.
      repeat first [ apply list_elem_of_here | apply list_elem_of_further ].
    + apply (Hconfigure Settings.__init__
               (Samples.world_of Samples.bad_port)); reflexivity.
Defined.

(** ** Which sections are read *)

Section SectionsRead.
Context `{Casters}.

(** The instance that [configure] leaves is the one the read phase left,
    with at most the flag set. *)
Lemma configure_instance (self self' : Settings.t) (world world' : World)
    src r :
  Settings.configured self = false ->
  settings_file world = Some (Ok src) ->
  Settings.configure (self, world) = (r, (self', world')) ->
  let self1 :=
    (Settings.read_sections (reader_of src)
       (with_reader src self)).2 in
  self' = self1 \/ self' = Settings.set__configured true self1.
Proof.
  intros Hc Hf. rewrite (configure_unconfigured _ _ _ Hc Hf).
  destruct (Settings.read_sections _ _) as [[[]|e] s1]; cbn [snd].
  - case_bool_decide.
    + destruct (side_effects s1 (opened world)) as [[[]|e] w1];
        intros Hr; inversion Hr; auto.
    + intros Hr; inversion Hr; auto.
  - intros Hr; inversion Hr; auto.
Qed.

(** A section that is not in the source leaves its attribute alone,
    whatever happens in the rest of the read phase. *)
Lemma read_sections_absent reader name :
  name ∈ Settings.optional_sections ->
  INIReader.has_section reader name = false ->
  respects (same (fun self => Settings.getattr self name))
    (Settings.read_sections reader).
Proof.
  intros Hin Hhas. unfold Settings.optional_sections in Hin.
  repeat (apply elem_of_cons in Hin as [->|Hin];
          [unfold Settings.read_sections, Settings._read_robottelo_settings,
             Settings.if_has_section;
           rewrite Hhas; repeat respects_step ltac:(reflexivity)|]).
  now apply elem_of_nil in Hin.
Qed.

End SectionsRead.

Section StepEffects.
Context {G : Type} (group : Settings.t -> G)
  (set_group : G -> Settings.t -> Settings.t)
  (read : M G unit) (validate : G -> list string).
Hypothesis get_set : forall g self, group (set_group g self) = g.
Hypothesis set_get :
  forall self,
    Settings.set__validation_errors (Settings._validation_errors self)
      (set_group (group self) self) = self.
Hypothesis errors_set :
  forall g self,
    Settings._validation_errors (set_group g self) =
    Settings._validation_errors self.

Lemma read_and_validate_effect (self self' : Settings.t) :
  Settings.read_and_validate group set_group read validate self =
    (Ok tt, self') ->
  exists g',
    read (group self) = (Ok tt, g') /\
    self' = Settings.set__validation_errors
              (Settings._validation_errors self ++ validate g')%list
              (set_group g' self).
Proof.
  unfold Settings.read_and_validate. intros Hr.
  apply bind_ok_inv in Hr as ([] & st & Hz & Hr).
  unfold zoom in Hz. destruct (read (group self)) as [[[]|e] g'] eqn:Hg;
    inversion Hz; subst st.
  invert_step Hr. apply modify_ok_inv in Hr as ->.
  exists g'. split; [reflexivity|].
  unfold Settings.extend_validation_errors.
  rewrite get_set, errors_set. reflexivity.
Qed.

(** One conditional step of the read phase that returned: the group and
    the errors it leaves, in a form that does not depend on whether the
    section was there. *)
Lemma if_has_section_effect reader section (self self' : Settings.t) :
  Settings.if_has_section reader section group set_group read validate self =
    (Ok tt, self') ->
  exists g' errors,
    self' = Settings.set__validation_errors
              (Settings._validation_errors self ++ errors)%list
              (set_group g' self) /\
    if INIReader.has_section reader section
    then read (group self) = (Ok tt, g') /\ errors = validate g'
    else g' = group self /\ errors = [].
Proof.
  unfold Settings.if_has_section.
  destruct (INIReader.has_section reader section).
  - intros Hr. apply read_and_validate_effect in Hr as (g' & Hg & ->).
    exists g', (validate g'). auto.
  - intros Hr. inversion Hr. subst self'.
    exists (group self), []. rewrite app_nil_r, set_get. auto.
Qed.

End StepEffects.

(** Reduce the attribute accesses on an instance built by assignments. *)
Ltac settings_cbn :=
  cbn [
    Settings._all_features Settings._configured
    Settings._validation_errors Settings.browser Settings.locale
    Settings.project Settings.reader Settings.rhel6_repo
    Settings.rhel7_repo Settings.screenshots_path
    Settings.saucelabs_key Settings.saucelabs_user Settings.server
    Settings.run_one_datapoint Settings.upstream Settings.verbosity
    Settings.webdriver Settings.webdriver_binary
    Settings.webdriver_desired_capabilities Settings.clients
    Settings.compute_resources Settings.discovery Settings.docker
    Settings.fake_manifest Settings.ldap Settings.oscap
    Settings.performance Settings.rhai Settings.transition
    Settings.vlan_networking Settings.window_manager_command
    Settings.set__all_features Settings.set__configured
    Settings.set__validation_errors Settings.set_browser
    Settings.set_locale Settings.set_project Settings.set_reader
    Settings.set_rhel6_repo Settings.set_rhel7_repo
    Settings.set_screenshots_path Settings.set_saucelabs_key
    Settings.set_saucelabs_user Settings.set_server
    Settings.set_run_one_datapoint Settings.set_upstream
    Settings.set_verbosity Settings.set_webdriver
    Settings.set_webdriver_binary
    Settings.set_webdriver_desired_capabilities Settings.set_clients
    Settings.set_compute_resources Settings.set_discovery
    Settings.set_docker Settings.set_fake_manifest Settings.set_ldap
    Settings.set_oscap Settings.set_performance Settings.set_rhai
    Settings.set_transition Settings.set_vlan_networking
    Settings.set_window_manager_command
    Settings.extend_validation_errors with_reader ].

Ltac settings_cbn_in H :=
  cbn [
    Settings._all_features Settings._configured
    Settings._validation_errors Settings.browser Settings.locale
    Settings.project Settings.reader Settings.rhel6_repo
    Settings.rhel7_repo Settings.screenshots_path
    Settings.saucelabs_key Settings.saucelabs_user Settings.server
    Settings.run_one_datapoint Settings.upstream Settings.verbosity
    Settings.webdriver Settings.webdriver_binary
    Settings.webdriver_desired_capabilities Settings.clients
    Settings.compute_resources Settings.discovery Settings.docker
    Settings.fake_manifest Settings.ldap Settings.oscap
    Settings.performance Settings.rhai Settings.transition
    Settings.vlan_networking Settings.window_manager_command
    Settings.set__all_features Settings.set__configured
    Settings.set__validation_errors Settings.set_browser
    Settings.set_locale Settings.set_project Settings.set_reader
    Settings.set_rhel6_repo Settings.set_rhel7_repo
    Settings.set_screenshots_path Settings.set_saucelabs_key
    Settings.set_saucelabs_user Settings.set_server
    Settings.set_run_one_datapoint Settings.set_upstream
    Settings.set_verbosity Settings.set_webdriver
    Settings.set_webdriver_binary
    Settings.set_webdriver_desired_capabilities Settings.set_clients
    Settings.set_compute_resources Settings.set_discovery
    Settings.set_docker Settings.set_fake_manifest Settings.set_ldap
    Settings.set_oscap Settings.set_performance Settings.set_rhai
    Settings.set_transition Settings.set_vlan_networking
    Settings.set_window_manager_command
    Settings.extend_validation_errors with_reader ] in H.

Lemma getattr_server (self : Settings.t) :
  Settings.getattr self "server" =
  Some (Feature (FServerSettings (Settings.server self))).
Proof. reflexivity. Qed.

Lemma getattr_clients (self : Settings.t) :
  Settings.getattr self "clients" =
  Some (Feature (FClientsSettings (Settings.clients self))).
Proof. reflexivity. Qed.

Lemma getattr_compute_resources (self : Settings.t) :
  Settings.getattr self "compute_resources" =
  Some (Feature (FLibvirtHostSettings (Settings.compute_resources self))).
Proof. reflexivity. Qed.

Lemma getattr_discovery (self : Settings.t) :
  Settings.getattr self "discovery" =
  Some (Feature (FDiscoveryISOSettings (Settings.discovery self))).
Proof. reflexivity. Qed.

Lemma getattr_docker (self : Settings.t) :
  Settings.getattr self "docker" =
  Some (Feature (FDockerSettings (Settings.docker self))).
Proof. reflexivity. Qed.

Lemma getattr_fake_manifest (self : Settings.t) :
  Settings.getattr self "fake_manifest" =
  Some (Feature (FFakeManifestSettings (Settings.fake_manifest self))).
Proof. reflexivity. Qed.

Lemma getattr_ldap (self : Settings.t) :
  Settings.getattr self "ldap" =
  Some (Feature (FLDAPSettings (Settings.ldap self))).
Proof. reflexivity. Qed.

Lemma getattr_oscap (self : Settings.t) :
  Settings.getattr self "oscap" =
  Some (Feature (FOscapSettings (Settings.oscap self))).
Proof. reflexivity. Qed.

Lemma getattr_performance (self : Settings.t) :
  Settings.getattr self "performance" =
  Some (Feature (FPerformanceSettings (Settings.performance self))).
Proof. reflexivity. Qed.

Lemma getattr_rhai (self : Settings.t) :
  Settings.getattr self "rhai" =
  Some (Feature (FRHAISettings (Settings.rhai self))).
Proof. reflexivity. Qed.

Lemma getattr_transition (self : Settings.t) :
  Settings.getattr self "transition" =
  Some (Feature (FTransitionSettings (Settings.transition self))).
Proof. reflexivity. Qed.

Lemma getattr_vlan_networking (self : Settings.t) :
  Settings.getattr self "vlan_networking" =
  Some (Feature (FVlanNetworkSettings (Settings.vlan_networking self))).
Proof. reflexivity. Qed.

Ltac rewrite_getattr :=
  rewrite ?getattr_server, ?getattr_clients, ?getattr_compute_resources,
    ?getattr_discovery, ?getattr_docker, ?getattr_fake_manifest,
    ?getattr_ldap, ?getattr_oscap, ?getattr_performance, ?getattr_rhai,
    ?getattr_transition, ?getattr_vlan_networking.

Ltac step_side_conditions :=
  solve [ intros; reflexivity | intros []; reflexivity ].

Ltac invert_section_step H :=
  let g := fresh "g" in
  let errs := fresh "errs" in
  let Hfact := fresh "Hsection" in
  let Hst := fresh "Hstate" in
  lazymatch type of H with
  | bind _ _ _ = (Ok _, _) =>
      let a := fresh "a" in
      let st := fresh "st" in
      let Hs := fresh "Hstep" in
      apply bind_ok_inv in H as (a & st & Hs & H); destruct a;
      apply if_has_section_effect in Hs as (g & errs & Hst & Hfact);
      [ | step_side_conditions .. ]
  | Settings.if_has_section _ _ _ _ _ _ _ = (Ok _, _) =>
      apply if_has_section_effect in H as (g & errs & Hst & Hfact);
      [ | step_side_conditions .. ]
  end.

(** Replace the intermediate instances by what the steps made of them,
    reducing the attribute accesses as they appear. *)
Ltac unroll_states :=
  repeat match goal with
         | Hst : ?st = Settings.set__validation_errors _ _
           |- context [?st] => rewrite Hst; settings_cbn
         end.

Ltac unroll_states_in H :=
  repeat match goal with
         | Hst : ?st = Settings.set__validation_errors _ _ |- _ =>
             lazymatch type of H with
             | context [st] => rewrite Hst in H; settings_cbn_in H
             end
         end.

Section ReadPhase.
Context `{Casters}.

(** The global read touches neither the groups nor the error list. *)
Lemma read_robottelo_settings_frame reader (self selfg : Settings.t) r :
  Settings._read_robottelo_settings reader self = (r, selfg) ->
  Settings.server selfg = Settings.server self /\
  Settings.clients selfg = Settings.clients self /\
  Settings.compute_resources selfg = Settings.compute_resources self /\
  Settings.discovery selfg = Settings.discovery self /\
  Settings.docker selfg = Settings.docker self /\
  Settings.fake_manifest selfg = Settings.fake_manifest self /\
  Settings.ldap selfg = Settings.ldap self /\
  Settings.oscap selfg = Settings.oscap self /\
  Settings.performance selfg = Settings.performance self /\
  Settings.rhai selfg = Settings.rhai self /\
  Settings.transition selfg = Settings.transition self /\
  Settings.vlan_networking selfg = Settings.vlan_networking self /\
  Settings._validation_errors selfg = Settings._validation_errors self.
Proof.
  intros Hg.
  repeat split;
    lazymatch goal with
    | |- ?p selfg = ?p self =>
        let Hs := fresh "Hs" in
        assert (Hs : respects (same p)
                       (Settings._read_robottelo_settings reader))
          by (unfold Settings._read_robottelo_settings;
              repeat respects_step ltac:(reflexivity));
        specialize (Hs self); rewrite Hg in Hs; exact Hs
    end.
Qed.

Lemma read_sections_effect reader (self self1 : Settings.t) :
  Settings.read_sections reader self = (Ok tt, self1) ->
  ServerSettings.read reader (Settings.server self) =
    (Ok tt, Settings.server self1) /\
  (forall name,
     name ∈ Settings.optional_sections ->
     INIReader.has_section reader name = true ->
     exists f f',
       Settings.getattr self name = Some (Feature f) /\
       Settings.getattr self1 name = Some (Feature f') /\
       FeatureSettings.read reader f = (Ok tt, f')) /\
  Settings._validation_errors self1 =
    (Settings._validation_errors self ++
     Settings._validate_robottelo_settings self1 ++
     ServerSettings.validate (Settings.server self1) ++
     optional_errors reader self1)%list.
Proof.
  unfold Settings.read_sections. intros Hr.
  apply bind_ok_inv in Hr as ([] & selfg & Hg & Hr).
  apply read_robottelo_settings_frame in Hg
    as (Fserver & Fclients & Fcompute & Fdiscovery & Fdocker & Ffake &
        Fldap & Foscap & Fperformance & Frhai & Ftransition & Fvlan &
        Ferrors).
  invert_step Hr. invert_step Hr.
  apply bind_ok_inv in Hr as ([] & st & Hserver & Hr).
  apply read_and_validate_effect in Hserver as (g0 & Hserver & Hstate);
    [ | step_side_conditions .. ].
  do 11 invert_section_step Hr.
  settings_cbn_in Hserver. settings_cbn_in Hstate.
  split; [|split].
  - unroll_states. rewrite <- Fserver. exact Hserver.
  - intros name Hin Hhas. unfold Settings.optional_sections in Hin.
    repeat (apply elem_of_cons in Hin as [->|Hin];
      [ match goal with
        | Hs : if INIReader.has_section reader _ then _ else _ |- _ =>
            rewrite Hhas in Hs; unroll_states_in Hs;
            destruct Hs as [Hread _]
        end;
        rewrite ?Fclients, ?Fcompute, ?Fdiscovery, ?Fdocker, ?Ffake, ?Fldap,
          ?Foscap, ?Fperformance, ?Frhai, ?Ftransition, ?Fvlan in Hread;
        eexists _, _; rewrite_getattr;
        split; [reflexivity|]; split; [unroll_states; reflexivity|];
        unfold FeatureSettings.read; rewrite Hread; reflexivity
      | ]).
    now apply elem_of_nil in Hin.
  - repeat match goal with
           | Hs : if ?b then _ /\ ?errs = ?v else _ /\ ?errs = [] |- _ =>
               let E := fresh "E" in
               assert (E : errs = if b then v else [])
                 by (destruct b; apply Hs);
               clear Hs; rewrite E in *; clear E
           end.
    unfold optional_errors, Settings.optional_sections,
      Settings.validate_attr.
    unfold Settings._validate_robottelo_settings in *.
    cbn [concat map]. rewrite_getattr. cbn [FeatureSettings.validate].
    unroll_states. rewrite Ferrors.
    rewrite <- !app_assoc, ?app_nil_r. reflexivity.
Qed.

End ReadPhase.

Lemma getattr_optional_frame (self : Settings.t) name b src :
  name ∈ Settings.optional_sections ->
  Settings.getattr (Settings.set__configured b self) name =
    Settings.getattr self name /\
  Settings.getattr (with_reader src self) name = Settings.getattr self name.
Proof.
  intros Hin. unfold Settings.optional_sections in Hin.
  repeat (apply elem_of_cons in Hin as [->|Hin]; [split; reflexivity|]).
  now apply elem_of_nil in Hin.
Qed.

Lemma optional_errors_configured reader (self : Settings.t) b :
  optional_errors reader (Settings.set__configured b self) =
  optional_errors reader self.
Proof. reflexivity. Qed.

(** C3, as stated, fails: a section header in the source does not by
    itself get the group read.  Here the server port is malformed, the
    cast failure ends the run, and the docker group, whose section is in
    the source, is left as [__init__] set it, neither read (a read would
    have set [unix_socket]) nor validated (its validation would have
    reported an error). *)
Lemma docker_section_present_but_unread :
  let src := Samples.bad_port_with_docker in
  let reader := reader_of src in
  let run := Settings.configure (H:=robottelo_casters)
               (Settings.__init__, Samples.world_of src) in
  let read := DockerSettings.read (H:=robottelo_casters) reader
                DockerSettings.__init__ in
  INIReader.has_section reader "docker" = true /\
  run.1 = Raise (ValueError "invalid literal for int() with base 10: 'http'") /\
  Settings.docker run.2.1 = DockerSettings.__init__ /\
  read.1 = Ok tt /\
  read.2 <> DockerSettings.__init__ /\
  DockerSettings.validate read.2 <> [] /\
  Settings._validation_errors run.2.1 = [].
Proof.
  cbv zeta. repeat split; try (vm_compute; reflexivity);
    vm_compute; discriminate.
Qed.

(** C3, amended. In a [configure] run on an unconfigured instance with a
    parsed source: an optional group whose section is not in the source
    keeps its attributes as they were (on a fresh instance, as [__init__]
    set them), whatever else happens; and when the read phase runs to its
    end, the server group has been read, each optional group whose
    section is in the source has been read, and the errors added are
    those of the global options, of the server group, and of exactly the
    optional groups whose section is in the source. *)
Theorem sections_read_iff_present `{Casters} (src : RawConfigSource)
    (self self' : Settings.t) (world world' : World) (r : result unit) :
  Settings.configured self = false ->
  settings_file world = Some (Ok src) ->
  Settings.configure (self, world) = (r, (self', world')) ->
  let reader := reader_of src in
  (forall name,
     name ∈ Settings.optional_sections ->
     INIReader.has_section reader name = false ->
     Settings.getattr self' name = Settings.getattr self name) /\
  (forall self1,
     Settings.read_sections reader (with_reader src self) = (Ok tt, self1) ->
     ServerSettings.read reader (Settings.server self) =
       (Ok tt, Settings.server self') /\
     (forall name,
        name ∈ Settings.optional_sections ->
        INIReader.has_section reader name = true ->
        exists f f',
          Settings.getattr self name = Some (Feature f) /\
          Settings.getattr self' name = Some (Feature f') /\
          FeatureSettings.read reader f = (Ok tt, f')) /\
     Settings._validation_errors self' =
       (Settings._validation_errors self ++
        Settings._validate_robottelo_settings self' ++
        ServerSettings.validate (Settings.server self') ++
        optional_errors reader self')%list).
Proof.
  intros Hc Hf Hrun reader.
  pose proof (configure_instance _ _ _ _ _ _ Hc Hf Hrun) as Hinst.
  cbv zeta in Hinst. fold reader in Hinst. split.
  - intros name Hin Hhas.
    pose proof (read_sections_absent reader name Hin Hhas
                  (with_reader src self)) as Hsame.
    unfold same in Hsame.
    destruct (getattr_optional_frame self name true src Hin) as [_ Hw].
    destruct Hinst as [-> | ->].
    + rewrite Hsame. exact Hw.
    + destruct (getattr_optional_frame
                  (Settings.read_sections reader (with_reader src self)).2
                  name true src Hin) as [-> _].
      rewrite Hsame. exact Hw.
  - intros self1 Hread. rewrite Hread in Hinst. cbn [snd] in Hinst.
    destruct (read_sections_effect _ _ _ Hread) as (Hserver & Hgroups & Herrors).
    assert (Hgroups' : forall name,
              name ∈ Settings.optional_sections ->
              INIReader.has_section reader name = true ->
              exists f f',
                Settings.getattr self name = Some (Feature f) /\
                Settings.getattr self1 name = Some (Feature f') /\
                FeatureSettings.read reader f = (Ok tt, f')).
    { intros name Hin Hhas.
      destruct (Hgroups name Hin Hhas) as (f & f' & Hg & Hg' & Hfr).
      destruct (getattr_optional_frame self name true src Hin) as [_ Hw].
      rewrite Hw in Hg. exists f, f'.
      split; [exact Hg|]. split; [exact Hg'|exact Hfr]. }
    destruct Hinst as [-> | ->].
    + split; [exact Hserver|]. split; [exact Hgroups'|exact Herrors].
    + split; [exact Hserver|]. split.
      2:{ rewrite optional_errors_configured.
          unfold Settings._validate_robottelo_settings in *.
          settings_cbn. exact Herrors. }
      intros name Hin Hhas.
      destruct (Hgroups' name Hin Hhas) as (f & f' & Hg & Hg' & Hfr).
      destruct (getattr_optional_frame self1 name true src Hin) as [Hcf _].
      exists f, f'. rewrite Hcf.
      split; [exact Hg|]. split; [exact Hg'|exact Hfr].
Qed.

Lemma sections_read_iff_present_witness :
  let src := Samples.server_and_docker in
  let world := Samples.world_of src in
  let run := Settings.configure (H:=robottelo_casters)
               (Settings.__init__, world) in
  let self' := run.2.1 in
  let reader := reader_of src in
  (forall name,
     name ∈ Settings.optional_sections ->
     INIReader.has_section reader name = false ->
     Settings.getattr self' name = Settings.getattr Settings.__init__ name) /\
  (forall self1,
     Settings.read_sections (H:=robottelo_casters) reader
       (with_reader src Settings.__init__) = (Ok tt, self1) ->
     ServerSettings.read (H:=robottelo_casters) reader
       (Settings.server Settings.__init__) =
       (Ok tt, Settings.server self') /\
     (forall name,
        name ∈ Settings.optional_sections ->
        INIReader.has_section reader name = true ->
        exists f f',
          Settings.getattr Settings.__init__ name = Some (Feature f) /\
          Settings.getattr self' name = Some (Feature f') /\
          FeatureSettings.read (H:=robottelo_casters) reader f =
            (Ok tt, f')) /\
     Settings._validation_errors self' =
       (Settings._validation_errors Settings.__init__ ++
        Settings._validate_robottelo_settings self' ++
        ServerSettings.validate (Settings.server self') ++
        optional_errors reader self')%list).
Proof.
  intros src world run self' reader.
  apply (sections_read_iff_present (H:=robottelo_casters) src
           Settings.__init__ self' world run.2.2 run.1).
  - reflexivity.
  - reflexivity.
  - vm_compute. reflexivity.
Defined.

(** ** Further checks *)

Section Extras.
Context `{Casters}.

(** A [configure] that returns has set the flag, so the next call is the
    no-op of the guard: the file is read once. *)
Lemma configure_twice (self self1 : Settings.t) (world world1 : World) src :
  Settings.configured self = false ->
  settings_file world = Some (Ok src) ->
  Settings.configure (self, world) = (Ok tt, (self1, world1)) ->
  Settings.configured self1 = true /\
  Settings.configure (self1, world1) = (Ok tt, (self1, world1)).
Proof.
  intros Hc Hf. rewrite (configure_unconfigured _ _ _ Hc Hf).
  destruct (Settings.read_sections _ _) as [[[]|e] s1]; [|discriminate].
  case_bool_decide; [|discriminate].
  destruct (side_effects s1 (opened world)) as [[[]|e] w1]; [|discriminate].
  intros Hr. inversion Hr. subst self1 world1.
  split; [reflexivity|].
  unfold Settings.configure, bind, gets. reflexivity.
Qed.

(** After [read] the server attributes have the shapes that [get_url]
    expects: a string scheme, a port that is unset or an integer, and a
    hostname that is unset or a string. *)
Lemma server_read_shapes reader (self self' : ServerSettings.t) :
  ServerSettings.read reader self = (Ok tt, self') ->
  (exists scheme, ServerSettings.scheme self' = VStr scheme) /\
  (exists port, ServerSettings.port self' = from_option VInt VNone port) /\
  (exists hostname,
     ServerSettings.hostname self' = from_option VStr VNone hostname).
Proof.
  unfold ServerSettings.read. intros Hr.
  repeat invert_step Hr. apply assign_ok_inv in Hr as (v6 & Hget6 & ->).
  cbn. split; [|split].
  - destruct (option_value (INIReader.config_parser reader)
                "server" "scheme") as [raw|] eqn:Hv.
    + rewrite (get_present_raw _ _ _ _ _ Hv) in Hget3.
      inversion Hget3. eauto.
    + rewrite (get_unserved _ _ _ _ _ _ Hv Hget3). eauto.
  - destruct (option_value (INIReader.config_parser reader)
                "server" "port") as [raw|] eqn:Hv.
    + rewrite (get_present_cast _ _ _ _ _ _ Hv) in Hget2.
      cbn [INIReader.apply_cast] in Hget2.
      destruct (py_int raw) as [value|e] eqn:Hint.
      * injection Hget2 as <-.
        destruct (py_int_returns_int _ _ Hint) as (z & ->).
        exists (Some z). reflexivity.
      * destruct (is_lookup_error e); [|discriminate Hget2].
        injection Hget2 as <-. exists None. reflexivity.
    + rewrite (get_unserved _ _ _ _ _ _ Hv Hget2). exists None. reflexivity.
  - destruct (option_value (INIReader.config_parser reader)
                "server" "hostname") as [raw|] eqn:Hv.
    + rewrite (get_present_raw _ _ _ _ _ Hv) in Hget1.
      inversion Hget1. exists (Some raw). reflexivity.
    + rewrite (get_unserved _ _ _ _ _ _ Hv Hget1). exists None. reflexivity.
Qed.

End Extras.

(** The minimal source of the specification: [configure] returns, the
    flag is set and the server URL is "https://foo.example.com". *)
Example configure_minimal :
  let run := Settings.configure (H:=robottelo_casters)
               (Settings.__init__, Samples.world_of Samples.minimal) in
  run.1 = Ok tt /\
  Settings.configured run.2.1 = true /\
  ServerSettings.get_url (Settings.server run.2.1) =
    Ok "https://foo.example.com".
Proof. vm_compute. repeat split. Qed.

(** A source without a server hostname. *)
Example configure_no_hostname :
  (Settings.configure (H:=robottelo_casters)
     (Settings.__init__, Samples.world_of Samples.no_hostname)).1 =
  Raise (ImproperlyConfigured
           ("Failed to validate the configuration, check the message(s):"
            ++ nl ++ "[server] hostname must be provided.")).
Proof. vm_compute. reflexivity. Qed.

(** Browser saucelabs without credentials. *)
Example configure_saucelabs :
  (Settings.configure (H:=robottelo_casters)
     (Settings.__init__, Samples.world_of Samples.saucelabs)).1 =
  Raise (ImproperlyConfigured
           ("Failed to validate the configuration, check the message(s):"
            ++ nl ++ Settings.saucelabs_user_error
            ++ nl ++ Settings.saucelabs_key_error)).
Proof. vm_compute. reflexivity. Qed.

(** A malformed port is not a validation error. *)
Example configure_bad_port :
  (Settings.configure (H:=robottelo_casters)
     (Settings.__init__, Samples.world_of Samples.bad_port)).1 =
  Raise (ValueError "invalid literal for int() with base 10: 'http'").
Proof. vm_compute. reflexivity. Qed.

(** * Further properties of the code *)

(** ** Reading options *)

Lemma get_untyped_value `{Casters} reader section opt default v :
  INIReader.get reader section opt default None = Ok v ->
  v = raw_or reader section opt default.
Proof.
  unfold raw_or. intros Hg.
  destruct (option_value (INIReader.config_parser reader) section opt)
    as [raw|] eqn:Hv.
  - rewrite (get_present_raw _ _ _ _ _ Hv) in Hg. now injection Hg as <-.
  - exact (get_unserved _ _ _ _ _ _ Hv Hg).
Qed.

Lemma raw_or_is_None reader section opt :
  is_None (raw_or reader section opt VNone) = negb (present reader section opt).
Proof.
  unfold raw_or, present.
  destruct (option_value _ _ _) as [raw|]; reflexivity.
Qed.

Lemma raw_or_truthy reader section opt :
  truthy (raw_or reader section opt VNone) = filled reader section opt.
Proof.
  unfold raw_or, filled.
  destruct (option_value _ _ _) as [raw|]; reflexivity.
Qed.

(** Turn the facts [get ... None = Ok v] of an inverted [read] into the
    values they determine. *)
Ltac resolve_untyped :=
  repeat match goal with
         | Hg : INIReader.get _ _ _ _ None = Ok ?v |- _ =>
             apply get_untyped_value in Hg; subst v
         end.

(** Invert [Hr : read reader self = (Ok tt, self')], [read] unfolded. *)
Ltac invert_read Hr :=
  repeat invert_step Hr;
  let v := fresh "v" in
  let Hg := fresh "Hget" in
  apply assign_ok_inv in Hr as (v & Hg & ->).

(** X1. [INIReader.get] never lets one of the two lookup errors out,
    whether the parser raised it or the cast did.  An exception that
    leaves [get] is neither [NoSectionError] nor [NoOptionError]; it was
    raised by the parser (on a value that fails interpolation), or by the
    caster that [get] runs, on the value that the parser returned.
    Without a cast, only an exception of the parser leaves [get]. *)
Theorem get_never_raises_lookup_error `{Casters} (reader : INIReader.t)
    (section opt : string) (default : pyval) (cast : option cast_arg)
    (e : exn) :
  INIReader.get reader section opt default cast = Raise e ->
  is_lookup_error e = false /\
  (ConfigParser_get (INIReader.config_parser reader) section opt = Raise e \/
   exists c raw,
     cast = Some c /\
     ConfigParser_get (INIReader.config_parser reader) section opt =
       Ok raw /\
     caster_of c raw = Raise e) /\
  (cast = None ->
   ConfigParser_get (INIReader.config_parser reader) section opt = Raise e).
Proof.
  intros He.
  destruct (get_raise_inv _ _ _ _ _ _ He)
    as (Hl & [Hp | (c & raw & Hc & Hv & Ha)]).
  - split; [exact Hl|]. split; [left; exact Hp | intros _; exact Hp].
  - split; [exact Hl|]. split.
    + right. exists c, raw. split; [exact Hc|].
      split; [exact (ConfigParser_get_present _ _ _ _ Hv)|].
      rewrite <- apply_cast_caster_of. exact Ha.
    + intros Hnone. rewrite Hnone in Hc. discriminate Hc.
Qed.

Lemma get_never_raises_lookup_error_witness :
  let reader := reader_of Samples.bad_interpolation in
  let e := InterpolationError
             "'%' must be followed by '%' or '(', found: '%cd'" in
  is_lookup_error e = false /\
  (ConfigParser_get (INIReader.config_parser reader)
     "server" "admin_password" = Raise e \/
   exists c raw,
     (None : option cast_arg) = Some c /\
     ConfigParser_get (INIReader.config_parser reader)
       "server" "admin_password" = Ok raw /\
     caster_of (H:=robottelo_casters) c raw = Raise e) /\
  ((None : option cast_arg) = None ->
   ConfigParser_get (INIReader.config_parser reader)
     "server" "admin_password" = Raise e).
Proof.
  intros reader e.
  apply (get_never_raises_lookup_error (H:=robottelo_casters) reader
           "server" "admin_password" (VStr "changeme") None e).
  reflexivity.
Defined.

(** ** Validation, in terms of the source *)

Section ValidationFromSource.
Context `{Casters}.

Lemma server_read_values reader (self self' : ServerSettings.t) :
  ServerSettings.read reader self = (Ok tt, self') ->
  ServerSettings.admin_password self' =
    raw_or reader "server" "admin_password" (VStr "changeme") /\
  ServerSettings.admin_username self' =
    raw_or reader "server" "admin_username" (VStr "admin") /\
  ServerSettings.hostname self' = raw_or reader "server" "hostname" VNone /\
  ServerSettings.scheme self' =
    raw_or reader "server" "scheme" (VStr "https") /\
  ServerSettings.ssh_key self' = raw_or reader "server" "ssh_key" VNone /\
  ServerSettings.ssh_password self' =
    raw_or reader "server" "ssh_password" VNone /\
  ServerSettings.ssh_username self' =
    raw_or reader "server" "ssh_username" (VStr "root") /\
  INIReader.get reader "server" "port" VNone (Some (callable py_int)) =
    Ok (ServerSettings.port self').
Proof.
  unfold ServerSettings.read. intros Hr. invert_read Hr. resolve_untyped.
  cbn. repeat split; try reflexivity. assumption.
Qed.

End ValidationFromSource.

(** X2. After [ServerSettings.read], validation looks only at whether
    the source has the options: the hostname error appears exactly when
    [hostname] is not in the source, and the ssh error exactly when
    neither [ssh_key] nor [ssh_password] is.  A value that is there but
    empty passes. *)
Theorem server_validation_from_source `{Casters} (reader : INIReader.t)
    (self self' : ServerSettings.t) :
  ServerSettings.read reader self = (Ok tt, self') ->
  ServerSettings.validate self' =
    ((if present reader "server" "hostname" then []
      else ["[server] hostname must be provided."]) ++
     (if present reader "server" "ssh_key" ||
         present reader "server" "ssh_password"
      then []
      else ["[server] ssh_key or ssh_password must be provided."]))%list.
Proof.
  intros Hr.
  destruct (server_read_values _ _ _ Hr)
    as (_ & _ & Hh & _ & Hk & Hp & _).
  unfold ServerSettings.validate. rewrite Hh, Hk, Hp, !raw_or_is_None.
  destruct (present reader "server" "hostname"),
    (present reader "server" "ssh_key"),
    (present reader "server" "ssh_password"); reflexivity.
Qed.

Lemma server_validation_from_source_witness :
  let reader := reader_of Samples.no_hostname in
  let self' := (ServerSettings.read (H:=robottelo_casters) reader
                  ServerSettings.__init__).2 in
  ServerSettings.validate self' =
    ((if present reader "server" "hostname" then []
      else ["[server] hostname must be provided."]) ++
     (if present reader "server" "ssh_key" ||
         present reader "server" "ssh_password"
      then []
      else ["[server] ssh_key or ssh_password must be provided."]))%list.
Proof.
  intros reader self'.
  apply (server_validation_from_source (H:=robottelo_casters) reader
           ServerSettings.__init__ self').
  vm_compute. reflexivity.
Defined.

Section GroupValues.
Context `{Casters}.

Lemma fake_manifest_read_values reader (self self' : FakeManifestSettings.t) :
  FakeManifestSettings.read reader self = (Ok tt, self') ->
  FakeManifestSettings.vars self' =
    [("cert_url", raw_or reader "fake_manifest" "cert_url" VNone);
     ("key_url", raw_or reader "fake_manifest" "key_url" VNone);
     ("url", raw_or reader "fake_manifest" "url" VNone)].
Proof.
  unfold FakeManifestSettings.read. intros Hr. invert_read Hr.
  resolve_untyped. reflexivity.
Qed.

Lemma ldap_read_values reader (self self' : LDAPSettings.t) :
  LDAPSettings.read reader self = (Ok tt, self') ->
  LDAPSettings.vars self' =
    [("basedn", raw_or reader "ldap" "basedn" VNone);
     ("grpbasedn", raw_or reader "ldap" "grpbasedn" VNone);
     ("hostname", raw_or reader "ldap" "hostname" VNone);
     ("password", raw_or reader "ldap" "password" VNone);
     ("username", raw_or reader "ldap" "username" VNone)].
Proof.
  unfold LDAPSettings.read. intros Hr. invert_read Hr.
  resolve_untyped. reflexivity.
Qed.

Lemma vlan_read_values reader (self self' : VlanNetworkSettings.t) :
  VlanNetworkSettings.read reader self = (Ok tt, self') ->
  VlanNetworkSettings.vars self' =
    [("subnet", raw_or reader "vlan_networking" "subnet" VNone);
     ("netmask", raw_or reader "vlan_networking" "netmask" VNone);
     ("gateway", raw_or reader "vlan_networking" "gateway" VNone);
     ("bridge", raw_or reader "vlan_networking" "bridge" VNone)].
Proof.
  unfold VlanNetworkSettings.read. intros Hr. invert_read Hr.
  resolve_untyped. reflexivity.
Qed.

End GroupValues.

(** X3. The fake manifest, LDAP and vlan networking groups are all or
    nothing: after [read], [validate] returns no error exactly when the
    source has a non-empty value for every option of the group, and the
    single error of the group otherwise.  An option that is there but
    empty counts as missing. *)
Theorem all_or_nothing_groups `{Casters} (reader : INIReader.t) :
  (forall self self',
     FakeManifestSettings.read reader self = (Ok tt, self') ->
     FakeManifestSettings.validate self' =
       if forallb (filled reader "fake_manifest")
            ["cert_url"; "key_url"; "url"]
       then []
       else ["All [fake_manifest] cert_url, key_url, url options must be provided."]) /\
  (forall self self',
     LDAPSettings.read reader self = (Ok tt, self') ->
     LDAPSettings.validate self' =
       if forallb (filled reader "ldap")
            ["basedn"; "grpbasedn"; "hostname"; "password"; "username"]
       then []
       else ["All [ldap] basedn, grpbasedn, hostname, password, username options must be provided."]) /\
  (forall self self',
     VlanNetworkSettings.read reader self = (Ok tt, self') ->
     VlanNetworkSettings.validate self' =
       if forallb (filled reader "vlan_networking")
            ["subnet"; "netmask"; "gateway"; "bridge"]
       then []
       else ["All [vlan_networking] subnet, netmask, gateway, bridge options must be provided."]).
Proof.
  split; [|split]; intros self self' Hr.
  - unfold FakeManifestSettings.validate.
    rewrite (fake_manifest_read_values _ _ _ Hr). cbn [map snd py_all forallb].
    rewrite !raw_or_truthy.
    destruct (_ && _); reflexivity.
  - unfold LDAPSettings.validate.
    rewrite (ldap_read_values _ _ _ Hr). cbn [map snd py_all forallb].
    rewrite !raw_or_truthy.
    destruct (_ && _); reflexivity.
  - unfold VlanNetworkSettings.validate.
    rewrite (vlan_read_values _ _ _ Hr). cbn [map snd py_all forallb].
    rewrite !raw_or_truthy.
    destruct (_ && _); reflexivity.
Qed.

(** An LDAP section with an empty password. *)
Lemma all_or_nothing_groups_witness :
  let reader := reader_of Samples.ldap_empty_password in
  let self' := (LDAPSettings.read (H:=robottelo_casters) reader
                  LDAPSettings.__init__).2 in
  LDAPSettings.validate self' =
    if forallb (filled reader "ldap")
         ["basedn"; "grpbasedn"; "hostname"; "password"; "username"]
    then []
    else ["All [ldap] basedn, grpbasedn, hostname, password, username options must be provided."].
Proof.
  intros reader self'.
  destruct (all_or_nothing_groups (H:=robottelo_casters) reader)
    as (_ & Hldap & _).
  apply (Hldap LDAPSettings.__init__ self').
  vm_compute. reflexivity.
Defined.

(** X4. The clients, compute resources, discovery, oscap and transition
    groups each require one option: after [read], [validate] returns the
    group's error exactly when the source has no value for it (an empty
    value passes); the two options with a default never cause an
    error. *)
Theorem single_required_option_groups `{Casters} (reader : INIReader.t) :
  (forall self self',
     ClientsSettings.read reader self = (Ok tt, self') ->
     ClientsSettings.image_dir self' =
       raw_or reader "clients" "image_dir" (VStr "/opt/robottelo/images") /\
     ClientsSettings.validate self' =
       if present reader "clients" "provisioning_server" then []
       else ["[clients] provisioning_server option must be provided."]) /\
  (forall self self',
     LibvirtHostSettings.read reader self = (Ok tt, self') ->
     LibvirtHostSettings.libvirt_image_dir self' =
       raw_or reader "compute_resources" "libvirt_image_dir"
         (VStr "/var/lib/libvirt/images") /\
     LibvirtHostSettings.validate self' =
       if present reader "compute_resources" "libvirt_hostname" then []
       else ["[compute_resources] libvirt_hostname option must be provided."]) /\
  (forall self self',
     DiscoveryISOSettings.read reader self = (Ok tt, self') ->
     DiscoveryISOSettings.validate self' =
       if present reader "discovery" "discovery_iso" then []
       else ["[discovery] discovery iso name must be provided."]) /\
  (forall self self',
     OscapSettings.read reader self = (Ok tt, self') ->
     OscapSettings.validate self' =
       if present reader "oscap" "content_path" then []
       else ["[oscap] content_path option must be provided."]) /\
  (forall self self',
     TransitionSettings.read reader self = (Ok tt, self') ->
     TransitionSettings.validate self' =
       if present reader "transition" "exported_data" then []
       else ["[transition] exported_data must be provided."]).
Proof.
  split; [|split; [|split; [|split]]]; intros self self' Hr.
  - unfold ClientsSettings.read in Hr. invert_read Hr. resolve_untyped.
    split; [reflexivity|].
    unfold ClientsSettings.validate.
    cbn [ClientsSettings.provisioning_server
         ClientsSettings.set_provisioning_server].
    rewrite raw_or_is_None. destruct (present _ _ _); reflexivity.
  - unfold LibvirtHostSettings.read in Hr. invert_read Hr. resolve_untyped.
    split; [reflexivity|].
    unfold LibvirtHostSettings.validate.
    cbn [LibvirtHostSettings.libvirt_hostname
         LibvirtHostSettings.set_libvirt_hostname].
    rewrite raw_or_is_None. destruct (present _ _ _); reflexivity.
  - unfold DiscoveryISOSettings.read in Hr.
    apply assign_ok_inv in Hr as (v & Hget & ->). resolve_untyped.
    unfold DiscoveryISOSettings.validate.
    cbn [DiscoveryISOSettings.discovery_iso
         DiscoveryISOSettings.set_discovery_iso].
    rewrite raw_or_is_None. destruct (present _ _ _); reflexivity.
  - unfold OscapSettings.read in Hr.
    apply assign_ok_inv in Hr as (v & Hget & ->). resolve_untyped.
    unfold OscapSettings.validate.
    cbn [OscapSettings.content_path OscapSettings.set_content_path].
    rewrite raw_or_is_None. destruct (present _ _ _); reflexivity.
  - unfold TransitionSettings.read in Hr.
    apply assign_ok_inv in Hr as (v & Hget & ->). resolve_untyped.
    unfold TransitionSettings.validate.
    cbn [TransitionSettings.exported_data
         TransitionSettings.set_exported_data].
    rewrite raw_or_is_None. destruct (present _ _ _); reflexivity.
Qed.

Lemma single_required_option_groups_witness :
  let reader := reader_of Samples.minimal in
  let self' := (ClientsSettings.read (H:=robottelo_casters) reader
                  ClientsSettings.__init__).2 in
  ClientsSettings.image_dir self' =
    raw_or reader "clients" "image_dir" (VStr "/opt/robottelo/images") /\
  ClientsSettings.validate self' =
    if present reader "clients" "provisioning_server" then []
    else ["[clients] provisioning_server option must be provided."].
Proof.
  intros reader self'.
  destruct (single_required_option_groups (H:=robottelo_casters) reader)
    as (Hclients & _).
  apply (Hclients ClientsSettings.__init__ self').
  vm_compute. reflexivity.
Defined.

(** X5. After [PerformanceSettings.read], [validate] reports, in this
    order, one error for each of [cdn_address], [virtual_machines],
    [fresh_install_savepoint] and [enabled_repos_savepoint] that is
    missing: for the three read without a cast, missing means not in the
    source; [virtual_machines], read through the list caster, is missing
    at least when it is not in the source.  The other five options never
    cause an error, and the two counts default to 10 and 3. *)
Theorem performance_validation_from_source `{Casters}
    (reader : INIReader.t) (self self' : PerformanceSettings.t) :
  PerformanceSettings.read reader self = (Ok tt, self') ->
  PerformanceSettings.validate self' =
    ((if present reader "performance" "cdn_address" then []
      else ["[performance] cdn_address must be provided."]) ++
     (if is_None (PerformanceSettings.virtual_machines self')
      then ["[performance] virtual_machines must be provided."] else []) ++
     (if present reader "performance" "fresh_install_savepoint" then []
      else ["[performance] fresh_install_savepoint must be provided."]) ++
     (if present reader "performance" "enabled_repos_savepoint" then []
      else ["[performance] enabled_repos_savepoint must be provided."]))%list /\
  (present reader "performance" "virtual_machines" = false ->
   PerformanceSettings.virtual_machines self' = VNone) /\
  (present reader "performance" "csv_buckets_count" = false ->
   PerformanceSettings.csv_buckets_count self' = VInt 10) /\
  (present reader "performance" "sync_count" = false ->
   PerformanceSettings.sync_count self' = VInt 3).
Proof.
  unfold PerformanceSettings.read. intros Hr. invert_read Hr.
  resolve_untyped.
  assert (Habsent : forall opt default cast value,
            INIReader.get reader "performance" opt default cast = Ok value ->
            present reader "performance" opt = false -> value = default).
  { intros opt default cast value Hg Hp. unfold present in Hp.
    destruct (option_value (INIReader.config_parser reader)
                "performance" opt) as [raw|] eqn:Hv.
    - apply bool_decide_eq_false in Hp. destruct Hp. eauto.
    - exact (get_unserved _ _ _ _ _ _ Hv Hg). }
  split; [|split; [|split]].
  - unfold PerformanceSettings.validate. cbn.
    rewrite !raw_or_is_None.
    destruct (present reader "performance" "cdn_address"),
      (present reader "performance" "fresh_install_savepoint"),
      (present reader "performance" "enabled_repos_savepoint");
      reflexivity.
  - intros Hp. cbn. eapply Habsent; eassumption.
  - intros Hp. cbn. eapply Habsent; eassumption.
  - intros Hp. cbn. eapply Habsent; eassumption.
Qed.

Lemma performance_validation_from_source_witness :
  let reader := reader_of Samples.performance_partial in
  let self' := (PerformanceSettings.read (H:=robottelo_casters) reader
                  PerformanceSettings.__init__).2 in
  PerformanceSettings.validate self' =
    ["[performance] fresh_install_savepoint must be provided.";
     "[performance] enabled_repos_savepoint must be provided."] /\
  PerformanceSettings.csv_buckets_count self' = VInt 10 /\
  PerformanceSettings.sync_count self' = VInt 5.
Proof.
  intros reader self'.
  destruct (performance_validation_from_source (H:=robottelo_casters)
              reader PerformanceSettings.__init__ self')
    as (Hvalidate & _ & Hcsv & _).
  - vm_compute. reflexivity.
  - split; [rewrite Hvalidate; vm_compute; reflexivity|].
    split; [apply Hcsv; vm_compute; reflexivity | vm_compute; reflexivity].
Defined.

(** X6. After the global read, global validation depends only on four
    options of the [robottelo] section: with the browser (default
    selenium) and the webdriver (default firefox) as the source gives
    them, it reports the browser error when the browser is outside its
    closed set, the webdriver error when the webdriver is outside its
    own, and, only for browser saucelabs, one error for each of
    [saucelabs_user] and [saucelabs_key] that the source lacks.  So it
    never reports more than three errors, and none for a source without a
    [robottelo] section. *)
Theorem global_validation_from_source `{Casters} (reader : INIReader.t)
    (self self' : Settings.t) :
  Settings._read_robottelo_settings reader self = (Ok tt, self') ->
  let browser :=
    default "selenium"
      (option_value (INIReader.config_parser reader) "robottelo" "browser") in
  let webdriver :=
    default "firefox"
      (option_value (INIReader.config_parser reader) "robottelo" "webdriver") in
  Settings._validate_robottelo_settings self' =
    ((if bool_decide (browser ∈ Settings.browsers) then []
      else [Settings.browser_error]) ++
     (if bool_decide (webdriver ∈ Settings.webdrivers) then []
      else [Settings.webdriver_error]) ++
     (if bool_decide (browser = "saucelabs")
      then
        (if present reader "robottelo" "saucelabs_user" then []
         else [Settings.saucelabs_user_error]) ++
        (if present reader "robottelo" "saucelabs_key" then []
         else [Settings.saucelabs_key_error])
      else []))%list /\
  length (Settings._validate_robottelo_settings self') <= 3 /\
  (INIReader.has_section reader "robottelo" = false ->
   Settings._validate_robottelo_settings self' = []).
Proof.
  intros Hr browser webdriver.
  destruct (read_robottelo_settings_ok _ _ _ Hr) as (Hb & Hw & Hu & Hk & _).
  apply get_untyped_value in Hb, Hw, Hu, Hk.
  symmetry in Hb, Hw, Hu, Hk.
  assert (Hdefault : forall opt d,
            raw_or reader "robottelo" opt (VStr d) =
            VStr (default d (option_value (INIReader.config_parser reader)
                               "robottelo" opt))).
  { intros opt d. unfold raw_or.
    destruct (option_value (INIReader.config_parser reader) "robottelo" opt);
      reflexivity. }
  assert (Hbrowser : Settings.browser self' = VStr browser).
  { rewrite <- Hb. apply Hdefault. }
  assert (Hwebdriver : Settings.webdriver self' = VStr webdriver).
  { rewrite <- Hw. apply Hdefault. }
  assert (Hin : forall v l,
            existsb (eq_str (VStr v)) l = bool_decide (v ∈ l)).
  { intros v l. induction l as [|x l IH].
    - symmetry. apply bool_decide_eq_false_2. apply not_elem_of_nil.
    - cbn [existsb eq_str]. rewrite IH.
      destruct (decide (v = x)) as [->|Hne].
      + rewrite bool_decide_eq_true_2 by reflexivity.
        symmetry. apply bool_decide_eq_true_2. constructor.
      + rewrite (bool_decide_eq_false_2 _ Hne). cbn [orb].
        apply bool_decide_ext. rewrite elem_of_cons. tauto. }
  assert (Heq : Settings._validate_robottelo_settings self' =
    ((if bool_decide (browser ∈ Settings.browsers) then []
      else [Settings.browser_error]) ++
     (if bool_decide (webdriver ∈ Settings.webdrivers) then []
      else [Settings.webdriver_error]) ++
     (if bool_decide (browser = "saucelabs")
      then
        (if present reader "robottelo" "saucelabs_user" then []
         else [Settings.saucelabs_user_error]) ++
        (if present reader "robottelo" "saucelabs_key" then []
         else [Settings.saucelabs_key_error])
      else []))%list).
  { unfold Settings._validate_robottelo_settings.
    unfold in_strs.
    rewrite Hbrowser, Hwebdriver, <- Hu, <- Hk, !Hin, !raw_or_is_None.
    cbn [eq_str].
    destruct (bool_decide (browser ∈ Settings.browsers)),
      (bool_decide (webdriver ∈ Settings.webdrivers)),
      (bool_decide (browser = "saucelabs")),
      (present reader "robottelo" "saucelabs_user"),
      (present reader "robottelo" "saucelabs_key"); reflexivity. }
  split; [exact Heq|]. split.
  - rewrite Heq.
    destruct (decide (browser = "saucelabs")) as [Hs|Hs].
    + rewrite Hs. rewrite (bool_decide_eq_true_2 ("saucelabs" = "saucelabs"))
        by reflexivity.
      rewrite (bool_decide_eq_true_2 ("saucelabs" ∈ Settings.browsers))
        by (unfold Settings.browsers; rewrite !elem_of_cons; auto).
      destruct (bool_decide (webdriver ∈ Settings.webdrivers)),
        (present reader "robottelo" "saucelabs_user"),
        (present reader "robottelo" "saucelabs_key"); cbn; lia.
    + rewrite (bool_decide_eq_false_2 _ Hs).
      destruct (bool_decide (browser ∈ Settings.browsers)),
        (bool_decide (webdriver ∈ Settings.webdrivers)); cbn; lia.
  - intros Hhas. rewrite Heq.
    assert (Habs : forall opt,
              option_value (INIReader.config_parser reader) "robottelo" opt
              = None).
    { intros opt.
      apply missing_option_value, missing_without_section;
        [discriminate | exact Hhas]. }
    unfold browser, webdriver. rewrite !Habs. reflexivity.
Qed.

Lemma global_validation_from_source_witness :
  let reader := reader_of Samples.saucelabs_safari in
  let self' := (Settings._read_robottelo_settings (H:=robottelo_casters)
                  reader Settings.__init__).2 in
  length (Settings._validate_robottelo_settings self') <= 3.
Proof.
  intros reader self'.
  destruct (global_validation_from_source (H:=robottelo_casters) reader
              Settings.__init__ self') as (_ & Hbound & _).
  - vm_compute. reflexivity.
  - exact Hbound.
Defined.

(** ** What a read leaves behind *)

(** Replay on another instance a [read] whose [get] results are known. *)
Ltac replay_read :=
  unfold bind, assign, lift, modify;
  repeat match goal with
         | Hg : INIReader.get _ _ _ _ _ = Ok _ |- _ => rewrite Hg; clear Hg
         end;
  reflexivity.

Ltac unfold_group_reads_in H :=
  unfold ServerSettings.read, ClientsSettings.read, LibvirtHostSettings.read,
    DiscoveryISOSettings.read, DockerSettings.read,
    FakeManifestSettings.read, LDAPSettings.read, OscapSettings.read,
    PerformanceSettings.read, RHAISettings.read, TransitionSettings.read,
    VlanNetworkSettings.read in H |- *.

(** X7. A [read] that returns assigns every attribute of its group, so
    the group it leaves is determined by the reader alone: started from
    any other instance of the same class it returns as well and leaves
    the same attributes.  No value of an earlier read survives. *)
Theorem read_leaves_no_stale_values `{Casters} (reader : INIReader.t)
    (f1 f2 f' : feature) :
  section_of f1 = section_of f2 ->
  FeatureSettings.read reader f1 = (Ok tt, f') ->
  FeatureSettings.read reader f2 = (Ok tt, f').
Proof.
  intros Hs Hr.
  destruct f1 as [g1|g1|g1|g1|g1|g1|g1|g1|g1|g1|g1|g1],
    f2 as [g2|g2|g2|g2|g2|g2|g2|g2|g2|g2|g2|g2];
    try discriminate Hs; clear Hs;
    unfold FeatureSettings.read in *; cbv beta iota in *;
    lazymatch type of Hr with
    | context [?read reader g1] =>
        let Hg := fresh "Hg" in
        destruct (read reader g1) as [r g1'] eqn:Hg;
        injection Hr as -> <-;
        assert (Hg2 : read reader g2 = (Ok tt, g1'));
        [ unfold_group_reads_in Hg; invert_read Hg; replay_read
        | rewrite Hg2; reflexivity ]
    end.
Qed.

Lemma read_leaves_no_stale_values_witness :
  let reader := reader_of Samples.with_port in
  let stale :=
    ServerSettings.set_ssh_password (VStr "old")
      (ServerSettings.set_port (VInt 1) ServerSettings.__init__) in
  FeatureSettings.read (H:=robottelo_casters) reader (FServerSettings stale) =
    (Ok tt,
     (FeatureSettings.read (H:=robottelo_casters) reader
        (FServerSettings ServerSettings.__init__)).2).
Proof.
  intros reader stale.
  apply (read_leaves_no_stale_values (H:=robottelo_casters) reader
           (FServerSettings ServerSettings.__init__) (FServerSettings stale)).
  - reflexivity.
  - vm_compute. reflexivity.
Defined.

Lemma get_untyped_parses `{Casters} reader section opt default :
  parses reader section opt = true ->
  INIReader.get reader section opt default None =
  Ok (raw_or reader section opt default).
Proof.
  unfold parses, raw_or, option_value. intros Hp.
  destruct (ConfigParser_get (INIReader.config_parser reader) section opt)
    as [raw|e] eqn:Hget.
  - apply get_present_raw, option_value_served, Hget.
  - rewrite (get_parser_failure _ _ _ _ _ _ Hget), Hp. reflexivity.
Qed.

(** X8. A [read] that raises does not undo what it has assigned.  When
    the parser answers for the admin password, the admin user name and
    the hostname (with a value or as missing) and returns a port on which
    [int] fails, [ServerSettings.read] raises the exception of [int]
    after assigning those three attributes from the source; the port and
    the four attributes after it keep their previous values. *)
Theorem server_read_stops_at_bad_port `{Casters} (reader : INIReader.t)
    (self : ServerSettings.t) (raw : string) (e : exn) :
  parses reader "server" "admin_password" = true ->
  parses reader "server" "admin_username" = true ->
  parses reader "server" "hostname" = true ->
  ConfigParser_get (INIReader.config_parser reader) "server" "port" =
    Ok raw ->
  py_int raw = Raise e ->
  is_lookup_error e = false ->
  exists self',
    ServerSettings.read reader self = (Raise e, self') /\
    ServerSettings.admin_password self' =
      raw_or reader "server" "admin_password" (VStr "changeme") /\
    ServerSettings.admin_username self' =
      raw_or reader "server" "admin_username" (VStr "admin") /\
    ServerSettings.hostname self' = raw_or reader "server" "hostname" VNone /\
    ServerSettings.port self' = ServerSettings.port self /\
    ServerSettings.scheme self' = ServerSettings.scheme self /\
    ServerSettings.ssh_key self' = ServerSettings.ssh_key self /\
    ServerSettings.ssh_password self' = ServerSettings.ssh_password self /\
    ServerSettings.ssh_username self' = ServerSettings.ssh_username self.
Proof.
  intros Hpw Hus Hho Hport He Hl.
  assert (Hget : INIReader.get reader "server" "port" VNone
                   (Some (callable py_int)) = Raise e).
  { rewrite (get_present_cast _ _ _ _ _ _ (option_value_served _ _ _ _ Hport)).
    cbn [INIReader.apply_cast]. rewrite He, Hl. reflexivity. }
  eexists. split.
  - unfold ServerSettings.read, bind, assign, lift, modify.
    rewrite (get_untyped_parses _ _ _ _ Hpw), (get_untyped_parses _ _ _ _ Hus),
      (get_untyped_parses _ _ _ _ Hho), Hget.
    reflexivity.
  - cbn. repeat split; reflexivity.
Qed.

Lemma server_read_stops_at_bad_port_witness :
  exists self',
    ServerSettings.read (H:=robottelo_casters) (reader_of Samples.bad_port)
      ServerSettings.__init__ =
      (Raise (ValueError "invalid literal for int() with base 10: 'http'"),
       self') /\
    ServerSettings.hostname self' = VStr "h" /\
    ServerSettings.scheme self' = VNone.
Proof.
  destruct (server_read_stops_at_bad_port (H:=robottelo_casters)
              (reader_of Samples.bad_port) ServerSettings.__init__ "http"
              (ValueError "invalid literal for int() with base 10: 'http'"))
    as (self' & Hr & _ & _ & Hh & _ & Hs & _).
  - reflexivity.
  - reflexivity.
  - reflexivity.
  - reflexivity.
  - reflexivity.
  - reflexivity.
  - exists self'. split; [exact Hr|]. split; [exact Hh | exact Hs].
Defined.

(** ** Server URLs and credentials *)

Lemma get_url_of_shapes (self : ServerSettings.t) hostname scheme port :
  ServerSettings.hostname self = from_option VStr VNone hostname ->
  ServerSettings.scheme self = from_option VStr VNone scheme ->
  ServerSettings.port self = from_option VInt VNone port ->
  exists url, ServerSettings.get_url self = Ok url.
Proof.
  intros Hh Hs Hp. unfold ServerSettings.get_url.
  rewrite Hh, Hs, Hp, truthy_scheme.
  destruct port as [z|]; simpl.
  - destruct (z =? 0)%Z; simpl.
    + destruct hostname; simpl; eauto.
    + destruct hostname; simpl; eauto.
  - destruct hostname; simpl; eauto.
Qed.

(** X9. After [ServerSettings.read], [get_url] always returns a URL.
    When the source has no hostname but a port other than zero, the
    netloc is the text "None" followed by the port: the URL is
    scheme://None:port. *)
Theorem get_url_after_read `{Casters} (reader : INIReader.t)
    (self self' : ServerSettings.t) :
  ServerSettings.read reader self = (Ok tt, self') ->
  (exists url, ServerSettings.get_url self' = Ok url) /\
  (forall z,
     present reader "server" "hostname" = false ->
     ServerSettings.port self' = VInt z -> z <> 0%Z ->
     ServerSettings.get_url self' =
       Ok (url_scheme
             (option_value (INIReader.config_parser reader) "server" "scheme")
           ++ "://None:" ++ pretty z)).
Proof.
  intros Hr.
  destruct (server_read_values _ _ _ Hr)
    as (_ & _ & Hh & Hs & _ & _ & _ & Hport).
  split.
  - destruct (server_read_shapes _ _ _ Hr)
      as ((sch & Hsch) & (port & Hp) & (hostname & Hho)).
    apply (get_url_of_shapes self' hostname (Some sch) port); assumption.
  - intros z Habs Hz Hnz.
    assert (Hnone : ServerSettings.hostname self' = VNone).
    { rewrite Hh. unfold raw_or. unfold present in Habs.
      destruct (option_value (INIReader.config_parser reader)
                  "server" "hostname"); [|reflexivity].
      apply bool_decide_eq_false in Habs. destruct Habs. eauto. }
    assert (Hscheme : ServerSettings.scheme self' =
              from_option VStr VNone
                (Some (default "https"
                   (option_value (INIReader.config_parser reader)
                      "server" "scheme")))).
    { rewrite Hs. unfold raw_or.
      destruct (option_value (INIReader.config_parser reader)
                  "server" "scheme"); reflexivity. }
    unfold ServerSettings.get_url.
    rewrite Hnone, Hscheme, Hz, truthy_scheme.
    cbn [truthy]. rewrite (proj2 (Z.eqb_neq z 0) Hnz). cbn [negb].
    cbn [format_host_port py_str urlunsplit].
    rewrite urlunsplit_str_netloc.
    + destruct (option_value (INIReader.config_parser reader)
                  "server" "scheme") as [s|]; reflexivity.
    + apply url_scheme_nonempty.
    + discriminate.
Qed.

Lemma get_url_after_read_witness :
  exists url,
    ServerSettings.get_url
      (ServerSettings.read (H:=robottelo_casters)
         (reader_of Samples.with_port) ServerSettings.__init__).2 = Ok url.
Proof.
  destruct (get_url_after_read (H:=robottelo_casters)
              (reader_of Samples.with_port) ServerSettings.__init__
              (ServerSettings.read (H:=robottelo_casters)
                 (reader_of Samples.with_port) ServerSettings.__init__).2)
    as (Hurl & _).
  - vm_compute. reflexivity.
  - exact Hurl.
Defined.

(** X10. [get_pub_url] is "http://" followed by the hostname and
    "/pub/": it uses neither the configured scheme nor the port. *)
Theorem get_pub_url_plain_http (self : ServerSettings.t) (h : string) :
  ServerSettings.hostname self = VStr h ->
  ServerSettings.get_pub_url self = Ok ("http://" ++ h ++ "/pub/") /\
  forall scheme port,
    ServerSettings.get_pub_url
      (ServerSettings.set_scheme scheme
         (ServerSettings.set_port port self)) =
    ServerSettings.get_pub_url self.
Proof.
  intros Hh. split; [|reflexivity].
  unfold ServerSettings.get_pub_url. rewrite Hh. cbn [urlunsplit].
  unfold urlunsplit_str.
  assert (Hcond : negb (bool_decide (h = "")) ||
                  negb (bool_decide ("http" = "")) &&
                  bool_decide ("http" ∈ uses_netloc) &&
                  negb (starts_with "//" "pub/") = true).
  { apply orb_true_iff. right. reflexivity. }
  rewrite Hcond. reflexivity.
Qed.

Lemma get_pub_url_plain_http_witness :
  ServerSettings.get_pub_url
    (ServerSettings.set_scheme (VStr "https")
       (ServerSettings.set_port (VInt 8443)
          (ServerSettings.set_hostname (VStr "h") ServerSettings.__init__))) =
  Ok "http://h/pub/".
Proof.
  apply (get_pub_url_plain_http
           (ServerSettings.set_scheme (VStr "https")
              (ServerSettings.set_port (VInt 8443)
                 (ServerSettings.set_hostname (VStr "h")
                    ServerSettings.__init__))) "h").
  reflexivity.
Defined.

(** X11. After [ServerSettings.read], [get_credentials] is the pair of
    the admin user name and the admin password, in that order, each the
    value in the source or else "admin" and "changeme". *)
Theorem get_credentials_after_read `{Casters} (reader : INIReader.t)
    (self self' : ServerSettings.t) :
  ServerSettings.read reader self = (Ok tt, self') ->
  ServerSettings.get_credentials self' =
    (raw_or reader "server" "admin_username" (VStr "admin"),
     raw_or reader "server" "admin_password" (VStr "changeme")).
Proof.
  intros Hr.
  destruct (server_read_values _ _ _ Hr) as (Hp & Hu & _).
  unfold ServerSettings.get_credentials. rewrite Hp, Hu. reflexivity.
Qed.

Lemma get_credentials_after_read_witness :
  ServerSettings.get_credentials
    (ServerSettings.read (H:=robottelo_casters)
       (reader_of Samples.minimal) ServerSettings.__init__).2 =
  (VStr "admin", VStr "changeme").
Proof.
  apply (get_credentials_after_read (H:=robottelo_casters)
           (reader_of Samples.minimal) ServerSettings.__init__).
  vm_compute. reflexivity.
Defined.

(** ** Runs of [configure] *)

Section ConfigureRuns.
Context `{Casters}.

Lemma configure_missing_file (self : Settings.t) (world : World) :
  Settings.configured self = false ->
  settings_file world = None ->
  Settings.configure (self, world) =
    (Raise (ImproperlyConfigured
              ("Not able to find settings file at " ++
               path_join (project_root world) Settings.SETTINGS_FILE_NAME)),
     (self, world)).
Proof.
  intros Hc Hf. unfold Settings.configure.
  unfold bind at 1, gets at 1. cbn [fst snd]. rewrite Hc.
  unfold bind at 1, gets at 1. cbn [fst snd].
  unfold bind at 1, gets at 1. cbn [fst snd]. rewrite Hf.
  reflexivity.
Qed.

Lemma configure_unreadable_file (self : Settings.t) (world : World) e :
  Settings.configured self = false ->
  settings_file world = Some (Raise e) ->
  Settings.configure (self, world) = (Raise e, (self, opened world)).
Proof.
  intros Hc Hf.
  unfold Settings.configure, Settings.on_self, Settings.on_world,
    INIReader.__init__.
  unfold bind at 1, gets at 1. cbn [fst snd]. rewrite Hc.
  unfold bind at 1, gets at 1. cbn [fst snd].
  unfold bind at 1, gets at 1. cbn [fst snd]. rewrite Hf.
  rewrite bool_decide_eq_true_2 by eauto. cbn [negb].
  unfold opened, emit. unfold bind, zoom, gets, modify, ret, raise.
  cbn [fst snd settings_file]. rewrite Hf. reflexivity.
Qed.

Lemma configure_when_configured (self : Settings.t) (world : World) :
  Settings.configured self = true ->
  Settings.configure (self, world) = (Ok tt, (self, world)).
Proof.
  intros Hc. unfold Settings.configure, bind, gets. simpl.
  rewrite Hc. reflexivity.
Qed.

(** With a server URL at hand and libraries that accept every call,
    the three calls that follow validation return, and add
    [success_events] to the trace. *)
Lemma side_effects_trace (self : Settings.t) (world : World) url :
  accepting world ->
  ServerSettings.get_url (Settings.server self) = Ok url ->
  side_effects self (opened world) =
    (Ok tt, logged (opened world) (success_events self world url)).
Proof.
  intros Hacc Hurl. destruct world as [root file conf lib tr].
  unfold accepting in Hacc. cbn [library] in Hacc.
  unfold side_effects, Settings._configure_logging,
    Settings._configure_third_party_logging, Settings._configure_entities,
    DockerSettings.get_unix_socket_url, success_events, logged, opened,
    ServerSettings.get_credentials, Settings.WARNING, call.
  rewrite Hurl.
  unfold emit, bind, modify, gets, lift, ret.
  cbn [fst snd project_root settings_file logging_conf library trace].
  destruct conf;
    repeat (rewrite Hacc;
            cbn [fst snd project_root settings_file logging_conf library
                 trace]);
    destruct (truthy (DockerSettings.unix_socket (Settings.docker self)));
    cbn [is_None negb fst snd project_root settings_file logging_conf
         library trace];
    try destruct (is_None (DockerSettings.external_url (Settings.docker self)));
    cbn [is_None negb fst snd project_root settings_file logging_conf
         library trace];
    rewrite <- ?app_assoc; reflexivity.
Qed.

(** The server group left by a read phase that returns has a URL. *)
Lemma read_phase_url reader (self self1 : Settings.t) :
  Settings.read_sections reader self = (Ok tt, self1) ->
  exists url, ServerSettings.get_url (Settings.server self1) = Ok url.
Proof.
  intros Hr. apply read_sections_effect in Hr as (Hserver & _).
  destruct (server_read_shapes _ _ _ Hserver)
    as ((sch & Hsch) & (port & Hp) & (hostname & Hho)).
  apply (get_url_of_shapes _ hostname (Some sch) port); assumption.
Qed.

(** Every run of [configure], by what it found. *)
Lemma configure_cases (self self' : Settings.t) (world world' : World) r :
  Settings.configure (self, world) = (r, (self', world')) ->
  (Settings.configured self = true /\
   r = Ok tt /\ self' = self /\ world' = world) \/
  (Settings.configured self = false /\ settings_file world = None /\
   self' = self /\ world' = world /\ exists e, r = Raise e) \/
  (Settings.configured self = false /\
   (exists e0, settings_file world = Some (Raise e0)) /\
   self' = self /\ world' = opened world /\ exists e, r = Raise e) \/
  (Settings.configured self = false /\
   exists src r1 self1,
     settings_file world = Some (Ok src) /\
     Settings.read_sections (reader_of src) (with_reader src self) =
       (r1, self1) /\
     ((self' = self1 /\ world' = opened world /\ exists e, r = Raise e) \/
      (r1 = Ok tt /\
       Settings._validation_errors self1 = [] /\
       side_effects self1 (opened world) = (r, world') /\
       self' = match r with
               | Ok _ => Settings.set__configured true self1
               | Raise _ => self1
               end))).
Proof.
  destruct (Settings.configured self) eqn:Hc.
  - rewrite (configure_when_configured self world Hc).
    intros Hr. inversion Hr. auto.
  - destruct (settings_file world) as [[src|e]|] eqn:Hf.
    + rewrite (configure_unconfigured _ _ _ Hc Hf).
      destruct (Settings.read_sections (reader_of src) (with_reader src self))
        as [[[]|e] self1] eqn:Hread.
      * case_bool_decide as Herr.
        -- destruct (side_effects self1 (opened world)) as [[[]|e] w1] eqn:Hs;
             intros Hr; inversion Hr as [[Hr1 Hr2 Hr3]]; subst r self' world';
             right; right; right; (split; [reflexivity|]);
             exists src, (Ok tt), self1;
             (split; [reflexivity|]); (split; [exact Hread|]); right;
             (split; [reflexivity|]); (split; [exact Herr|]);
             (split; [exact Hs | reflexivity]).
        -- intros Hr. inversion Hr as [[Hr1 Hr2 Hr3]]. subst r self' world'.
           right; right; right. split; [reflexivity|].
           exists src, (Ok tt), self1.
           split; [reflexivity|]. split; [exact Hread|]. left.
           split; [reflexivity|]. split; [reflexivity|].
           eexists; reflexivity.
      * intros Hr. inversion Hr as [[Hr1 Hr2 Hr3]]. subst r self' world'.
        right; right; right. split; [reflexivity|].
        exists src, (Raise e), self1.
        split; [reflexivity|]. split; [exact Hread|]. left.
        split; [reflexivity|]. split; [reflexivity|].
        eexists; reflexivity.
    + rewrite (configure_unreadable_file _ _ _ Hc Hf).
      intros Hr. inversion Hr as [[Hr1 Hr2 Hr3]]. subst r self' world'.
      right; right; left. split; [reflexivity|].
      split; [eexists; reflexivity|]. split; [reflexivity|].
      split; [reflexivity|]. eexists; reflexivity.
    + rewrite (configure_missing_file _ _ Hc Hf).
      intros Hr. inversion Hr as [[Hr1 Hr2 Hr3]]. subst r self' world'.
      right; left. split; [reflexivity|]. split; [reflexivity|].
      split; [reflexivity|]. split; [reflexivity|]. eexists; reflexivity.
Qed.

End ConfigureRuns.

(** X12. Without a settings file at the project root, [configure] on an
    unconfigured instance raises [ImproperlyConfigured] naming the path
    it looked at; nothing is opened and the instance is as it was. *)
Theorem configure_missing_settings_file `{Casters} (self : Settings.t)
    (world : World) :
  Settings.configured self = false ->
  settings_file world = None ->
  Settings.configure (self, world) =
    (Raise (ImproperlyConfigured
              ("Not able to find settings file at " ++
               path_join (project_root world) "robottelo.properties")),
     (self, world)).
Proof. intros Hc Hf. exact (configure_missing_file self world Hc Hf). Qed.

Lemma configure_missing_settings_file_witness :
  let world := {| project_root := "/opt/robottelo"; settings_file := None;
                  logging_conf := true; library := fun _ => None;
                  trace := [] |} in
  Settings.configure (H:=robottelo_casters) (Settings.__init__, world) =
    (Raise (ImproperlyConfigured
              ("Not able to find settings file at " ++
               path_join (project_root world) "robottelo.properties")),
     (Settings.__init__, world)).
Proof.
  intros world.
  apply (configure_missing_settings_file (H:=robottelo_casters)
           Settings.__init__ world).
  - reflexivity.
  - reflexivity.
Defined.

(** X13. When the settings file exists but opening or parsing it raises,
    [configure] passes that exception on.  The attempt to open the file
    is the only thing that happened: the instance has no reader assigned,
    no attribute changed and its flag is still false. *)
Theorem configure_unreadable_settings_file `{Casters} (self : Settings.t)
    (world : World) (e : exn) :
  Settings.configured self = false ->
  settings_file world = Some (Raise e) ->
  Settings.configure (self, world) = (Raise e, (self, opened world)) /\
  trace (opened world) =
    (trace world ++
     [EvOpen (path_join (project_root world) "robottelo.properties")])%list.
Proof.
  intros Hc Hf. split.
  - exact (configure_unreadable_file self world e Hc Hf).
  - apply opened_trace.
Qed.

Lemma configure_unreadable_settings_file_witness :
  let world := {| project_root := "/opt/robottelo";
                  settings_file := Some (Raise (ParsingError "robottelo.properties"));
                  logging_conf := true; library := fun _ => None;
                  trace := [] |} in
  Settings.configure (H:=robottelo_casters) (Settings.__init__, world) =
    (Raise (ParsingError "robottelo.properties"),
     (Settings.__init__, opened world)) /\
  trace (opened world) =
    (trace world ++
     [EvOpen (path_join (project_root world) "robottelo.properties")])%list.
Proof.
  intros world.
  apply (configure_unreadable_settings_file (H:=robottelo_casters)
           Settings.__init__ world (ParsingError "robottelo.properties")).
  - reflexivity.
  - reflexivity.
Defined.

(** X14. The flag records success and nothing else: after any call of
    [configure], [configured] is true exactly when the call returned
    without an exception; and once a call has returned, calling again
    changes nothing. *)
Theorem configure_flag_latches `{Casters} (self self' : Settings.t)
    (world world' : World) (r : result unit) :
  Settings.configure (self, world) = (r, (self', world')) ->
  (Settings.configured self' = true <-> r = Ok tt) /\
  (r = Ok tt ->
   Settings.configure (self', world') = (Ok tt, (self', world'))).
Proof.
  intros Hrun.
  assert (Hiff : Settings.configured self' = true <-> r = Ok tt).
  { destruct (configure_cases _ _ _ _ _ Hrun)
      as [(Hc & -> & -> & _)
         |[(Hc & _ & -> & _ & (e & ->))
          |[(Hc & _ & -> & _ & (e & ->))
           |(Hc & src & r1 & self1 & Hf & Hread & Hcase)]]].
    - tauto.
    - rewrite Hc. split; discriminate.
    - rewrite Hc. split; discriminate.
    - pose proof (read_phase_configured _ _ _ _ Hread) as Hflag.
      destruct Hcase as [(-> & _ & (e & ->))|(_ & _ & _ & ->)].
      + rewrite Hflag, Hc. split; discriminate.
      + destruct r as [[]|e].
        * split; reflexivity.
        * rewrite Hflag, Hc. split; discriminate. }
  split; [exact Hiff|].
  intros Hok. apply configure_when_configured. apply Hiff, Hok.
Qed.

Lemma configure_flag_latches_witness :
  let run := Settings.configure (H:=robottelo_casters)
               (Settings.__init__, Samples.world_of Samples.minimal) in
  (Settings.configured run.2.1 = true <-> run.1 = Ok tt) /\
  (run.1 = Ok tt ->
   Settings.configure (H:=robottelo_casters) (run.2.1, run.2.2) =
     (Ok tt, (run.2.1, run.2.2))).
Proof.
  intros run.
  apply (configure_flag_latches (H:=robottelo_casters) Settings.__init__
           run.2.1 (Samples.world_of Samples.minimal) run.2.2 run.1).
  vm_compute. reflexivity.
Defined.

(** X15. No call of [configure] discards a validation error: whatever
    the outcome, the list afterwards is the list before with more at its
    end.  So an unconfigured instance that carries errors can never be
    configured: every call on it raises, whatever the settings file
    says. *)
Theorem configure_keeps_errors `{Casters} (self self' : Settings.t)
    (world world' : World) (r : result unit) :
  Settings.configure (self, world) = (r, (self', world')) ->
  extends_errors self self' /\
  (Settings.configured self = false ->
   Settings._validation_errors self <> [] ->
   exists e, r = Raise e).
Proof.
  intros Hrun.
  destruct (configure_cases _ _ _ _ _ Hrun)
    as [(Hc & -> & -> & _)
       |[(Hc & _ & -> & _ & (e & ->))
        |[(Hc & _ & -> & _ & (e & ->))
         |(Hc & src & r1 & self1 & Hf & Hread & Hcase)]]].
  - split; [reflexivity|]. rewrite Hc. discriminate.
  - split; [reflexivity|]. intros _ _. exists e. reflexivity.
  - split; [reflexivity|]. intros _ _. exists e. reflexivity.
  - pose proof (read_phase_extends _ _ _ _ Hread) as Hext.
    destruct Hcase as [(-> & _ & (e & ->))|(_ & Hnil & _ & ->)].
    + split; [exact Hext|]. intros _ _. exists e. reflexivity.
    + split; [destruct r; exact Hext|]. intros _ Hne. exfalso. apply Hne.
      destruct Hext as (more & Hm). rewrite Hnil in Hm.
      symmetry in Hm. apply app_eq_nil in Hm as [Hm _]. exact Hm.
Qed.

Lemma configure_keeps_errors_witness :
  let first := Settings.configure (H:=robottelo_casters)
                 (Settings.__init__, Samples.world_of Samples.no_hostname) in
  let later := Settings.configure (H:=robottelo_casters)
                 (first.2.1, Samples.world_of Samples.minimal) in
  extends_errors first.2.1 later.2.1 /\
  (Settings.configured first.2.1 = false ->
   Settings._validation_errors first.2.1 <> [] ->
   exists e, later.1 = Raise e).
Proof.
  intros first later.
  apply (configure_keeps_errors (H:=robottelo_casters) first.2.1 later.2.1
           (Samples.world_of Samples.minimal) later.2.2 later.1).
  vm_compute. reflexivity.
Defined.

(** X16. When the read phase returns and has collected no validation
    error, and the [logging] module and NailGun accept the calls made to
    them, [configure] returns: the server group that [read] leaves always
    has a URL.  The instance is the one the read phase left, with the
    flag set; and the process has seen, after the opening of the file and
    in this order, the capture of warnings, the nailgun and robottelo
    levels set to the configured verbosity, [logging.conf] loaded if it
    exists and the basic format otherwise, five third-party loggers set
    to WARNING, the entity defaults with the server URL and credentials
    and without certificate verification, the GPG key patch, and the
    Docker patch with the unix socket URL if enabled, else the external
    URL if there is one, else no Docker patch. *)
Theorem configure_success_effects `{Casters} (self self1 : Settings.t)
    (world : World) (src : RawConfigSource) :
  Settings.configured self = false ->
  settings_file world = Some (Ok src) ->
  accepting world ->
  Settings.read_sections (reader_of src) (with_reader src self) =
    (Ok tt, self1) ->
  Settings._validation_errors self1 = [] ->
  exists url,
    ServerSettings.get_url (Settings.server self1) = Ok url /\
    Settings.configure (self, world) =
      (Ok tt,
       (Settings.set__configured true self1,
        logged (opened world) (success_events self1 world url))).
Proof.
  intros Hc Hf Hacc Hread Hnil.
  destruct (read_phase_url _ _ _ Hread) as (url & Hurl).
  exists url. split; [exact Hurl|].
  rewrite (configure_unconfigured _ _ _ Hc Hf), Hread.
  rewrite (bool_decide_eq_true_2 _ Hnil).
  rewrite (side_effects_trace _ _ _ Hacc Hurl). reflexivity.
Qed.

Lemma configure_success_effects_witness :
  let world := Samples.world_of Samples.server_and_docker in
  let self1 :=
    (Settings.read_sections (H:=robottelo_casters)
       (reader_of Samples.server_and_docker)
       (with_reader Samples.server_and_docker Settings.__init__)).2 in
  exists url,
    ServerSettings.get_url (Settings.server self1) = Ok url /\
    Settings.configure (H:=robottelo_casters) (Settings.__init__, world) =
      (Ok tt,
       (Settings.set__configured true self1,
        logged (opened world) (success_events self1 world url))).
Proof.
  intros world self1.
  apply (configure_success_effects (H:=robottelo_casters) Settings.__init__
           self1 world Samples.server_and_docker).
  - reflexivity.
  - reflexivity.
  - intros ev. reflexivity.
  - vm_compute. reflexivity.
  - vm_compute. reflexivity.
Defined.

(** X17. As long as the [logging] module and NailGun accept the calls
    made to them, a [configure] that raises has configured nothing
    outside the instance: if the settings file is missing the process is
    untouched, and otherwise the file was opened and that is all.  A
    failure to find, parse, read or validate the settings leaves no
    logger set up and no entity class patched. *)
Theorem configure_failure_all_or_nothing `{Casters} (self self' : Settings.t)
    (world world' : World) (e : exn) :
  accepting world ->
  Settings.configure (self, world) = (Raise e, (self', world')) ->
  world' = match settings_file world with
           | None => world
           | Some _ => opened world
           end /\
  filter (fun ev => is_side_effect ev = true) (trace world') =
  filter (fun ev => is_side_effect ev = true) (trace world).
Proof.
  intros Hacc Hrun.
  assert (Hw : world' = match settings_file world with
                        | None => world
                        | Some _ => opened world
                        end).
  { destruct (configure_cases _ _ _ _ _ Hrun)
      as [(_ & Hr & _)
         |[(_ & Hf & _ & -> & _)
          |[(_ & (e0 & Hf) & _ & -> & _)
           |(_ & src & r1 & self1 & Hf & Hread & Hcase)]]].
    - discriminate Hr.
    - rewrite Hf. reflexivity.
    - rewrite Hf. reflexivity.
    - rewrite Hf.
      destruct Hcase as [(_ & -> & _)|(-> & _ & Hside & _)]; [reflexivity|].
      destruct (read_phase_url _ _ _ Hread) as (url & Hurl).
      rewrite (side_effects_trace _ _ _ Hacc Hurl) in Hside.
      discriminate Hside. }
  split; [exact Hw|]. rewrite Hw.
  destruct (settings_file world); [|reflexivity].
  apply opened_trace.
Qed.

Lemma configure_failure_all_or_nothing_witness :
  let world := Samples.world_of Samples.bad_port_with_docker in
  let run := Settings.configure (H:=robottelo_casters)
               (Settings.__init__, world) in
  run.2.2 = match settings_file world with
            | None => world
            | Some _ => opened world
            end /\
  filter (fun ev => is_side_effect ev = true) (trace run.2.2) =
  filter (fun ev => is_side_effect ev = true) (trace world).
Proof.
  intros world run.
  apply (configure_failure_all_or_nothing (H:=robottelo_casters)
           Settings.__init__ run.2.1 world run.2.2
           (ValueError "invalid literal for int() with base 10: 'http'")).
  - intros ev. reflexivity.
  - vm_compute. reflexivity.
Defined.

(** X18. [configure] assigns the reader before it reads anything: on an
    unconfigured instance and a settings file that parses, the instance
    holds the reader of that file after the call, whether the call
    returned, failed validation or was cut short by a caster. *)
Theorem configure_assigns_reader `{Casters} (self self' : Settings.t)
    (world world' : World) (src : RawConfigSource) (r : result unit) :
  Settings.configured self = false ->
  settings_file world = Some (Ok src) ->
  Settings.configure (self, world) = (r, (self', world')) ->
  Settings.reader self' = Some (reader_of src).
Proof.
  intros Hc Hf Hrun.
  destruct (configure_cases _ _ _ _ _ Hrun)
    as [(Hc' & _)
       |[(_ & Hf' & _)
        |[(_ & (e0 & Hf') & _)
         |(_ & src' & r1 & self1 & Hf' & Hread & Hcase)]]];
    try congruence.
  assert (src' = src) as -> by congruence.
  pose proof (read_sections_reader (reader_of src) (with_reader src self))
    as Hs.
  rewrite Hread in Hs. unfold same in Hs. cbn [snd] in Hs.
  destruct Hcase as [(-> & _)|(_ & _ & _ & ->)]; [exact Hs|].
  destruct r; exact Hs.
Qed.

Lemma configure_assigns_reader_witness :
  Settings.reader
    (Settings.configure (H:=robottelo_casters)
       (Settings.__init__, Samples.world_of Samples.bad_port)).2.1 =
  Some (reader_of Samples.bad_port).
Proof.
  apply (configure_assigns_reader (H:=robottelo_casters) Settings.__init__
           _ (Samples.world_of Samples.bad_port)
           (Settings.configure (H:=robottelo_casters)
              (Settings.__init__, Samples.world_of Samples.bad_port)).2.2
           Samples.bad_port
           (Settings.configure (H:=robottelo_casters)
              (Settings.__init__, Samples.world_of Samples.bad_port)).1).
  - reflexivity.
  - reflexivity.
  - vm_compute. reflexivity.
Defined.

(** X19. The list of feature names does not depend on what has been
    read.  On any instance that has not computed it yet, and so also on
    the instance left by a [configure] with any outcome, [all_features]
    returns the same twelve names and stores them. *)
Theorem all_features_after_configure `{Casters} (self self' : Settings.t)
    (world world' : World) (r : result unit) :
  Settings._all_features self = None ->
  Settings.configure (self, world) = (r, (self', world')) ->
  let names := "server" :: Settings.optional_sections in
  Settings.all_features self = (Ok names,
    Settings.set__all_features (Some names) self) /\
  Settings.all_features self' = (Ok names,
    Settings.set__all_features (Some names) self').
Proof.
  intros Hnone Hrun names.
  assert (Hany : forall s, Settings._all_features s = None ->
            Settings.all_features s =
              (Ok names, Settings.set__all_features (Some names) s)).
  { intros s Hs.
    assert (Hlist :
      (filter (fun item : string * obj => isinstance_FeatureSettings item.2)
         (Settings.vars s)).*1 = names).
    { subst names. unfold Settings.vars.
      destruct (Settings.reader s); destruct (Settings.window_manager_command s);
        reflexivity. }
    unfold Settings.all_features.
    unfold bind at 1, gets at 1. cbn [fst snd]. rewrite Hs.
    unfold bind, gets, modify, ret. cbn [fst snd].
    rewrite Hlist. reflexivity. }
  split; [exact (Hany self Hnone)|]. apply Hany.
  destruct (configure_cases _ _ _ _ _ Hrun)
    as [(_ & _ & -> & _)
       |[(_ & _ & -> & _)
        |[(_ & _ & -> & _)
         |(_ & src & r1 & self1 & _ & Hread & Hcase)]]];
    try exact Hnone.
  pose proof (read_sections_all_features (reader_of src)
                (with_reader src self)) as Hs.
  rewrite Hread in Hs. unfold same in Hs. cbn [snd] in Hs.
  destruct Hcase as [(-> & _)|(_ & _ & _ & ->)].
  - rewrite Hs. exact Hnone.
  - destruct r; [change (Settings._all_features self1 = None)|];
      rewrite Hs; exact Hnone.
Qed.

Lemma all_features_after_configure_witness :
  let run := Settings.configure (H:=robottelo_casters)
               (Settings.__init__, Samples.world_of Samples.no_hostname) in
  let names := "server" :: Settings.optional_sections in
  Settings.all_features Settings.__init__ = (Ok names,
    Settings.set__all_features (Some names) Settings.__init__) /\
  Settings.all_features run.2.1 = (Ok names,
    Settings.set__all_features (Some names) run.2.1).
Proof.
  intros run.
  apply (all_features_after_configure (H:=robottelo_casters)
           Settings.__init__ run.2.1
           (Samples.world_of Samples.no_hostname) run.2.2 run.1).
  - reflexivity.
  - vm_compute. reflexivity.
Defined.

(** ** A source with only a server section *)

Section ServerOnly.
Context `{Casters}.

(** The steps of the read phase after the global read leave the four
    attributes of global validation alone. *)
Lemma read_sections_global_frame reader (self self1 : Settings.t) :
  Settings.read_sections reader self = (Ok tt, self1) ->
  exists selfg,
    Settings._read_robottelo_settings reader self = (Ok tt, selfg) /\
    Settings._validate_robottelo_settings self1 =
      Settings._validate_robottelo_settings selfg.
Proof.
  unfold Settings.read_sections. intros Hr.
  apply bind_ok_inv in Hr as ([] & selfg & Hg & Hr).
  lazymatch type of Hr with
  | ?c ?st = _ =>
      assert (Hrest : respects (same Settings._validate_robottelo_settings) c)
        by (repeat respects_step ltac:(reflexivity));
      specialize (Hrest st); rewrite Hr in Hrest
  end.
  exists selfg. split; [exact Hg | exact Hrest].
Qed.

Lemma optional_errors_absent reader (self : Settings.t) :
  (forall name, name ∈ Settings.optional_sections ->
                INIReader.has_section reader name = false) ->
  optional_errors reader self = [].
Proof.
  intros Habs. unfold optional_errors.
  induction Settings.optional_sections as [|name names IH]; [reflexivity|].
  cbn [map concat]. rewrite (Habs name) by constructor.
  rewrite IH; [reflexivity|]. intros n Hn. apply Habs. now constructor.
Qed.

Lemma parses_of_missing (reader : INIReader.t) section opt :
  missing reader section opt = true -> parses reader section opt = true.
Proof.
  unfold missing, parses.
  destruct (ConfigParser_get (INIReader.config_parser reader) section opt);
    [discriminate | trivial].
Qed.

Lemma optional_section_not_default name :
  name ∈ "robottelo" :: Settings.optional_sections -> name <> DEFAULTSECT.
Proof.
  unfold Settings.optional_sections. intros Hin.
  repeat (apply elem_of_cons in Hin as [->|Hin]; [discriminate|]).
  now apply elem_of_nil in Hin.
Qed.

Lemma read_sections_server_only src (self : Settings.t) level :
  cast_logging_level "debug" = Ok level ->
  (forall name, name ∈ "robottelo" :: Settings.optional_sections ->
                INIReader.has_section (reader_of src) name = false) ->
  (forall opt, parses (reader_of src) "server" opt = true) ->
  present (reader_of src) "server" "hostname" = true ->
  present (reader_of src) "server" "ssh_key" ||
    present (reader_of src) "server" "ssh_password" = true ->
  (forall raw, option_value src "server" "port" = Some raw ->
               exists port, py_int raw = Ok port) ->
  exists self1,
    Settings.read_sections (reader_of src) self = (Ok tt, self1) /\
    Settings._validation_errors self1 = Settings._validation_errors self.
Proof.
  intros Hlevel Habs Hparse Hhost Hssh Hport.
  assert (Hmissing : forall name opt,
            name ∈ "robottelo" :: Settings.optional_sections ->
            missing (reader_of src) name opt = true).
  { intros name opt Hin.
    apply missing_without_section;
      [exact (optional_section_not_default _ Hin) | exact (Habs _ Hin)]. }
  destruct (Settings.read_sections (reader_of src) self)
    as [[[]|e] self1] eqn:Hread.
  - exists self1. split; [reflexivity|].
    destruct (read_sections_global_frame _ _ _ Hread) as (selfg & Hg & Hsame).
    destruct (read_sections_effect _ _ _ Hread) as (Hserver & _ & Herrors).
    rewrite Herrors, Hsame.
    destruct (read_robottelo_settings_ok _ _ _ Hg) as (Hb & Hw & _).
    rewrite (get_absent _ _ _ _ _
               (Hmissing "robottelo" "browser" ltac:(constructor))) in Hb.
    rewrite (get_absent _ _ _ _ _
               (Hmissing "robottelo" "webdriver" ltac:(constructor))) in Hw.
    injection Hb as Hb. injection Hw as Hw.
    assert (Hglobal : Settings._validate_robottelo_settings selfg = []).
    { unfold Settings._validate_robottelo_settings.
      rewrite <- Hb, <- Hw. reflexivity. }
    assert (Hvalid : ServerSettings.validate (Settings.server self1) = []).
    { destruct (server_read_values _ _ _ Hserver)
        as (_ & _ & Hh & _ & Hk & Hp & _).
      unfold ServerSettings.validate.
      rewrite Hh, Hk, Hp, !raw_or_is_None, Hhost.
      destruct (present (reader_of src) "server" "ssh_key"),
        (present (reader_of src) "server" "ssh_password");
        [reflexivity | reflexivity | reflexivity | discriminate Hssh]. }
    rewrite Hglobal, Hvalid, optional_errors_absent, !app_nil_r;
      [reflexivity|].
    intros name Hin. apply Habs. now constructor.
  - exfalso.
    destruct (read_sections_raises_only _ _ _ _ Hread)
      as [[Hdebug|(section & opt & c & raw & Hin & Hv & Hc & _)]
         |(section & opt & Hsec & Hget & Hl)].
    + rewrite Hlevel in Hdebug. discriminate Hdebug.
    + pose proof (has_section_of_option_value _ _ _ _
                    (typed_option_section _ _ _ Hin) Hv) as Hhas.
      unfold Settings.typed_options in Hin.
      repeat (apply elem_of_cons in Hin as [Hin|Hin];
              [ injection Hin as -> -> ->;
                first [ rewrite Habs in Hhas by compute_done;
                        discriminate Hhas
                      | destruct (Hport raw Hv) as (port & Hok);
                        cbn [caster_of] in Hc;
                        rewrite Hok in Hc; discriminate Hc ]
              | ]).
      now apply elem_of_nil in Hin.
    + assert (Hp : parses (reader_of src) section opt = true).
      { apply elem_of_cons in Hsec as [->|Hsec].
        - apply parses_of_missing, Hmissing. constructor.
        - apply elem_of_cons in Hsec as [->|Hsec]; [apply Hparse|].
          apply parses_of_missing, Hmissing. now constructor. }
      unfold parses in Hp. rewrite Hget, Hl in Hp. discriminate Hp.
Qed.

End ServerOnly.

(** X20. The server section is the only one that [configure] needs.
    Take an unconfigured instance without earlier errors and a settings
    file with no [robottelo] section and none of the eleven optional
    sections, in a process whose [logging] module and NailGun accept the
    calls made to them.  If the parser answers for every option of the
    server section, gives a hostname and an ssh key or an ssh password,
    and no port or one that [int] accepts, then [configure] returns: the
    flag is set and no validation error was collected. *)
Theorem configure_server_section_suffices `{Casters} (self : Settings.t)
    (world : World) (src : RawConfigSource) (level : pyval) :
  Settings.configured self = false ->
  Settings._validation_errors self = [] ->
  settings_file world = Some (Ok src) ->
  accepting world ->
  cast_logging_level "debug" = Ok level ->
  (forall name, name ∈ "robottelo" :: Settings.optional_sections ->
                INIReader.has_section (reader_of src) name = false) ->
  (forall opt, parses (reader_of src) "server" opt = true) ->
  present (reader_of src) "server" "hostname" = true ->
  present (reader_of src) "server" "ssh_key" ||
    present (reader_of src) "server" "ssh_password" = true ->
  (forall raw, option_value src "server" "port" = Some raw ->
               exists port, py_int raw = Ok port) ->
  exists self' world',
    Settings.configure (self, world) = (Ok tt, (self', world')) /\
    Settings.configured self' = true /\
    Settings._validation_errors self' = [].
Proof.
  intros Hc Herr Hf Hacc Hlevel Habs Hparse Hhost Hssh Hport.
  destruct (read_sections_server_only src (with_reader src self) level
              Hlevel Habs Hparse Hhost Hssh Hport) as (self1 & Hread & Hsame).
  assert (Hnil : Settings._validation_errors self1 = []).
  { rewrite Hsame. exact Herr. }
  destruct (read_phase_url _ _ _ Hread) as (url & Hurl).
  exists (Settings.set__configured true self1),
    (logged (opened world) (success_events self1 world url)).
  split; [|split; [reflexivity | exact Hnil]].
  rewrite (configure_unconfigured _ _ _ Hc Hf), Hread.
  rewrite (bool_decide_eq_true_2 _ Hnil).
  rewrite (side_effects_trace _ _ _ Hacc Hurl). reflexivity.
Qed.

(** A parser that serves its values as they are answers every lookup. *)
Lemma parses_plain (values : gmap string (gmap string string)) section opt :
  parses (reader_of (Samples.plain values)) section opt = true.
Proof.
  unfold parses, reader_of, Samples.plain, ConfigParser_get.
  cbn [INIReader.config_parser]. unfold RawConfigSource.
  rewrite lookup_fmap.
  destruct (values !! section) as [opts|];
    cbn [fmap option_fmap option_map].
  - rewrite lookup_fmap. destruct (opts !! opt); reflexivity.
  - destruct (bool_decide (section = DEFAULTSECT)); reflexivity.
Qed.

Lemma configure_server_section_suffices_witness :
  exists self' world',
    Settings.configure (H:=robottelo_casters)
      (Settings.__init__, Samples.world_of Samples.with_port) =
      (Ok tt, (self', world')) /\
    Settings.configured self' = true /\
    Settings._validation_errors self' = [].
Proof.
  apply (configure_server_section_suffices (H:=robottelo_casters)
           Settings.__init__ (Samples.world_of Samples.with_port)
           Samples.with_port (VInt 10)).
  - reflexivity.
  - reflexivity.
  - reflexivity.
  - intros ev. reflexivity.
  - vm_compute. reflexivity.
  - intros name Hin.
    repeat (apply elem_of_cons in Hin as [->|Hin]; [vm_compute; reflexivity|]).
    now apply elem_of_nil in Hin.
  - intros opt. apply parses_plain.
  - vm_compute. reflexivity.
  - vm_compute. reflexivity.
  - intros raw Hraw. exists (VInt 8080).
    assert (Hv : option_value Samples.with_port "server" "port" = Some "8080")
      by (vm_compute; reflexivity).
    rewrite Hv in Hraw. injection Hraw as <-. vm_compute. reflexivity.
Defined.

(** ** Failures that are not validation errors *)

(** X21. The side effects are not undone when one of them fails.  When
    the read phase has returned without validation errors, [logging.conf]
    exists and [fileConfig] raises on it, while the three logging calls
    before it are accepted, [configure] raises the exception of
    [fileConfig].  The flag stays false, but the capture of warnings and
    the two levels set before the failure remain in effect, and nothing
    after it is done. *)
Theorem configure_logging_failure_not_rolled_back `{Casters}
    (self self1 : Settings.t) (world : World) (src : RawConfigSource)
    (e : exn) :
  Settings.configured self = false ->
  settings_file world = Some (Ok src) ->
  Settings.read_sections (reader_of src) (with_reader src self) =
    (Ok tt, self1) ->
  Settings._validation_errors self1 = [] ->
  logging_conf world = true ->
  library world (EvCaptureWarnings true) = None ->
  library world (EvSetLevel "nailgun" (Settings.verbosity self1)) = None ->
  library world (EvSetLevel "robottelo" (Settings.verbosity self1)) = None ->
  library world
    (EvFileConfig (path_join (project_root world) "logging.conf")) = Some e ->
  Settings.configure (self, world) =
    (Raise e,
     (self1,
      logged (opened world)
        [EvCaptureWarnings true;
         EvSetLevel "nailgun" (Settings.verbosity self1);
         EvSetLevel "robottelo" (Settings.verbosity self1)])) /\
  Settings.configured self1 = false.
Proof.
  intros Hc Hf Hread Hnil Hconf Hcap Hnail Hrob Hfile.
  split; [|rewrite (read_phase_configured _ _ _ _ Hread); exact Hc].
  rewrite (configure_unconfigured _ _ _ Hc Hf), Hread.
  rewrite (bool_decide_eq_true_2 _ Hnil).
  destruct world as [root file conf lib tr].
  cbn [logging_conf library project_root] in *. subst conf.
  unfold side_effects, Settings._configure_logging, logged, opened, call.
  unfold emit, bind, modify, gets, lift, ret.
  cbn [fst snd project_root settings_file logging_conf library trace].
  rewrite Hcap.
  cbn [fst snd project_root settings_file logging_conf library trace].
  rewrite Hnail.
  cbn [fst snd project_root settings_file logging_conf library trace].
  rewrite Hrob.
  cbn [fst snd project_root settings_file logging_conf library trace].
  rewrite Hfile. rewrite <- !app_assoc. reflexivity.
Qed.

Lemma configure_logging_failure_not_rolled_back_witness :
  let world :=
    {| project_root := "/opt/robottelo";
       settings_file := Some (Ok Samples.minimal);
       logging_conf := true;
       library := fun ev =>
         match ev with
         | EvFileConfig _ => Some (KeyError "formatters")
         | _ => None
         end;
       trace := [] |} in
  let self1 :=
    (Settings.read_sections (H:=robottelo_casters)
       (reader_of Samples.minimal)
       (with_reader Samples.minimal Settings.__init__)).2 in
  Settings.configure (H:=robottelo_casters) (Settings.__init__, world) =
    (Raise (KeyError "formatters"),
     (self1,
      logged (opened world)
        [EvCaptureWarnings true;
         EvSetLevel "nailgun" (Settings.verbosity self1);
         EvSetLevel "robottelo" (Settings.verbosity self1)])) /\
  Settings.configured self1 = false.
Proof.
  intros world self1.
  apply (configure_logging_failure_not_rolled_back (H:=robottelo_casters)
           Settings.__init__ self1 world Samples.minimal
           (KeyError "formatters")).
  - reflexivity.
  - reflexivity.
  - vm_compute. reflexivity.
  - vm_compute. reflexivity.
  - reflexivity.
  - reflexivity.
  - reflexivity.
  - reflexivity.
  - reflexivity.
Defined.

(** X22. A value on which the parser's interpolation fails is a hard
    failure even for an option read without a cast: when the parser
    raises on the admin password, the first option that
    [ServerSettings.read] fetches, [read] raises that exception and has
    assigned nothing. *)
Theorem server_read_interpolation_failure `{Casters} (reader : INIReader.t)
    (self : ServerSettings.t) (e : exn) :
  ConfigParser_get (INIReader.config_parser reader)
    "server" "admin_password" = Raise e ->
  is_lookup_error e = false ->
  ServerSettings.read reader self = (Raise e, self).
Proof.
  intros Hget Hl. unfold ServerSettings.read.
  unfold bind at 1, assign at 1.
  rewrite (get_parser_failure _ _ _ _ _ _ Hget), Hl. reflexivity.
Qed.

Lemma server_read_interpolation_failure_witness :
  ServerSettings.read (H:=robottelo_casters)
    (reader_of Samples.bad_interpolation) ServerSettings.__init__ =
  (Raise (InterpolationError
            "'%' must be followed by '%' or '(', found: '%cd'"),
   ServerSettings.__init__).
Proof.
  apply (server_read_interpolation_failure (H:=robottelo_casters)
           (reader_of Samples.bad_interpolation) ServerSettings.__init__).
  - reflexivity.
  - reflexivity.
Defined.
